(** * jack_delay GUI: the latency measurement controller of [latency_test.py]

    A shallow embedding of the class [LatencyTesterApp]: its handlers on the
    output of the measurement tool, the life cycle of the tool's process, and
    the automatic connection of the selected physical ports to the tool's
    ports.  Python [str] values are sequences of Unicode code points, floats
    are IEEE 754 binary64 numbers, the attributes of the application object
    are the fields of one record, and what the handlers do to the outside
    (standard output, the JACK graph, the child process) is threaded through
    explicitly. *)

From Stdlib Require Import List String Ascii Bool Arith ZArith NArith Lia.
From Stdlib Require Import SpecFloat DecimalString.
Import ListNotations.

Set Implicit Arguments.

(** ** Text *)

(** A character of a Python [str] is a Unicode code point. *)
Definition char := N.
Definition text := list char.

(** A literal of the source, all of which are ASCII. *)
Definition str (s : string) : text := map N_of_ascii (list_ascii_of_string s).

Definition text_eqb (a b : text) : bool :=
  if list_eq_dec N.eq_dec a b then true else false.

(** [needle in haystack] on [str]. *)
Fixpoint starts_with (p s : text) : bool :=
  match p, s with
  | [], _ => true
  | _ :: _, [] => false
  | a :: p', b :: s' => N.eqb a b && starts_with p' s'
  end.

Fixpoint contains (needle hay : text) : bool :=
  starts_with needle hay ||
  match hay with
  | [] => false
  | _ :: hay' => contains needle hay'
  end.

(** ** The Python runtime the program runs on

    What [re] and [float] take from the Unicode database, and which
    summation [sum] performs, depend on the interpreter's version and are not
    fixed by the repository: they are an interface here. *)
Class PyRuntime := {
  (** the decimal value of a code point of category Nd, which is what
      [\d] matches and what [float] reads as a digit *)
  py_digit : char -> option N;
  (** the code points [\s] matches *)
  py_space : char -> bool;
  (** whether [sum] adds floats with Neumaier's compensation (CPython 3.12 and
      later) or one after the other (before) *)
  py_sum_compensated : bool
}.

(** The code points of category Nd come in runs of ten, one run per script;
    these are the zeros of the runs in Unicode 14.0. *)
Definition nd_zeros : list N :=
  [48; 1632; 1776; 1984; 2406; 2534; 2662; 2790; 2918; 3046; 3174; 3302; 3430;
   3558; 3664; 3792; 3872; 4160; 4240; 6112; 6160; 6470; 6608; 6784; 6800;
   6992; 7088; 7232; 7248; 42528; 43216; 43264; 43472; 43504; 43600; 44016;
   65296; 66720; 68912; 69734; 69872; 69942; 70096; 70384; 70736; 70864;
   71248; 71360; 71472; 71904; 72016; 72784; 73040; 73120; 92768; 92864;
   93008; 120782; 120792; 120802; 120812; 120822; 123200; 123632; 125264;
   130032]%N.

Fixpoint digit_in (zeros : list N) (c : char) : option N :=
  match zeros with
  | [] => None
  | z :: zs =>
      if ((z <=? c) && (c <? z + 10))%N then Some (c - z)%N
      else digit_in zs c
  end.

(** The white space of Unicode, as [str.isspace] and [\s] have it. *)
Definition unicode_spaces : list N :=
  [9; 10; 11; 12; 13; 28; 29; 30; 31; 32; 133; 160; 5760; 8192; 8193; 8194;
   8195; 8196; 8197; 8198; 8199; 8200; 8201; 8202; 8232; 8233; 8239; 8287;
   12288]%N.

(** CPython 3.11, with Unicode 14.0, and CPython 3.12 with the same tables. *)
Definition cpython311 : PyRuntime :=
  {| py_digit := digit_in nd_zeros;
     py_space := fun c => existsb (N.eqb c) unicode_spaces;
     py_sum_compensated := false |}.

Definition cpython312 : PyRuntime :=
  {| py_digit := digit_in nd_zeros;
     py_space := fun c => existsb (N.eqb c) unicode_spaces;
     py_sum_compensated := true |}.

(** ** Regular expressions, as [re] matches them

    The fragment the two patterns of the source are written in: a character
    class, a greedy [+] on a class, concatenation and a capturing group.  The
    matcher is a backtracking one: it lists the ways a pattern matches at the
    start of a text in the order [re] tries them, so the head of the list is
    the match [re] reports. *)
Inductive cclass :=
  | Digit             (* \d *)
  | Space             (* \s *)
  | Lit (c : char).   (* the character itself *)

Inductive regex :=
  | Eps
  | Cls (k : cclass)
  | Plus (k : cclass)
  | Cat (r1 r2 : regex)
  | Group (r : regex).

(** One way of matching: the text consumed, the groups captured in the
    order they open, and the text left. *)
Record rmatch := { matched : text; groups : list text; rest : text }.

Section Regex.
Context {py : PyRuntime}.

Definition in_class (k : cclass) (c : char) : bool :=
  match k with
  | Digit => match py_digit c with Some _ => true | None => false end
  | Space => py_space c
  | Lit a => N.eqb a c
  end.

Definition extend (c : char) (m : rmatch) : rmatch :=
  {| matched := c :: matched m; groups := groups m; rest := rest m |}.

(** [k+]: the longest run first, then the shorter ones. *)
Fixpoint match_plus (k : cclass) (s : text) : list rmatch :=
  match s with
  | [] => []
  | c :: s' =>
      if in_class k c
      then map (extend c) (match_plus k s')
           ++ [{| matched := [c]; groups := []; rest := s' |}]
      else []
  end.

Definition then_match (m1 m2 : rmatch) : rmatch :=
  {| matched := matched m1 ++ matched m2;
     groups := groups m1 ++ groups m2;
     rest := rest m2 |}.

Definition capture (m : rmatch) : rmatch :=
  {| matched := matched m; groups := matched m :: groups m; rest := rest m |}.

Fixpoint match_at (r : regex) (s : text) : list rmatch :=
  match r with
  | Eps => [{| matched := []; groups := []; rest := s |}]
  | Cls k =>
      match s with
      | c :: s' =>
          if in_class k c
          then [{| matched := [c]; groups := []; rest := s' |}]
          else []
      | [] => []
      end
  | Plus k => match_plus k s
  | Cat r1 r2 =>
      flat_map (fun m1 => map (then_match m1) (match_at r2 (rest m1)))
               (match_at r1 s)
  | Group r' => map capture (match_at r' s)
  end.

(** [re.search(r, s)]: the first match at the leftmost position that has
    one. *)
Fixpoint search (r : regex) (s : text) : option rmatch :=
  match match_at r s with
  | m :: _ => Some m
  | [] =>
      match s with
      | [] => None
      | _ :: s' => search r s'
      end
  end.

(** [m.group(i)] for [i >= 1]. *)
Definition group (m : rmatch) (i : nat) : text := nth (i - 1) (groups m) [].
End Regex.

Fixpoint lits (s : text) : regex :=
  match s with
  | [] => Eps
  | [c] => Cls (Lit c)
  | c :: s' => Cat (Cls (Lit c)) (lits s')
  end.

Fixpoint seq_of (rs : list regex) : regex :=
  match rs with
  | [] => Eps
  | [r] => r
  | r :: rs' => Cat r (seq_of rs')
  end.

(** [\d+\.\d+] *)
Definition decimal_number : regex :=
  seq_of [Plus Digit; Cls (Lit 46%N); Plus Digit].

(** [r'\d+\.\d+\s+ms'] *)
Definition ms_pattern : regex :=
  seq_of [decimal_number; Plus Space; lits (str "ms")].

(** [r'(\d+\.\d+)\s+frames\s+(\d+\.\d+)\s+ms'] *)
Definition frames_ms_pattern : regex :=
  seq_of [Group decimal_number; Plus Space; lits (str "frames"); Plus Space;
          Group decimal_number; Plus Space; lits (str "ms")].

(** ** [str.splitlines]

    The line boundaries of Python: LF, CR, CR LF, VT, FF, FS, GS, RS, NEL, LS
    and PS.  The boundary is not part of the line, and a CR LF pair is one
    boundary. *)
Definition LF : char := 10%N.
Definition CR : char := 13%N.

Definition is_linebreak (c : char) : bool :=
  existsb (N.eqb c) [10; 13; 11; 12; 28; 29; 30; 133; 8232; 8233]%N.

(** [cur] is the line being read; [after_cr] says that the character before
    was a CR, whose LF, if it comes now, belongs to the same boundary. *)
Fixpoint splitlines_from (cur : text) (after_cr : bool) (s : text) : list text :=
  match s with
  | [] => match cur with [] => [] | _ => [cur] end
  | c :: s' =>
      if after_cr && N.eqb c LF then splitlines_from cur false s'
      else if is_linebreak c then cur :: splitlines_from [] (N.eqb c CR) s'
      else splitlines_from (cur ++ [c]) false s'
  end.

Definition splitlines (s : text) : list text := splitlines_from [] false s.

(** ** Floats

    A Python [float] is an IEEE 754 binary64 number; the operations round to
    nearest, ties to even. *)
Definition float := spec_float.
Definition prec : Z := 53.
Definition emax : Z := 1024.

Definition fadd : float -> float -> float := SFadd prec emax.
Definition fsub : float -> float -> float := SFsub prec emax.
Definition fdiv : float -> float -> float := SFdiv prec emax.
Definition fzero : float := S754_zero false.

(** The float nearest to an [int]. *)
Definition float_of_int (n : Z) : float := binary_normalize prec emax n 0 false.

Section Floats.
Context {py : PyRuntime}.

(** The digits of a run, most significant first, as a number. *)
Fixpoint digits_value (acc : N) (s : text) : option N :=
  match s with
  | [] => Some acc
  | c :: s' =>
      match py_digit c with
      | Some d => digits_value (10 * acc + d) s'
      | None => None
      end
  end.

Fixpoint split_at_dot (s : text) : option (text * text) :=
  match s with
  | [] => None
  | c :: s' =>
      if N.eqb c 46 then Some ([], s')
      else match split_at_dot s' with
           | Some (a, b) => Some (c :: a, b)
           | None => None
           end
  end.

(** [float(s)] on the strings the handler passes to it, which have the form
    [\d+\.\d+]: the binary64 number nearest to the decimal number read.
    [None] stands for [ValueError]; a string of another form is taken to
    raise it, although [float] reads more forms than this one (signs,
    exponents, [inf], surrounding white space).  *)
Definition py_float (s : text) : option float :=
  match split_at_dot s with
  | Some (a :: ipart, b :: fpart) =>
      match digits_value 0 (a :: ipart ++ b :: fpart) with
      | Some n =>
          match n with
          | N0 => Some fzero
          | Npos p =>
              Some (fdiv (S754_finite false p 0)
                         (S754_finite false
                            (Pos.pow 10 (Pos.of_succ_nat (List.length fpart))) 0))
          end
      | None => None
      end
  | _ => None
  end.

(** Neumaier's compensated summation, as [sum] runs it from CPython 3.12
    on: [f] is the running sum and [c] the compensation. *)
Fixpoint neumaier (f c : float) (xs : list float) : float :=
  match xs with
  | [] =>
      match c with
      | S754_finite _ _ _ => fadd f c
      | _ => f
      end
  | x :: xs' =>
      let t := fadd f x in
      let c' :=
        if SFleb (SFabs x) (SFabs f)
        then fadd c (fadd (fsub f t) x)
        else fadd c (fadd (fsub x t) f) in
      neumaier t c' xs'
  end.

(** [sum(xs)] on floats.  It starts from the [int] 0, to which the first
    float is added as a float; the sum of no float at all is that 0. *)
Definition py_sum (xs : list float) : float :=
  match xs with
  | [] => fzero
  | x :: xs' =>
      let f0 := fadd (float_of_int 0) x in
      if py_sum_compensated then neumaier f0 fzero xs'
      else fold_left fadd xs' f0
  end.
End Floats.

(** [str(n)] for an [int]. *)
Definition str_of_N (n : N) : text := str (NilZero.string_of_uint (N.to_uint n)).

Definition str_of_int (n : Z) : text :=
  match n with
  | Zneg p => str "-" ++ str_of_N (Npos p)
  | _ => str_of_N (Z.to_N n)
  end.

Definition digit_char (d : N) : char := (48 + d)%N.

(** The integer nearest to [m * 2^e * 1000], ties to even. *)
Definition round_thousandths (m : positive) (e : Z) : N :=
  match e with
  | Zneg k =>
      let d := N.pow 2 (Npos k) in
      let n := (Npos m * 1000)%N in
      let q := (n / d)%N in
      let r := (n mod d)%N in
      match (2 * r ?= d)%N with
      | Lt => q
      | Gt => (q + 1)%N
      | Eq => if N.even q then q else (q + 1)%N
      end
  | _ => (Npos m * N.pow 2 (Z.to_N e) * 1000)%N
  end.

(** [f"{x:.3f}"]: the decimal number with three digits after the point that
    is nearest to [x], ties to even. *)
Definition format_3f (x : float) : text :=
  match x with
  | S754_zero s => (if s then str "-" else []) ++ str "0.000"
  | S754_infinity s => (if s then str "-" else []) ++ str "inf"
  | S754_nan => str "nan"
  | S754_finite s m e =>
      let n := round_thousandths m e in
      (if s then str "-" else [])
      ++ str_of_N (n / 1000)
      ++ str "."
      ++ [digit_char (n / 100 mod 10); digit_char (n / 10 mod 10);
          digit_char (n mod 10)]
  end.

(** ** Qt: processes and timers

    What the program uses of [QProcess] and [QTimer].  The object carries,
    next to what Qt keeps, how the child answers a signal: this is what
    [waitForFinished] waits for, and is chosen by the host, not by the
    program. *)
Inductive ProcessState := NotRunning | Starting | Running.
Inductive ExitStatus := NormalExit | CrashExit.
Inductive ProcessError :=
  FailedToStart | Crashed | Timedout | WriteError | ReadError | UnknownError.

Definition is_NotRunning (s : ProcessState) : bool :=
  match s with NotRunning => true | _ => false end.

Definition is_NormalExit (s : ExitStatus) : bool :=
  match s with NormalExit => true | CrashExit => false end.

Definition is_CrashExit (s : ExitStatus) : bool :=
  match s with CrashExit => true | NormalExit => false end.

(** [f"{error}"] for a member of the enumeration. *)
Definition show_ProcessError (e : ProcessError) : text :=
  str "ProcessError." ++
  match e with
  | FailedToStart => str "FailedToStart"
  | Crashed => str "Crashed"
  | Timedout => str "Timedout"
  | WriteError => str "WriteError"
  | ReadError => str "ReadError"
  | UnknownError => str "UnknownError"
  end.

(** How the child ends: exit code and exit status. *)
Definition exit_info := (Z * ExitStatus)%type.

Record QProcess := {
  proc_state : ProcessState;
  proc_program : text;
  proc_arguments : list text;
  proc_errorString : text;
  (** the end of the child within the 500 ms that follow [terminate()], if it
      ends by then *)
  proc_on_terminate : option exit_info;
  (** the end of the child while [waitForFinished()] waits after [kill()],
      if it ends by then *)
  proc_on_kill : option exit_info
}.

Definition with_state (s : ProcessState) (p : QProcess) : QProcess :=
  {| proc_state := s; proc_program := proc_program p;
     proc_arguments := proc_arguments p;
     proc_errorString := proc_errorString p;
     proc_on_terminate := proc_on_terminate p;
     proc_on_kill := proc_on_kill p |}.

Definition with_errorString (e : text) (p : QProcess) : QProcess :=
  {| proc_state := proc_state p; proc_program := proc_program p;
     proc_arguments := proc_arguments p;
     proc_errorString := e;
     proc_on_terminate := proc_on_terminate p;
     proc_on_kill := proc_on_kill p |}.

Record QTimer := {
  isActive : bool;
  isSingleShot : bool;
  interval : Z;
  (** how many times [timeout] has been connected to [stop_latency_test] *)
  timeout_slots : nat
}.

Definition timer_stop (t : QTimer) : QTimer :=
  {| isActive := false; isSingleShot := isSingleShot t;
     interval := interval t; timeout_slots := timeout_slots t |}.

(** ** Qt: the plain text of a [QTextEdit]

    [insertPlainText] starts a new block of the document at a line feed, at
    a carriage return, a line feed that follows it being taken with it, at
    U+2029, and at U+FDD0 and U+FDD1, the marks of a frame; the other
    characters go into the block as they are.  [toPlainText] gives a line
    feed for the end of each block but the last and for U+2028, a space for
    U+00A0, and the other characters as they are. *)
Definition LS : char := 8232%N.
Definition PS : char := 8233%N.
Definition NBSP : char := 160%N.
Definition frame_begin : char := 64976%N.
Definition frame_end : char := 64977%N.
Definition SPACE : char := 32%N.

Definition starts_block (c : char) : bool :=
  N.eqb c PS || N.eqb c frame_begin || N.eqb c frame_end.

(** What [toPlainText] gives for [data] inserted by [insertPlainText],
    [after_cr] telling that the character before was a carriage return. *)
Fixpoint plain_text_from (after_cr : bool) (data : text) : text :=
  match data with
  | [] => []
  | c :: rest =>
      if N.eqb c LF then
        if after_cr then plain_text_from false rest
        else LF :: plain_text_from false rest
      else if N.eqb c CR then LF :: plain_text_from true rest
      else if starts_block c || N.eqb c LS then LF :: plain_text_from false rest
      else if N.eqb c NBSP then SPACE :: plain_text_from false rest
      else c :: plain_text_from false rest
  end.

Definition plain_text : text -> text := plain_text_from false.

(** The characters that the widget gives back as they were inserted. *)
Definition kept_as_is (c : char) : bool :=
  negb (N.eqb c CR || starts_block c || N.eqb c LS || N.eqb c NBSP).

(** ** The host: what [shutil.which] finds and how a launched tool ends *)
Record Host := {
  which : text -> option text;
  child_on_terminate : text -> option exit_info;
  child_on_kill : text -> option exit_info
}.

(** ** JACK

    The calls the program makes on its [jack.Client], over a graph of some
    type [G] owned by the JACK server.  A call either answers or raises
    [jack.JackError], the exception of the binding. *)
Inductive result (A : Type) :=
  | Ok (a : A)
  | JackError (msg : text).
Arguments Ok {A} a.
Arguments JackError {A} msg.

(** The keyword arguments of [get_ports], each [False] when not given. *)
Record PortQuery := {
  is_physical : bool; is_audio : bool; is_input : bool; is_output : bool
}.

Class JackClient (G : Type) := {
  (** the names of the ports selected *)
  get_ports : G -> PortQuery -> result (list text);
  (** the names of the ports connected to the port of that name *)
  get_all_connections : G -> text -> result (list text);
  (** the graph with the connection made *)
  connect : G -> text -> text -> result G
}.

(** ** What the program does to the outside, in the order it does it *)
Inductive Slot := Slot_attempt_latency_auto_connection | Slot_populate_latency_combos.

Inductive Effect :=
  | Print (line : text)
  | ProcessStart (program : text) (arguments : list text)
  | ProcessTerminate
  | ProcessKill
  | CallGetPorts (q : PortQuery)
  | CallGetAllConnections (port : text)
  | CallConnect (source destination : text) (succeeded : bool)
  | SingleShot (msec : Z) (slot : Slot).

(** ** The application object *)
Record App := {
  callbacks_enabled : bool;
  latency_process : option QProcess;
  latency_values : list (float * float);
  latency_timer : QTimer;
  latency_waiting_for_connection : bool;
  latency_selected_input_alias : option text;
  latency_selected_output_alias : option text;
  (** the widgets: the plain text of the results, whether each button is
      enabled, whether the box is checked *)
  latency_results_text : text;
  latency_run_button : bool;
  latency_stop_button : bool;
  latency_raw_output_checkbox : bool;
  (** what has been done to the outside so far, oldest first *)
  effects : list Effect
}.

Definition set_process (p : option QProcess) (a : App) : App :=
  {| callbacks_enabled := callbacks_enabled a; latency_process := p;
     latency_values := latency_values a; latency_timer := latency_timer a;
     latency_waiting_for_connection := latency_waiting_for_connection a;
     latency_selected_input_alias := latency_selected_input_alias a;
     latency_selected_output_alias := latency_selected_output_alias a;
     latency_results_text := latency_results_text a;
     latency_run_button := latency_run_button a;
     latency_stop_button := latency_stop_button a;
     latency_raw_output_checkbox := latency_raw_output_checkbox a;
     effects := effects a |}.

Definition set_values (v : list (float * float)) (a : App) : App :=
  {| callbacks_enabled := callbacks_enabled a;
     latency_process := latency_process a;
     latency_values := v; latency_timer := latency_timer a;
     latency_waiting_for_connection := latency_waiting_for_connection a;
     latency_selected_input_alias := latency_selected_input_alias a;
     latency_selected_output_alias := latency_selected_output_alias a;
     latency_results_text := latency_results_text a;
     latency_run_button := latency_run_button a;
     latency_stop_button := latency_stop_button a;
     latency_raw_output_checkbox := latency_raw_output_checkbox a;
     effects := effects a |}.

Definition set_timer (t : QTimer) (a : App) : App :=
  {| callbacks_enabled := callbacks_enabled a;
     latency_process := latency_process a;
     latency_values := latency_values a; latency_timer := t;
     latency_waiting_for_connection := latency_waiting_for_connection a;
     latency_selected_input_alias := latency_selected_input_alias a;
     latency_selected_output_alias := latency_selected_output_alias a;
     latency_results_text := latency_results_text a;
     latency_run_button := latency_run_button a;
     latency_stop_button := latency_stop_button a;
     latency_raw_output_checkbox := latency_raw_output_checkbox a;
     effects := effects a |}.

Definition set_waiting (w : bool) (a : App) : App :=
  {| callbacks_enabled := callbacks_enabled a;
     latency_process := latency_process a;
     latency_values := latency_values a; latency_timer := latency_timer a;
     latency_waiting_for_connection := w;
     latency_selected_input_alias := latency_selected_input_alias a;
     latency_selected_output_alias := latency_selected_output_alias a;
     latency_results_text := latency_results_text a;
     latency_run_button := latency_run_button a;
     latency_stop_button := latency_stop_button a;
     latency_raw_output_checkbox := latency_raw_output_checkbox a;
     effects := effects a |}.

Definition set_input_alias (x : option text) (a : App) : App :=
  {| callbacks_enabled := callbacks_enabled a;
     latency_process := latency_process a;
     latency_values := latency_values a; latency_timer := latency_timer a;
     latency_waiting_for_connection := latency_waiting_for_connection a;
     latency_selected_input_alias := x;
     latency_selected_output_alias := latency_selected_output_alias a;
     latency_results_text := latency_results_text a;
     latency_run_button := latency_run_button a;
     latency_stop_button := latency_stop_button a;
     latency_raw_output_checkbox := latency_raw_output_checkbox a;
     effects := effects a |}.

Definition set_output_alias (x : option text) (a : App) : App :=
  {| callbacks_enabled := callbacks_enabled a;
     latency_process := latency_process a;
     latency_values := latency_values a; latency_timer := latency_timer a;
     latency_waiting_for_connection := latency_waiting_for_connection a;
     latency_selected_input_alias := latency_selected_input_alias a;
     latency_selected_output_alias := x;
     latency_results_text := latency_results_text a;
     latency_run_button := latency_run_button a;
     latency_stop_button := latency_stop_button a;
     latency_raw_output_checkbox := latency_raw_output_checkbox a;
     effects := effects a |}.

(** [latency_results_text.setText(t)] *)
Definition setText (t : text) (a : App) : App :=
  {| callbacks_enabled := callbacks_enabled a;
     latency_process := latency_process a;
     latency_values := latency_values a; latency_timer := latency_timer a;
     latency_waiting_for_connection := latency_waiting_for_connection a;
     latency_selected_input_alias := latency_selected_input_alias a;
     latency_selected_output_alias := latency_selected_output_alias a;
     latency_results_text := t;
     latency_run_button := latency_run_button a;
     latency_stop_button := latency_stop_button a;
     latency_raw_output_checkbox := latency_raw_output_checkbox a;
     effects := effects a |}.

(** [latency_run_button.setEnabled(b)] and [latency_stop_button.setEnabled(b)] *)
Definition set_run_enabled (b : bool) (a : App) : App :=
  {| callbacks_enabled := callbacks_enabled a;
     latency_process := latency_process a;
     latency_values := latency_values a; latency_timer := latency_timer a;
     latency_waiting_for_connection := latency_waiting_for_connection a;
     latency_selected_input_alias := latency_selected_input_alias a;
     latency_selected_output_alias := latency_selected_output_alias a;
     latency_results_text := latency_results_text a;
     latency_run_button := b;
     latency_stop_button := latency_stop_button a;
     latency_raw_output_checkbox := latency_raw_output_checkbox a;
     effects := effects a |}.

Definition set_stop_enabled (b : bool) (a : App) : App :=
  {| callbacks_enabled := callbacks_enabled a;
     latency_process := latency_process a;
     latency_values := latency_values a; latency_timer := latency_timer a;
     latency_waiting_for_connection := latency_waiting_for_connection a;
     latency_selected_input_alias := latency_selected_input_alias a;
     latency_selected_output_alias := latency_selected_output_alias a;
     latency_results_text := latency_results_text a;
     latency_run_button := latency_run_button a;
     latency_stop_button := b;
     latency_raw_output_checkbox := latency_raw_output_checkbox a;
     effects := effects a |}.

(** The user checks or clears the box. *)
Definition set_checkbox (b : bool) (a : App) : App :=
  {| callbacks_enabled := callbacks_enabled a;
     latency_process := latency_process a;
     latency_values := latency_values a; latency_timer := latency_timer a;
     latency_waiting_for_connection := latency_waiting_for_connection a;
     latency_selected_input_alias := latency_selected_input_alias a;
     latency_selected_output_alias := latency_selected_output_alias a;
     latency_results_text := latency_results_text a;
     latency_run_button := latency_run_button a;
     latency_stop_button := latency_stop_button a;
     latency_raw_output_checkbox := b;
     effects := effects a |}.

Definition emit (e : Effect) (a : App) : App :=
  {| callbacks_enabled := callbacks_enabled a;
     latency_process := latency_process a;
     latency_values := latency_values a; latency_timer := latency_timer a;
     latency_waiting_for_connection := latency_waiting_for_connection a;
     latency_selected_input_alias := latency_selected_input_alias a;
     latency_selected_output_alias := latency_selected_output_alias a;
     latency_results_text := latency_results_text a;
     latency_run_button := latency_run_button a;
     latency_stop_button := latency_stop_button a;
     latency_raw_output_checkbox := latency_raw_output_checkbox a;
     effects := effects a ++ [e] |}.

Definition print (line : text) : App -> App := emit (Print line).

Definition emits (l : list Effect) (a : App) : App :=
  fold_left (fun a e => emit e a) l a.

(** [latency_results_text.append(t)]: a new paragraph at the end, which on an
    empty document is the first one. *)
Definition append (t : text) (a : App) : App :=
  match latency_results_text a with
  | [] => setText t a
  | old => setText (old ++ str (String "010" EmptyString) ++ t) a
  end.

(** [latency_results_text.clear()] *)
Definition clear : App -> App := setText [].

(** [moveCursor(End); insertPlainText(data); moveCursor(End)], the text of
    the widget being what [toPlainText()] gives. *)
Definition insertPlainText_at_end (data : text) (a : App) : App :=
  setText (latency_results_text a ++ plain_text data) a.

(** The new line of Python's string literals. *)
Definition nl : text := [LF].

(** ** The handlers of [LatencyTesterApp] *)

(** [x is not None and x.state() != NotRunning] on [latency_process]. *)
Definition process_running (a : App) : bool :=
  match latency_process a with
  | Some p => negb (is_NotRunning (proc_state p))
  | None => false
  end.

(** The truth value of an attribute that is [None] or a [str]. *)
Definition truthy (x : option text) : bool :=
  match x with
  | Some (_ :: _) => true
  | _ => false
  end.

Definition alias_text (x : option text) : text :=
  match x with
  | Some t => t
  | None => str "None"
  end.

Definition physical_capture : PortQuery :=
  {| is_physical := true; is_audio := true; is_input := false; is_output := true |}.
Definition physical_playback : PortQuery :=
  {| is_physical := true; is_audio := true; is_input := true; is_output := false |}.
Definition audio_inputs : PortQuery :=
  {| is_physical := false; is_audio := true; is_input := true; is_output := false |}.
Definition audio_outputs : PortQuery :=
  {| is_physical := false; is_audio := true; is_input := false; is_output := true |}.

Definition jack_delay_in : text := str "jack_delay:in".
Definition jack_delay_out : text := str "jack_delay:out".

Section Graph.
Context {G : Type} {jack : JackClient G}.

(** [_populate_latency_combos].  The two combo boxes are not part of the
    state here, the selection being kept in the two alias attributes; what
    is left of the method is its two queries and the report of the error of
    the first that fails. *)
Definition _populate_latency_combos (g : G) (a : App) : App :=
  let a := emit (CallGetPorts physical_capture) a in
  match get_ports g physical_capture with
  | JackError e =>
      append (nl ++ str "Error getting JACK ports: " ++ e)
             (print (str "Error getting physical JACK ports: " ++ e) a)
  | Ok _ =>
      let a := emit (CallGetPorts physical_playback) a in
      match get_ports g physical_playback with
      | JackError e =>
          append (nl ++ str "Error getting JACK ports: " ++ e)
                 (print (str "Error getting physical JACK ports: " ++ e) a)
      | Ok _ => a
      end
  end.

(** [make_connection(output_name, input_name)]: the method reads no
    attribute but the client and writes none, so it is given by the graph
    it leaves and by what it prints and calls. *)
Definition make_connection (output_name input_name : text) (g : G)
  : G * list Effect :=
  let try_connect :=
    match connect g output_name input_name with
    | Ok g' =>
        (g', [CallConnect output_name input_name true;
              Print (str "Connected: " ++ output_name ++ str " -> "
                     ++ input_name)])
    | JackError e =>
        (g, [CallConnect output_name input_name false;
             Print (str "Connect error: " ++ e)])
    end in
  match get_all_connections g output_name with
  | Ok connections =>
      if existsb (text_eqb input_name) connections
      then (g, [CallGetAllConnections output_name;
                Print (str "Connection " ++ output_name ++ str " -> "
                       ++ input_name ++ str " already exists, skipping")])
      else (fst try_connect, CallGetAllConnections output_name :: snd try_connect)
  | JackError _ =>
      (fst try_connect, CallGetAllConnections output_name :: snd try_connect)
  end.

(** The handler of [jack.JackError] around the two edges. *)
Definition auto_connection_failed (e : text) (ga : G * App) : G * App :=
  let '(g, a) := ga in
  (g, append (nl ++ str "Error auto-connecting (JACK): " ++ e)
        (print (str "Error during latency auto-connection (JackError): " ++ e) a)).

(** The first edge, from the output of the tool to the playback port
    selected, given the audio input ports of the graph: like
    [make_connection], the graph it leaves and what it prints and calls. *)
Definition connect_tool_output (output_to_connect : text) (ports : list text)
    (g : G) : G * list Effect :=
  if existsb (text_eqb output_to_connect) ports
  then make_connection jack_delay_out output_to_connect g
  else (g, [Print (str "Warning: Target output port '"
                   ++ output_to_connect ++ str "' not found.")]).

(** The second edge, from the capture port selected to the input of the
    tool, given the audio output ports of the graph. *)
Definition connect_tool_input (input_to_connect : text) (ports : list text)
    (g : G) : G * list Effect :=
  if existsb (text_eqb input_to_connect) ports
  then make_connection input_to_connect jack_delay_in g
  else (g, [Print (str "Warning: Target input port '"
                   ++ input_to_connect ++ str "' not found.")]).

(** [_attempt_latency_auto_connection].  No call of the block raises
    anything but [jack.JackError], so its last handler is never entered. *)
Definition _attempt_latency_auto_connection (ga : G * App) : G * App :=
  let '(g, a) := ga in
  if truthy (latency_selected_input_alias a)
     && truthy (latency_selected_output_alias a)
  then
    let output_to_connect := alias_text (latency_selected_output_alias a) in
    let input_to_connect := alias_text (latency_selected_input_alias a) in
    let a := print (str "Attempting auto-connection: jack_delay:out -> "
                    ++ output_to_connect) a in
    let a := print (str "Attempting auto-connection: " ++ input_to_connect
                    ++ str " -> jack_delay:in") a in
    let a := emit (CallGetPorts audio_inputs) a in
    match get_ports g audio_inputs with
    | JackError e => auto_connection_failed e (g, a)
    | Ok ports =>
        let '(g, l) := connect_tool_output output_to_connect ports g in
        let a := emits l a in
        let a := emit (CallGetPorts audio_outputs) a in
        match get_ports g audio_outputs with
        | JackError e => auto_connection_failed e (g, a)
        | Ok ports =>
            let '(g, l) := connect_tool_input input_to_connect ports g in
            (g, emits l a)
        end
    end
  else (g, a).

(** [_on_latency_input_selected(index)] and
    [_on_latency_output_selected(index)], given the data of the item at
    that index. *)
Definition _on_latency_input_selected (itemData : option text) (ga : G * App)
  : G * App :=
  _attempt_latency_auto_connection (fst ga, set_input_alias itemData (snd ga)).

Definition _on_latency_output_selected (itemData : option text) (ga : G * App)
  : G * App :=
  _attempt_latency_auto_connection (fst ga, set_output_alias itemData (snd ga)).
End Graph.

(** [_on_port_registered(port_name, is_input)] *)
Definition _on_port_registered (port_name : text) (is_input : bool) (a : App)
  : App :=
  if negb (callbacks_enabled a) then a
  else
    let a :=
      if text_eqb port_name jack_delay_in || text_eqb port_name jack_delay_out
      then emit (SingleShot 50 Slot_attempt_latency_auto_connection)
             (print (str "Detected registration of " ++ port_name
                     ++ str ", attempting latency auto-connection...") a)
      else a in
    if contains (str "system:") port_name
       || contains (str "alsa_input") port_name
       || contains (str "alsa_output") port_name
    then emit (SingleShot 50 Slot_populate_latency_combos) a
    else a.

(** A port as the callback of JACK receives it. *)
Record Port := { port_name : text; port_is_input : bool }.

(** [_handle_port_registration(port, register)], whose signal is delivered
    to [_on_port_registered]. *)
Definition _handle_port_registration (port : option Port) (register : bool)
    (a : App) : App :=
  match port with
  | None => a
  | Some p =>
      match port_name p with
      | [] => a
      | _ => if register
             then _on_port_registered (port_name p) (port_is_input p) a
             else a
      end
  end.

Definition msg_already_running : text := str "Test already in progress.".

Definition msg_start_raw : text :=
  str "Starting latency test (Raw Output)..." ++ nl
  ++ str "Select ports if not already selected." ++ nl
  ++ str "Attempting auto-connection..." ++ nl.

Definition msg_start_average : text :=
  str "Starting latency test (Average)..." ++ nl
  ++ str "Select ports if not already selected." ++ nl
  ++ str "Attempting auto-connection..." ++ nl
  ++ str "Waiting for measurement signal..." ++ nl.

Definition msg_not_found : text :=
  str "Error: Neither 'jack_delay' nor 'jack_iodelay' found." ++ nl
  ++ str "Depending on your distribution, install jack-delay, jack_delay or jack-example-tools (jack_iodelay).".

Definition msg_connection_detected : text :=
  str "Connection detected. Running test...".

Definition msg_stopped : text := str "Measurement stopped.".

Definition msg_no_readings : text :=
  str "No valid latency readings obtained. Check connections.".

Definition msg_failed (exit_code : Z) : text :=
  str "Test failed (Exit code: " ++ str_of_int exit_code
  ++ str "). Check connections.".

Definition msg_no_valid : text := str "Test finished without valid readings.".

Definition msg_average (average_frames average_ms : float) : text :=
  str "Round-trip latency (average): " ++ format_3f average_frames
  ++ str " frames / " ++ format_3f average_ms ++ str " ms".

(** [QProcess()]: a process object that has not been started. *)
Definition new_QProcess : QProcess :=
  {| proc_state := NotRunning; proc_program := []; proc_arguments := [];
     proc_errorString := str "Unknown error";
     proc_on_terminate := None; proc_on_kill := None |}.

(** [setProgram(program); setArguments(arguments); start()] on it. *)
Definition started_QProcess (h : Host) (program : text) (arguments : list text)
  : QProcess :=
  {| proc_state := Starting; proc_program := program;
     proc_arguments := arguments;
     proc_errorString := str "Unknown error";
     proc_on_terminate := child_on_terminate h program;
     proc_on_kill := child_on_kill h program |}.

Section Start.
Context {G : Type} {jack : JackClient G}.

(** [run_latency_test] *)
Definition run_latency_test (h : Host) (g : G) (a : App) : App :=
  if process_running a then append msg_already_running a
  else
    let a := _populate_latency_combos g a in
    let a := set_run_enabled false a in
    let a := set_stop_enabled true a in
    let a := clear a in
    let a :=
      if latency_raw_output_checkbox a then setText msg_start_raw a
      else setText msg_start_average a in
    let a := set_values [] a in
    let a := set_waiting (negb (latency_raw_output_checkbox a)) a in
    let a := set_process (Some new_QProcess) a in
    let program :=
      match which h (str "jack_delay") with
      | Some p => Some p
      | None => which h (str "jack_iodelay")
      end in
    match program with
    | None =>
        let a := setText msg_not_found a in
        let a := set_run_enabled true a in
        let a := set_stop_enabled false a in
        set_process None a
    | Some program =>
        let arguments := [] in
        emit (ProcessStart program arguments)
          (set_process (Some (started_QProcess h program arguments)) a)
    end.
End Start.

Section Output.
Context {py : PyRuntime}.

(** The body of the loop over the lines. *)
Definition parse_line (values : list (float * float)) (line : text)
  : list (float * float) :=
  match search frames_ms_pattern line with
  | Some m =>
      match py_float (group m 1), py_float (group m 2) with
      | Some latency_frames, Some latency_ms =>
          values ++ [(latency_frames, latency_ms)]
      | _, _ => values
      end
  | None => values
  end.

(** [handle_latency_output], [data] being what
    [readAllStandardOutput().data().decode()] gives. *)
Definition handle_latency_output (data : text) (a : App) : App :=
  match latency_process a with
  | None => a
  | Some _ =>
      if latency_raw_output_checkbox a then insertPlainText_at_end data a
      else
        let a :=
          if latency_waiting_for_connection a then
            match search ms_pattern data with
            | Some _ =>
                let a := set_waiting false a in
                let a := setText msg_connection_detected a in
                set_timer {| isActive := true; isSingleShot := true;
                             interval := 10000;
                             timeout_slots :=
                               S (timeout_slots (latency_timer a)) |} a
            | None => a
            end
          else a in
        if negb (latency_waiting_for_connection a)
        then set_values
               (fold_left parse_line (splitlines data) (latency_values a)) a
        else a
  end.

(** [handle_latency_finished(exit_code, exit_status)] *)
Definition handle_latency_finished (exit_code : Z) (exit_status : ExitStatus)
    (a : App) : App :=
  let a := clear a in
  let a :=
    if latency_raw_output_checkbox a then setText msg_stopped a
    else
      match latency_values a with
      | _ :: _ =>
          let total_frames := py_sum (map fst (latency_values a)) in
          let total_ms := py_sum (map snd (latency_values a)) in
          let count := float_of_int (Z.of_nat (List.length (latency_values a))) in
          let average_frames := fdiv total_frames count in
          let average_ms := fdiv total_ms count in
          setText (msg_average average_frames average_ms) a
      | [] =>
          if is_NormalExit exit_status && Z.eqb exit_code 0
          then setText msg_no_readings a
          else if is_CrashExit exit_status then setText msg_stopped a
          else if negb (Z.eqb exit_code 0) then
            match latency_results_text a with
            | [] => setText (msg_failed exit_code) a
            | _ => a
            end
          else setText msg_no_valid a
      end in
  let a := set_waiting false a in
  let a := set_run_enabled true a in
  let a := set_stop_enabled false a in
  set_process None a.

(** [handle_latency_error(error)].  Its [waitForFinished()] returns once
    the signals of the end of the child, if it ends, have been delivered:
    [reenter] delivers them. *)
Definition handle_latency_error_in (reenter : exit_info -> App -> App)
    (error : ProcessError) (a : App) : App :=
  let error_string :=
    match latency_process a with
    | Some p => proc_errorString p
    | None => str "Unknown error"
    end in
  let a := append (nl ++ str "Error running jack_delay: "
                   ++ show_ProcessError error ++ str " - " ++ error_string) a in
  let a :=
    if isActive (latency_timer a)
    then set_timer (timer_stop (latency_timer a)) a else a in
  let a :=
    match latency_process a with
    | Some p =>
        let a :=
          if negb (is_NotRunning (proc_state p)) then
            let a := emit ProcessKill a in
            match proc_on_kill p with
            | Some x => reenter x a
            | None => a
            end
          else a in
        set_process None a
    | None => a
    end in
  let a := set_waiting false a in
  let a := set_run_enabled true a in
  set_stop_enabled false a.

(** What Qt does when the child has ended: the process object is
    [NotRunning] from then on; [errorOccurred(Crashed)] is emitted if the
    child crashed or was killed by a signal, and then [finished].  The
    handler of the error finds the process [NotRunning], so the wait inside
    it is not entered again. *)
Definition process_exited (x : exit_info) (a : App) : App :=
  let '(exit_code, exit_status) := x in
  let a :=
    match latency_process a with
    | Some p => set_process (Some (with_state NotRunning p)) a
    | None => a
    end in
  let a :=
    match exit_status with
    | CrashExit =>
        let a :=
          match latency_process a with
          | Some p =>
              set_process (Some (with_errorString (str "Process crashed") p)) a
          | None => a
          end in
        handle_latency_error_in (fun _ a => a) Crashed a
    | NormalExit => a
    end in
  handle_latency_finished exit_code exit_status a.

Definition handle_latency_error : ProcessError -> App -> App :=
  handle_latency_error_in process_exited.

(** [self.latency_process.m(...)]: the attribute is read when the call is
    made, and the call raises [AttributeError], here [None], when it holds
    [None] by then. *)
Definition on_process (a : App) (k : QProcess -> option App) : option App :=
  match latency_process a with
  | Some p => k p
  | None => None
  end.

(** [stop_latency_test].  [waitForFinished(500)] is true when the child
    has ended within that time, the signals of its end having been
    delivered before it returns. *)
Definition stop_latency_test (a : App) : option App :=
  let a :=
    if isActive (latency_timer a)
    then set_timer (timer_stop (latency_timer a)) a else a in
  if process_running a then
    let a := append (nl ++ str "Stopping test...") a in
    on_process a (fun _ =>
      let a := emit ProcessTerminate a in
      on_process a (fun p =>
        match proc_on_terminate p with
        | Some x => Some (set_waiting false (process_exited x a))
        | None =>
            on_process a (fun _ =>
              let a := emit ProcessKill a in
              on_process a (fun p =>
                let a :=
                  match proc_on_kill p with
                  | Some x => process_exited x a
                  | None => a
                  end in
                Some (set_waiting false a)))
        end))
  else Some a.

(** The 10 s of the timer are over: a single shot timer is no longer
    active, and each connection of [timeout] made so far calls
    [stop_latency_test]. *)
Fixpoint stop_times (n : nat) (a : App) : option App :=
  match n with
  | O => Some a
  | S n' =>
      match stop_latency_test a with
      | Some a' => stop_times n' a'
      | None => None
      end
  end.

Definition latency_timer_timeout (a : App) : option App :=
  if isActive (latency_timer a) then
    stop_times (timeout_slots (latency_timer a))
      (if isSingleShot (latency_timer a)
       then set_timer (timer_stop (latency_timer a)) a else a)
  else Some a.

(** The process object reports that the child runs. *)
Definition process_started (a : App) : App :=
  match latency_process a with
  | Some p =>
      match proc_state p with
      | Starting => set_process (Some (with_state Running p)) a
      | _ => a
      end
  | None => a
  end.
End Output.

(** The application when its window opens: nothing runs, nothing is
    selected, and the trace of the effects starts here. *)
Definition init : App :=
  {| callbacks_enabled := true;
     latency_process := None;
     latency_values := [];
     latency_timer := {| isActive := false; isSingleShot := false;
                         interval := 0; timeout_slots := 0 |};
     latency_waiting_for_connection := false;
     latency_selected_input_alias := None;
     latency_selected_output_alias := None;
     latency_results_text := str "Ready to test.";
     latency_run_button := true;
     latency_stop_button := false;
     latency_raw_output_checkbox := false;
     effects := [] |}.

(** Feeding the chunks of the output to the handler, one call per chunk. *)
Definition feed {py : PyRuntime} (chunks : list text) (a : App) : App :=
  fold_left (fun a data => handle_latency_output data a) chunks a.

(** The samples the loop of the handler takes from a text. *)
Definition samples_of {py : PyRuntime} (data : text) : list (float * float) :=
  fold_left parse_line (splitlines data) [].

(** A chunk that ends where a line ends: it is empty or its last character
    is a line boundary. *)
Definition ends_line (c : text) : bool :=
  match rev c with
  | [] => true
  | b :: _ => is_linebreak b
  end.

(** Every chunk but the last ends where a line ends. *)
Fixpoint line_aligned (chunks : list text) : bool :=
  match chunks with
  | [] => true
  | [_] => true
  | c :: cs => ends_line c && line_aligned cs
  end.

(** What a handler has done to the outside: the effects of the state it
    leaves that were not yet in the state it found. *)
Definition issued (before after : App) : list Effect :=
  skipn (List.length (effects before)) (effects after).

Definition is_connect_call (e : Effect) : bool :=
  match e with CallConnect _ _ _ => true | _ => false end.

Definition is_process_start (e : Effect) : bool :=
  match e with ProcessStart _ _ => true | _ => false end.

(** The program [run_latency_test] resolves. *)
Definition resolved_program (h : Host) : option text :=
  match which h (str "jack_delay") with
  | Some p => Some p
  | None => which h (str "jack_iodelay")
  end.

(** The child of the process object ends when it is told to or when it is
    killed. *)
Definition child_ends (a : App) : bool :=
  match latency_process a with
  | Some p =>
      match proc_on_terminate p, proc_on_kill p with
      | None, None => false
      | _, _ => true
      end
  | None => true
  end.


(** The graph has the connection from [source] to [destination], as
    [make_connection] looks for it. *)
Definition connected {G : Type} {jack : JackClient G} (g : G)
    (source destination : text) : Prop :=
  exists l, get_all_connections g source = Ok l
            /\ existsb (text_eqb destination) l = true.

(** What a connection made does to the answers of the graph, nothing else
    changing the graph meanwhile: the connection is there, those that were
    there still are, and the ports are the same. *)
Class JackLaws (G : Type) {jack : JackClient G} : Prop := {
  connect_connects : forall g s d g',
    connect g s d = Ok g' -> connected g' s d;
  connect_keeps : forall g s d g' s' d',
    connect g s d = Ok g' -> connected g s' d' -> connected g' s' d';
  connect_ports : forall g s d g' q,
    connect g s d = Ok g' -> get_ports g' q = get_ports g q
}.
Arguments JackLaws G {jack}.

(** Both ports are selected. *)
Definition ports_selected (a : App) : bool :=
  truthy (latency_selected_input_alias a)
  && truthy (latency_selected_output_alias a).

(** A line printed holds the text. *)
Definition printed (t : text) (e : Effect) : bool :=
  match e with
  | Print line => contains t line
  | _ => false
  end.

Definition connect_failed (e : Effect) : bool :=
  match e with CallConnect _ _ false => true | _ => false end.

(** The graph [g'] is [g], or [g] with one more connection made. *)
Definition one_connect {G : Type} {jack : JackClient G} (g g' : G) : Prop :=
  g' = g \/ exists s d, connect g s d = Ok g'.

(** Each edge the attempt would make in the graph, with these ports
    selected, is there already. *)
Definition settled {G : Type} {jack : JackClient G} (g : G)
    (input_to_connect output_to_connect : text) : Prop :=
  forall ports,
    get_ports g audio_inputs = Ok ports ->
    (existsb (text_eqb output_to_connect) ports = true ->
     connected g jack_delay_out output_to_connect)
    /\ (forall ports',
          get_ports g audio_outputs = Ok ports' ->
          existsb (text_eqb input_to_connect) ports' = true ->
          connected g input_to_connect jack_delay_in).

(** The attributes of the controller are the same in both: all but the trace
    of the effects and the text shown. *)
Definition same_controller (a a' : App) : Prop :=
  callbacks_enabled a' = callbacks_enabled a
  /\ latency_process a' = latency_process a
  /\ latency_values a' = latency_values a
  /\ latency_timer a' = latency_timer a
  /\ latency_waiting_for_connection a' = latency_waiting_for_connection a
  /\ latency_selected_input_alias a' = latency_selected_input_alias a
  /\ latency_selected_output_alias a' = latency_selected_output_alias a
  /\ latency_run_button a' = latency_run_button a
  /\ latency_stop_button a' = latency_stop_button a
  /\ latency_raw_output_checkbox a' = latency_raw_output_checkbox a.

(** A match with more text left after it. *)
Definition push (t : text) (m : rmatch) : rmatch :=
  {| matched := matched m; groups := groups m; rest := rest m ++ t |}.

(** [r'] is what is left of [r] once some of its leading factors are taken
    away. *)
Inductive tail_of : regex -> regex -> Prop :=
  | tail_here r : tail_of r r
  | tail_next r1 r2 r' : tail_of r2 r' -> tail_of (Cat r1 r2) r'.

(** ** A host and a graph to run the program on *)

(** A host where only [jack_delay] is installed; the tool ends on the signal
    of [terminate()], which Qt reports as a crash. *)
Definition demo_host : Host :=
  {| which := fun name =>
       if text_eqb name (str "jack_delay")
       then Some (str "/usr/bin/jack_delay") else None;
     child_on_terminate := fun _ => Some (15%Z, CrashExit);
     child_on_kill := fun _ => Some (9%Z, CrashExit) |}.

(** A host with neither tool. *)
Definition bare_host : Host :=
  {| which := fun _ => None;
     child_on_terminate := fun _ => None;
     child_on_kill := fun _ => None |}.

(** A graph given by the answers of its queries; [sg_refuse] names the
    connections the server refuses, with the message of the error.  A
    connection made shows in the answers for its two ports. *)
Record ScriptedGraph := {
  sg_ports : PortQuery -> result (list text);
  sg_connections : text -> result (list text);
  sg_refuse : text -> text -> option text
}.

Definition answer_or_nil (r : result (list text)) : list text :=
  match r with
  | Ok l => l
  | JackError _ => []
  end.

Definition sg_connect (g : ScriptedGraph) (source destination : text)
  : result ScriptedGraph :=
  match sg_refuse g source destination with
  | Some e => JackError e
  | None =>
      Ok {| sg_ports := sg_ports g;
            sg_connections := fun p =>
              if text_eqb p source
              then Ok (destination :: answer_or_nil (sg_connections g p))
              else if text_eqb p destination
              then Ok (source :: answer_or_nil (sg_connections g p))
              else sg_connections g p;
            sg_refuse := sg_refuse g |}
  end.

#[export] Instance scripted_jack : JackClient ScriptedGraph :=
  {| get_ports := sg_ports;
     get_all_connections := sg_connections;
     connect := sg_connect |}.

Definition system_capture_1 : text := str "system:capture_1".
Definition system_playback_1 : text := str "system:playback_1".

(** The physical ports of a sound card and the two ports of the tool, none
    connected, the server refusing nothing. *)
Definition demo_ports (q : PortQuery) : result (list text) :=
  Ok ((if is_input q then []
       else [system_capture_1] ++ (if is_physical q then [] else [jack_delay_out]))
      ++
      (if is_output q then []
       else [system_playback_1] ++ (if is_physical q then [] else [jack_delay_in]))).

Definition demo_graph : ScriptedGraph :=
  {| sg_ports := demo_ports;
     sg_connections := fun _ => Ok [];
     sg_refuse := fun _ _ => None |}.

(** The same, the list of the input ports failing to be read. *)
Definition failing_ports_graph : ScriptedGraph :=
  {| sg_ports := fun q =>
       if is_input q then JackError (str "port list unavailable")
       else demo_ports q;
     sg_connections := fun _ => Ok [];
     sg_refuse := fun _ _ => None |}.

(** The same as [demo_graph], the connections of a port failing to be read. *)
Definition failing_query_graph : ScriptedGraph :=
  {| sg_ports := demo_ports;
     sg_connections := fun _ => JackError (str "connections unavailable");
     sg_refuse := fun _ _ => None |}.

(** The same as [demo_graph], the server refusing every connection. *)
Definition refusing_graph : ScriptedGraph :=
  {| sg_ports := demo_ports;
     sg_connections := fun _ => Ok [];
     sg_refuse := fun _ _ => Some (str "connection refused") |}.

(** The application with the two physical ports selected. *)
Definition ports_chosen : App :=
  set_input_alias (Some system_capture_1)
    (set_output_alias (Some system_playback_1) init).

(** What an attempt prints and calls before its first edge, the line it
    prints when the list of ports cannot be read, and the text it shows
    then. *)
Definition attempt_prologue (a : App) : list Effect :=
  [Print (str "Attempting auto-connection: jack_delay:out -> "
          ++ alias_text (latency_selected_output_alias a));
   Print (str "Attempting auto-connection: "
          ++ alias_text (latency_selected_input_alias a)
          ++ str " -> jack_delay:in");
   CallGetPorts audio_inputs].

Definition attempt_failure_line (e : text) : Effect :=
  Print (str "Error during latency auto-connection (JackError): " ++ e).

Definition attempt_failure_text (e : text) : text :=
  nl ++ str "Error auto-connecting (JACK): " ++ e.

(** A session started with the box clear, and one with the box checked. *)
Definition average_session : App :=
  run_latency_test demo_host demo_graph init.

Definition raw_session : App :=
  run_latency_test demo_host demo_graph (set_checkbox true init).

Definition line_1 : text := str "64.000 frames 1.333 ms" ++ nl.
Definition line_2 : text := str "64.000 frames 1.500 ms" ++ nl.

(** 64.0, 1.333 and 1.5 as floats. *)
Definition f64_0 : float := S754_finite false 4503599627370496 (-46).
Definition f1_333 : float := S754_finite false 6003298303284871 (-52).
Definition f1_5 : float := S754_finite false 6755399441055744 (-52).

(** ** What the properties below speak of *)

(** The pattern of the connection signal is found in the chunk. *)
Definition has_ms {py : PyRuntime} (data : text) : bool :=
  match search ms_pattern data with
  | Some _ => true
  | None => false
  end.

(** A decimal number as the patterns take it: digits, a point, digits. *)
Definition decimal_text {py : PyRuntime} (t : text) : Prop :=
  exists d1 d2,
    t = d1 ++ 46%N :: d2
    /\ d1 <> [] /\ d2 <> []
    /\ Forall (fun c => in_class Digit c = true) d1
    /\ Forall (fun c => in_class Digit c = true) d2.

(** No group in the pattern. *)
Fixpoint group_free (r : regex) : bool :=
  match r with
  | Group _ => false
  | Cat r1 r2 => group_free r1 && group_free r2
  | _ => true
  end.


Definition is_termination (e : Effect) : bool :=
  match e with ProcessTerminate | ProcessKill => true | _ => false end.

Definition is_single_shot (e : Effect) : bool :=
  match e with SingleShot _ _ => true | _ => false end.

(** How the child of a process object ends when [stop_latency_test] or the
    handler of an error makes it end: on the signal of [terminate()], or
    else when killed. *)
Definition exit_on_stop (p : QProcess) : option exit_info :=
  match proc_on_terminate p with
  | Some x => Some x
  | None => proc_on_kill p
  end.

(** ** Closing the window *)
Definition set_callbacks_enabled (b : bool) (a : App) : App :=
  {| callbacks_enabled := b; latency_process := latency_process a;
     latency_values := latency_values a; latency_timer := latency_timer a;
     latency_waiting_for_connection := latency_waiting_for_connection a;
     latency_selected_input_alias := latency_selected_input_alias a;
     latency_selected_output_alias := latency_selected_output_alias a;
     latency_results_text := latency_results_text a;
     latency_run_button := latency_run_button a;
     latency_stop_button := latency_stop_button a;
     latency_raw_output_checkbox := latency_raw_output_checkbox a;
     effects := effects a |}.

(** [closeEvent(event)].  [__init__] has set [latency_process] and [client],
    so both [hasattr] hold.  [closing] is what [deactivate()] followed by
    [close()] gives: both return, or one of them raises [jack.JackError] with
    that message.  [None] is an exception that leaves the method.  The two
    calls that end it, [event.accept()] and [QApplication.quit()], touch no
    attribute of the application object and are not in the trace. *)
Definition closeEvent {py : PyRuntime} (closing : result unit) (a : App)
  : option App :=
  let a := print (str "Closing Latency Tester...") a in
  let stopped :=
    match latency_process a with
    | Some _ => stop_latency_test a
    | None => Some a
    end in
  match stopped with
  | Some a =>
      let a := set_callbacks_enabled false a in
      Some match closing with
           | Ok _ => print (str "JACK client closed.") a
           | JackError e => print (str "Error closing JACK client: " ++ e) a
           end
  | None => None
  end.

(** * Properties *)

Lemma text_eqb_eq a b : text_eqb a b = true <-> a = b.
Proof.
  unfold text_eqb. destruct (list_eq_dec N.eq_dec a b); split; congruence.
Qed.

Lemma text_eqb_refl a : text_eqb a a = true.
Proof. now apply text_eqb_eq. Qed.

(** ** The matcher *)
Section RegexFacts.
Context {py : PyRuntime}.

Lemma match_plus_sound k s m :
  In m (match_plus k s) -> s = matched m ++ rest m.
Proof.
  revert m. induction s as [|c s IH]; simpl; intros m H; [easy|].
  destruct (in_class k c); [|easy].
  apply in_app_or in H. destruct H as [H|[H|[]]].
  - apply in_map_iff in H. destruct H as (m' & <- & H').
    simpl. now rewrite (IH _ H') at 1.
  - now subst m.
Qed.

Lemma match_at_sound r : forall s m,
  In m (match_at r s) -> s = matched m ++ rest m.
Proof.
  induction r as [|k|k|r1 IH1 r2 IH2|r IH]; simpl; intros s m H.
  - destruct H as [<-|[]]. reflexivity.
  - destruct s as [|c s]; [easy|]. destruct (in_class k c); [|easy].
    destruct H as [<-|[]]. reflexivity.
  - now apply match_plus_sound with k.
  - apply in_flat_map in H. destruct H as (m1 & H1 & H).
    apply in_map_iff in H. destruct H as (m2 & <- & H2).
    simpl. rewrite <- app_assoc, <- (IH2 _ _ H2). now apply IH1.
  - apply in_map_iff in H. destruct H as (m' & <- & H'). simpl. now apply IH.
Qed.

(** More text after the one matched does not take a match away. *)
Lemma match_plus_push k t s m :
  In m (match_plus k s) -> In (push t m) (match_plus k (s ++ t)).
Proof.
  revert m. induction s as [|c s IH]; simpl; intros m H; [easy|].
  destruct (in_class k c); [|easy].
  apply in_or_app. apply in_app_or in H. destruct H as [H|[H|[]]].
  - left. apply in_map_iff in H. destruct H as (m' & <- & H').
    apply in_map_iff. exists (push t m'). split; [reflexivity|now apply IH].
  - right. left. now subst m.
Qed.

Lemma match_at_push r t : forall s m,
  In m (match_at r s) -> In (push t m) (match_at r (s ++ t)).
Proof.
  induction r as [|k|k|r1 IH1 r2 IH2|r IH]; simpl; intros s m H.
  - destruct H as [<-|[]]. now left.
  - destruct s as [|c s]; [easy|]. simpl. destruct (in_class k c); [|easy].
    destruct H as [<-|[]]. now left.
  - now apply match_plus_push.
  - apply in_flat_map in H. destruct H as (m1 & H1 & H).
    apply in_map_iff in H. destruct H as (m2 & <- & H2).
    apply in_flat_map. exists (push t m1). split; [now apply IH1|].
    apply in_map_iff. exists (push t m2). split; [reflexivity|].
    simpl. now apply IH2.
  - apply in_map_iff in H. destruct H as (m' & <- & H').
    apply in_map_iff. exists (push t m'). split; [reflexivity|now apply IH].
Qed.

(** [search] finds a match exactly when the pattern matches somewhere. *)
Lemma search_Some r s m :
  search r s = Some m ->
  exists pre suf, s = pre ++ suf /\ In m (match_at r suf).
Proof.
  induction s as [|c s IH]; simpl.
  - destruct (match_at r []) as [|m' l] eqn:E; [easy|].
    intros [= <-]. exists [], []. rewrite E. split; [reflexivity|now left].
  - destruct (match_at r (c :: s)) as [|m' l] eqn:E.
    + intros H. destruct (IH H) as (pre & suf & -> & Hin).
      now exists (c :: pre), suf.
    + intros [= <-]. exists [], (c :: s). rewrite E.
      split; [reflexivity|now left].
Qed.

Lemma search_None r pre suf m :
  search r (pre ++ suf) = None -> In m (match_at r suf) -> False.
Proof.
  induction pre as [|c pre IH]; simpl.
  - destruct suf as [|c suf]; simpl;
      destruct (match_at r _) as [|m' l] eqn:E; try easy.
  - destruct (match_at r (c :: pre ++ suf)); [|easy]. apply IH.
Qed.

Lemma match_at_Cat r1 r2 s m :
  In m (match_at (Cat r1 r2) s) ->
  exists m1 m2, In m1 (match_at r1 s) /\ In m2 (match_at r2 (rest m1)).
Proof.
  simpl. intros H. apply in_flat_map in H. destruct H as (m1 & H1 & H).
  apply in_map_iff in H. destruct H as (m2 & _ & H2). now exists m1, m2.
Qed.

Lemma match_at_ungroup r r2 s m :
  In m (match_at (Cat (Group r) r2) s) ->
  exists m', In m' (match_at (Cat r r2) s).
Proof.
  simpl. intros H. apply in_flat_map in H. destruct H as (m1 & H1 & H).
  apply in_map_iff in H1. destruct H1 as (m0 & <- & H0).
  apply in_map_iff in H. destruct H as (m2 & _ & H2). simpl in H2.
  exists (then_match m0 m2). apply in_flat_map. exists m0. split; [easy|].
  now apply in_map.
Qed.

Lemma match_at_tail r r' :
  tail_of r r' ->
  forall s m, In m (match_at r s) ->
  exists pre suf m', s = pre ++ suf /\ In m' (match_at r' suf).
Proof.
  induction 1 as [r|r1 r2 r' _ IH]; intros s m H.
  - now exists [], s, m.
  - destruct (match_at_Cat _ _ _ _ H) as (m1 & m2 & H1 & H2).
    destruct (IH _ _ H2) as (pre & suf & m' & E & H').
    exists (matched m1 ++ pre), suf, m'. split; [|easy].
    rewrite <- app_assoc, <- E. now apply match_at_sound with r1.
Qed.

(** Where the pattern of a sample matches, the pattern of the connection
    signal matches further on. *)
Lemma frames_ms_has_ms s m :
  In m (match_at frames_ms_pattern s) ->
  exists pre suf m', s = pre ++ suf /\ In m' (match_at ms_pattern suf).
Proof.
  intros H.
  assert (T : tail_of frames_ms_pattern
                (Cat (Group decimal_number)
                   (Cat (Plus Space) (lits (str "ms"))))).
  { unfold frames_ms_pattern. cbn [seq_of]. repeat constructor. }
  destruct (match_at_tail T _ _ H) as (pre & suf & m' & E & H').
  destruct (match_at_ungroup _ _ _ _ H') as (m'' & H'').
  now exists pre, suf, m''.
Qed.

(** A text in which the pattern of the connection signal is not found has
    no piece in which the pattern of a sample is found. *)
Lemma no_ms_no_frames pre line post :
  search ms_pattern (pre ++ line ++ post) = None ->
  search frames_ms_pattern line = None.
Proof.
  intros Hms. destruct (search frames_ms_pattern line) as [m|] eqn:E; [|easy].
  exfalso. destruct (search_Some _ _ E) as (p1 & s1 & -> & H1).
  destruct (frames_ms_has_ms _ _ H1) as (p2 & s2 & m' & -> & H2).
  apply (match_at_push _ post) in H2.
  apply (search_None ms_pattern (pre ++ p1 ++ p2) (s2 ++ post) (push post m'));
    [|exact H2].
  now rewrite <- Hms, <- !app_assoc.
Qed.
End RegexFacts.

(** ** Lines *)
Section LineFacts.
Context {py : PyRuntime}.

(** A line of a text is a piece of it. *)
Lemma splitlines_from_infix s : forall cur after_cr line,
  (after_cr = true -> cur = []) ->
  In line (splitlines_from cur after_cr s) ->
  exists pre post, cur ++ s = pre ++ line ++ post.
Proof.
  induction s as [|c s IH]; simpl; intros cur ac line Hac H.
  - destruct cur as [|x cur]; [easy|]. destruct H as [<-|[]].
    exists [], []. now rewrite !app_nil_r.
  - destruct (ac && N.eqb c LF) eqn:E1.
    + apply andb_prop in E1. destruct E1 as [-> _]. rewrite (Hac eq_refl) in *.
      destruct (IH [] false line (fun H => ltac:(discriminate H)) H)
        as (pre & post & E).
      exists (c :: pre), post. simpl in *. now rewrite E.
    + destruct (is_linebreak c).
      * destruct H as [<-|H].
        -- now exists [], (c :: s).
        -- destruct (IH [] (N.eqb c CR) line (fun _ => eq_refl) H)
             as (pre & post & E).
           exists (cur ++ c :: pre), post. simpl in E.
           now rewrite E, <- app_assoc.
      * destruct (IH (cur ++ [c]) false line (fun H => ltac:(discriminate H)) H)
          as (pre & post & E).
        exists pre, post. now rewrite <- E, <- app_assoc.
Qed.

Lemma splitlines_infix s line :
  In line (splitlines s) -> exists pre post, s = pre ++ line ++ post.
Proof.
  intros H. now apply (@splitlines_from_infix s [] false line).
Qed.

(** The lines of a chunk that ends where a line ends, followed by more
    text, are the lines of the chunk and then those of the text, whose
    first LF is part of the boundary if the chunk ends with CR. *)
Lemma splitlines_from_app p b t : forall cur after_cr,
  is_linebreak b = true ->
  (after_cr = true -> cur = []) ->
  splitlines_from cur after_cr (p ++ b :: t)
  = splitlines_from cur after_cr (p ++ [b])
    ++ splitlines_from [] (N.eqb b CR) t.
Proof.
  intros cur ac Hb. revert cur ac.
  induction p as [|c p IH]; simpl; intros cur ac Hac.
  - destruct (ac && N.eqb b LF) eqn:E1.
    + apply andb_prop in E1. destruct E1 as [-> E1]. rewrite (Hac eq_refl).
      apply N.eqb_eq in E1. subst b. reflexivity.
    + rewrite Hb. reflexivity.
  - destruct (ac && N.eqb c LF).
    + now apply IH.
    + destruct (is_linebreak c).
      * simpl. f_equal. now apply IH.
      * now apply IH.
Qed.

Lemma parse_line_empty values : parse_line values [] = values.
Proof. reflexivity. Qed.

(** The samples do not depend on whether a leading LF ends a CR LF
    boundary or is a boundary of its own: the line between is empty. *)
Lemma fold_parse_after_cr s values :
  fold_left parse_line (splitlines_from [] true s) values
  = fold_left parse_line (splitlines_from [] false s) values.
Proof.
  destruct s as [|c s]; [reflexivity|]. simpl.
  destruct (N.eqb c LF) eqn:E; [|reflexivity].
  apply N.eqb_eq in E. subst c. reflexivity.
Qed.

Lemma fold_parse_app lines : forall values,
  fold_left parse_line lines values
  = values ++ fold_left parse_line lines [].
Proof.
  induction lines as [|l lines IH]; simpl; intros values.
  - now rewrite app_nil_r.
  - rewrite IH. rewrite (IH (parse_line [] l)). rewrite app_assoc. f_equal.
    unfold parse_line.
    destruct (search frames_ms_pattern l) as [m|]; [|now rewrite app_nil_r].
    destruct (py_float (group m 1)), (py_float (group m 2));
      now rewrite ?app_nil_r.
Qed.

Lemma ends_line_inv c :
  ends_line c = true ->
  c = [] \/ exists p b, c = p ++ [b] /\ is_linebreak b = true.
Proof.
  unfold ends_line. destruct (rev c) as [|b r] eqn:E; intros H.
  - left. apply (f_equal (@rev _)) in E. now rewrite rev_involutive in E.
  - right. exists (rev r), b. split; [|easy].
    apply (f_equal (@rev _)) in E. now rewrite rev_involutive in E.
Qed.

(** The samples of a chunk that ends where a line ends and of the text
    after it are those of the two together. *)
Lemma samples_of_app c t :
  ends_line c = true -> samples_of (c ++ t) = samples_of c ++ samples_of t.
Proof.
  intros H. destruct (ends_line_inv _ H) as [->|(p & b & -> & Hb)].
  - reflexivity.
  - unfold samples_of, splitlines. rewrite <- app_assoc. simpl.
    rewrite (@splitlines_from_app p b t [] false Hb) by easy.
    rewrite fold_left_app, fold_parse_app. f_equal.
    destruct (N.eqb b CR); [apply fold_parse_after_cr|reflexivity].
Qed.

(** Without the connection signal in a text there is no sample in it. *)
Lemma no_ms_no_samples data :
  search ms_pattern data = None -> samples_of data = [].
Proof.
  intros H. unfold samples_of.
  assert (L : forall line, In line (splitlines data) ->
                           search frames_ms_pattern line = None).
  { intros line Hin. destruct (splitlines_infix _ _ Hin) as (pre & post & E).
    apply no_ms_no_frames with pre post. now rewrite <- E. }
  induction (splitlines data) as [|l lines IH]; [reflexivity|]. simpl.
  unfold parse_line at 2. rewrite (L l) by now left.
  apply IH. intros line Hin. apply L. now right.
Qed.

(** What a call of the handler adds to the samples. *)
Lemma handle_latency_output_values data a :
  latency_values (handle_latency_output data a)
  = match latency_process a with
    | None => latency_values a
    | Some _ =>
        if latency_raw_output_checkbox a then latency_values a
        else latency_values a ++ samples_of data
    end.
Proof.
  unfold handle_latency_output. destruct (latency_process a); [|reflexivity].
  destruct (latency_raw_output_checkbox a); [reflexivity|].
  destruct (latency_waiting_for_connection a) eqn:W; simpl.
  - destruct (search ms_pattern data) eqn:E; simpl.
    + apply fold_parse_app.
    + rewrite W. simpl. now rewrite no_ms_no_samples, app_nil_r.
  - rewrite W. simpl. apply fold_parse_app.
Qed.

Lemma handle_latency_output_process data a :
  latency_process (handle_latency_output data a) = latency_process a.
Proof.
  unfold handle_latency_output. destruct (latency_process a) eqn:P; [|easy].
  destruct (latency_raw_output_checkbox a); [easy|].
  destruct (latency_waiting_for_connection a) eqn:W; simpl.
  - destruct (search ms_pattern data); simpl; [easy|]. now rewrite W.
  - now rewrite W.
Qed.

Lemma handle_latency_output_checkbox data a :
  latency_raw_output_checkbox (handle_latency_output data a)
  = latency_raw_output_checkbox a.
Proof.
  unfold handle_latency_output. destruct (latency_process a) eqn:P; [|easy].
  destruct (latency_raw_output_checkbox a) eqn:C; [easy|].
  destruct (latency_waiting_for_connection a) eqn:W; simpl.
  - destruct (search ms_pattern data); simpl; [easy|]. now rewrite W.
  - now rewrite W.
Qed.
End LineFacts.

(** ** The samples and the chunks of the output *)
Section Chunks.
Context {py : PyRuntime}.

Lemma feed_values chunks : forall a,
  latency_values (feed chunks a)
  = match latency_process a with
    | None => latency_values a
    | Some _ =>
        if latency_raw_output_checkbox a then latency_values a
        else latency_values a ++ flat_map samples_of chunks
    end.
Proof.
  induction chunks as [|c cs IH]; intros a; simpl.
  - destruct (latency_process a); [|easy].
    destruct (latency_raw_output_checkbox a); [easy|now rewrite app_nil_r].
  - change (feed (c :: cs) a) with (feed cs (handle_latency_output c a)).
    rewrite IH, handle_latency_output_process,
      handle_latency_output_checkbox, handle_latency_output_values.
    destruct (latency_process a); [|easy].
    destruct (latency_raw_output_checkbox a); [easy|now rewrite app_assoc].
Qed.

Lemma samples_of_concat chunks :
  line_aligned chunks = true ->
  samples_of (List.concat chunks) = flat_map samples_of chunks.
Proof.
  induction chunks as [|c cs IH]; [reflexivity|].
  destruct cs as [|c' cs]; intros H.
  - simpl. now rewrite !app_nil_r.
  - change (line_aligned (c :: c' :: cs))
      with (ends_line c && line_aligned (c' :: cs)) in H.
    apply andb_prop in H. destruct H as [Hc H].
    change (List.concat (c :: c' :: cs)) with (c ++ List.concat (c' :: cs)).
    rewrite samples_of_app by easy. rewrite IH by easy. reflexivity.
Qed.

(** C1, as the code has it.  The handler keeps nothing of a chunk for the
    next call: it takes the lines of each chunk on their own.  When every
    chunk but the last ends where a line ends, the samples recorded chunk
    by chunk are those recorded from the whole text in one call. *)
Theorem line_aligned_chunks_same_samples (chunks : list text) (a : App) :
  line_aligned chunks = true ->
  latency_values (feed chunks a)
  = latency_values (handle_latency_output (List.concat chunks) a).
Proof.
  intros H. rewrite feed_values, handle_latency_output_values.
  now rewrite samples_of_concat.
Qed.
End Chunks.

Lemma line_aligned_chunks_same_samples_witness :
  line_aligned [line_1; line_2] = true
  /\ latency_values (feed (py := cpython311) [line_1; line_2] average_session)
     = latency_values
         (handle_latency_output (py := cpython311)
            (List.concat [line_1; line_2]) average_session).
Proof.
  split; [reflexivity|].
  apply (line_aligned_chunks_same_samples (py := cpython311)
           [line_1; line_2] average_session).
  reflexivity.
Defined.

(** C1, as the spec has it, fails: a line of the tool cut in two chunks is
    lost when the chunks come one by one, and is a sample when they come as
    one text. *)
Lemma chunk_boundary_counterexample :
  let c1 := str "64.000 fra" in
  let c2 := str "mes 1.333 ms" ++ nl in
  latency_raw_output_checkbox average_session = false
  /\ latency_values (feed (py := cpython311) [c1; c2] average_session) = []
  /\ latency_values
       (handle_latency_output (py := cpython311) (List.concat [c1; c2]) average_session)
     = [(f64_0, f1_333)]
  /\ latency_values (handle_latency_output (py := cpython311) c1 average_session)
     = []
  /\ latency_results_text
       (handle_latency_output (py := cpython311) c1 average_session)
     = latency_results_text average_session.
Proof. vm_compute. repeat split; reflexivity. Qed.

(** ** The report at the end of a measurement *)
Section Report.
Context {py : PyRuntime}.

Lemma py_sum_example_frames : py_sum [f64_0; f64_0] = float_of_int 128.
Proof.
  unfold py_sum. destruct py_sum_compensated; vm_compute; reflexivity.
Qed.

Lemma py_sum_example_ms :
  py_sum [f1_333; f1_5] = S754_finite false 6379348872170308 (-51).
Proof.
  unfold py_sum. destruct py_sum_compensated; vm_compute; reflexivity.
Qed.

(** C2.  With the box clear and samples recorded, the report gives the sum
    of the frames divided by the number of samples and the sum of the
    milliseconds divided by it, each with three digits after the point; for
    the samples (64.0, 1.333) and (64.0, 1.5) it reads "64.000 frames /
    1.417 ms". *)
Theorem average_report (exit_code : Z) (exit_status : ExitStatus) (a : App) :
  latency_raw_output_checkbox a = false ->
  latency_values a <> [] ->
  let count := float_of_int (Z.of_nat (List.length (latency_values a))) in
  let average_frames := fdiv (py_sum (map fst (latency_values a))) count in
  let average_ms := fdiv (py_sum (map snd (latency_values a))) count in
  let report :=
    latency_results_text (handle_latency_finished exit_code exit_status a) in
  report = str "Round-trip latency (average): " ++ format_3f average_frames
           ++ str " frames / " ++ format_3f average_ms ++ str " ms"
  /\ (latency_values a = [(f64_0, f1_333); (f64_0, f1_5)] ->
      report = str "Round-trip latency (average): 64.000 frames / 1.417 ms").
Proof.
  intros Hbox Hval. cbv zeta.
  assert (E : latency_results_text
                (handle_latency_finished exit_code exit_status a)
              = msg_average
                  (fdiv (py_sum (map fst (latency_values a)))
                     (float_of_int (Z.of_nat (List.length (latency_values a)))))
                  (fdiv (py_sum (map snd (latency_values a)))
                     (float_of_int (Z.of_nat (List.length (latency_values a)))))).
  { unfold handle_latency_finished. simpl. rewrite Hbox.
    destruct (latency_values a); [easy|reflexivity]. }
  split; [exact E|].
  intros Hv. rewrite E, Hv.
  change (map fst [(f64_0, f1_333); (f64_0, f1_5)]) with [f64_0; f64_0].
  change (map snd [(f64_0, f1_333); (f64_0, f1_5)]) with [f1_333; f1_5].
  rewrite py_sum_example_frames, py_sum_example_ms.
  vm_compute. reflexivity.
Qed.

Lemma msg_average_head x y : exists t, msg_average x y = 82%N :: t.
Proof. unfold msg_average. simpl. eexists. reflexivity. Qed.

Lemma msg_failed_head n : exists t, msg_failed n = 84%N :: t.
Proof. unfold msg_failed. simpl. eexists. reflexivity. Qed.

(** C5.  With the box clear and no sample recorded, the report is one of
    three messages, none of which is a report of averages: that no valid
    reading was obtained, after a normal exit with code 0; that the
    measurement was stopped, after a crash; that the test failed with the
    exit code, after a normal exit with another code. *)
Theorem zero_sample_report (exit_code : Z) (exit_status : ExitStatus) (a : App) :
  latency_raw_output_checkbox a = false ->
  latency_values a = [] ->
  let report :=
    latency_results_text (handle_latency_finished exit_code exit_status a) in
  (exit_status = NormalExit -> exit_code = 0%Z ->
   report = str "No valid latency readings obtained. Check connections.")
  /\ (exit_status = CrashExit -> report = str "Measurement stopped.")
  /\ (exit_status = NormalExit -> exit_code <> 0%Z ->
      report = str "Test failed (Exit code: " ++ str_of_int exit_code
               ++ str "). Check connections."
      /\ report <> str "Measurement stopped.")
  /\ (forall average_frames average_ms,
      report <> msg_average average_frames average_ms).
Proof.
  intros Hbox Hval. cbv zeta.
  assert (Havg : forall t x y, t <> [] -> hd 0%N t <> 82%N -> t <> msg_average x y).
  { intros t x y _ Hh E. destruct (msg_average_head x y) as (t' & E').
    rewrite E' in E. subst t. now apply Hh. }
  unfold handle_latency_finished. simpl. rewrite Hbox, Hval.
  destruct exit_status; simpl.
  - destruct (Z.eqb_spec exit_code 0) as [->|Hne]; simpl.
    + split; [reflexivity|]. split; [discriminate|]. split; [easy|].
      intros x y. now apply Havg.
    + destruct (msg_failed_head exit_code) as (t & E).
      split; [easy|]. split; [discriminate|]. split.
      * intros _ _. split; [reflexivity|].
        fold (msg_failed exit_code). rewrite E. discriminate.
      * intros x y. apply Havg; rewrite E; [discriminate|]. simpl. discriminate.
  - split; [discriminate|]. split; [reflexivity|]. split; [discriminate|].
    intros x y. now apply Havg.
Qed.
End Report.

Lemma average_report_witness :
  let a := feed (py := cpython311) [line_1; line_2] average_session in
  latency_values a = [(f64_0, f1_333); (f64_0, f1_5)]
  /\ latency_results_text
       (handle_latency_finished (py := cpython311) 15 CrashExit a)
     = str "Round-trip latency (average): 64.000 frames / 1.417 ms".
Proof.
  split; [vm_compute; reflexivity|].
  apply (average_report (py := cpython311) 15 CrashExit
           (feed (py := cpython311) [line_1; line_2] average_session)).
  - reflexivity.
  - vm_compute. discriminate.
  - vm_compute. reflexivity.
Defined.

Lemma zero_sample_report_witness :
  latency_results_text
    (handle_latency_finished (py := cpython311) 2 NormalExit average_session)
  = str "Test failed (Exit code: 2). Check connections.".
Proof.
  apply (zero_sample_report (py := cpython311) 2 NormalExit average_session);
    [reflexivity|reflexivity|reflexivity|discriminate].
Defined.

(** ** Starting a measurement *)
Lemma issued_app a a' l : effects a' = effects a ++ l -> issued a a' = l.
Proof.
  unfold issued. intros ->. rewrite skipn_app, skipn_all, Nat.sub_diag. reflexivity.
Qed.

Lemma append_effects t a : effects (append t a) = effects a.
Proof. unfold append. now destruct (latency_results_text a). Qed.

Section StartFacts.
Context {G : Type} {jack : JackClient G}.

Lemma _populate_latency_combos_effects (g : G) a :
  exists l, effects (_populate_latency_combos g a) = effects a ++ l
            /\ forallb (fun e => negb (is_process_start e)) l = true.
Proof.
  unfold _populate_latency_combos.
  destruct (get_ports g physical_capture);
    [destruct (get_ports g physical_playback)|].
  - exists [CallGetPorts physical_capture; CallGetPorts physical_playback].
    simpl. now rewrite <- app_assoc.
  - eexists. split.
    + unfold append, print.
      destruct (latency_results_text _); simpl; rewrite <- !app_assoc; reflexivity.
    + reflexivity.
  - eexists. split.
    + unfold append, print.
      destruct (latency_results_text _); simpl; rewrite <- !app_assoc; reflexivity.
    + reflexivity.
Qed.

Lemma _populate_latency_combos_box (g : G) a :
  latency_raw_output_checkbox (_populate_latency_combos g a)
  = latency_raw_output_checkbox a.
Proof.
  unfold _populate_latency_combos, append, print.
  destruct (get_ports g physical_capture);
    [destruct (get_ports g physical_playback)|]; simpl; try reflexivity;
    destruct (latency_results_text a); reflexivity.
Qed.

Lemma _populate_latency_combos_timer (g : G) a :
  latency_timer (_populate_latency_combos g a) = latency_timer a.
Proof.
  unfold _populate_latency_combos, append, print.
  destruct (get_ports g physical_capture);
    [destruct (get_ports g physical_playback)|]; simpl; try reflexivity;
    destruct (latency_results_text a); reflexivity.
Qed.

(** C6.  When no test is in progress, [run_latency_test] starts what
    [which] finds for "jack_delay", and only when it finds nothing what it
    finds for "jack_iodelay"; when it finds neither, it reports the error,
    enables the run button, disables the stop button and leaves no process
    object.  And when [which] finds neither, no process is started, in
    progress or not. *)
Theorem binary_resolution (h : Host) (g : G) (a : App) :
  let a' := run_latency_test h g a in
  (process_running a = false ->
   forall program, which h (str "jack_delay") = Some program ->
     latency_process a' = Some (started_QProcess h program [])
     /\ filter is_process_start (issued a a') = [ProcessStart program []])
  /\ (process_running a = false ->
      forall program,
        which h (str "jack_delay") = None ->
        which h (str "jack_iodelay") = Some program ->
        latency_process a' = Some (started_QProcess h program [])
        /\ filter is_process_start (issued a a') = [ProcessStart program []])
  /\ (process_running a = false ->
      which h (str "jack_delay") = None ->
      which h (str "jack_iodelay") = None ->
      latency_results_text a' = msg_not_found
      /\ latency_run_button a' = true
      /\ latency_stop_button a' = false
      /\ latency_process a' = None)
  /\ (which h (str "jack_delay") = None ->
      which h (str "jack_iodelay") = None ->
      filter is_process_start (issued a a') = []).
Proof.
  cbv zeta. unfold run_latency_test.
  destruct (_populate_latency_combos_effects g a) as (l & El & Hl).
  assert (F : filter is_process_start l = []).
  { clear El. induction l as [|e l IH]; [reflexivity|]. simpl in *.
    apply andb_prop in Hl. destruct Hl as [He Hl].
    destruct (is_process_start e); [discriminate|]. now apply IH. }
  destruct (process_running a).
  { repeat split; try discriminate. intros _ _.
    rewrite (@issued_app a _ []); [reflexivity|].
    now rewrite append_effects, app_nil_r. }
  split; [|split; [|split]].
  - intros _ program ->. split; [reflexivity|].
    rewrite (@issued_app a _ (l ++ [ProcessStart program []])).
    + now rewrite filter_app, F.
    + simpl. destruct (latency_raw_output_checkbox _); simpl;
        rewrite El; now rewrite <- app_assoc.
  - intros _ program -> ->. split; [reflexivity|].
    rewrite (@issued_app a _ (l ++ [ProcessStart program []])).
    + now rewrite filter_app, F.
    + simpl. destruct (latency_raw_output_checkbox _); simpl;
        rewrite El; now rewrite <- app_assoc.
  - intros _ -> ->. repeat split.
  - intros -> ->.
    rewrite (@issued_app a _ l); [exact F|]. simpl.
    destruct (latency_raw_output_checkbox _); exact El.
Qed.
End StartFacts.

Lemma binary_resolution_witness :
  let a' := run_latency_test bare_host demo_graph init in
  process_running init = false
  /\ (latency_results_text a' = msg_not_found
      /\ latency_run_button a' = true
      /\ latency_stop_button a' = false
      /\ latency_process a' = None)
  /\ filter is_process_start (issued init a') = [].
Proof.
  cbv zeta.
  destruct (binary_resolution bare_host demo_graph init) as (_ & _ & H3 & H4).
  split; [reflexivity|]. split; [now apply H3|now apply H4].
Defined.

(** ** Raw output *)
Section RawFacts.
Context {py : PyRuntime}.

Lemma setText_same a : setText (latency_results_text a) a = a.
Proof. now destruct a. Qed.

Lemma feed_raw chunks : forall a,
  latency_raw_output_checkbox a = true ->
  latency_process a <> None ->
  feed chunks a
  = setText (latency_results_text a ++ List.concat (map plain_text chunks)) a.
Proof.
  induction chunks as [|c cs IH]; intros a Hbox Hproc.
  - simpl. now rewrite app_nil_r, setText_same.
  - change (feed (c :: cs) a) with (feed cs (handle_latency_output c a)).
    assert (E : handle_latency_output c a
                = setText (latency_results_text a ++ plain_text c) a).
    { unfold handle_latency_output. destruct (latency_process a); [|easy].
      now rewrite Hbox. }
    rewrite E, IH; [|exact Hbox|exact Hproc].
    simpl. now rewrite <- app_assoc.
Qed.

(** A chunk of characters that the widget keeps is shown as it is. *)
Lemma plain_text_kept data :
  forallb kept_as_is data = true -> plain_text data = data.
Proof.
  unfold plain_text. induction data as [|c rest IH]; [reflexivity|].
  intros H. apply andb_prop in H. destruct H as [Hc Hrest].
  cbn [plain_text_from]. rewrite (IH Hrest).
  unfold kept_as_is in Hc. apply negb_true_iff in Hc.
  apply orb_false_iff in Hc. destruct Hc as [Hc Hn].
  apply orb_false_iff in Hc. destruct Hc as [Hc Hl].
  apply orb_false_iff in Hc. destruct Hc as [Hcr Hb].
  rewrite Hcr, Hb, Hl, Hn. cbn [orb].
  destruct (N.eqb_spec c LF) as [->|_]; reflexivity.
Qed.

Lemma plain_text_chunks_kept chunks :
  forallb (forallb kept_as_is) chunks = true ->
  List.concat (map plain_text chunks) = List.concat chunks.
Proof.
  induction chunks as [|c cs IH]; [reflexivity|].
  intros H. apply andb_prop in H. destruct H as [Hc Hcs].
  cbn [map List.concat]. now rewrite (plain_text_kept c Hc), (IH Hcs).
Qed.

Lemma set_values_same a : set_values (latency_values a) a = a.
Proof. now destruct a. Qed.

(** While the signal is waited for, a chunk without it changes nothing. *)
Lemma handle_latency_output_ignored data a :
  latency_raw_output_checkbox a = false ->
  latency_waiting_for_connection a = true ->
  has_ms data = false ->
  handle_latency_output data a = a.
Proof.
  intros Hb Hw Hm. unfold handle_latency_output, has_ms in *.
  destruct (latency_process a); [|reflexivity]. rewrite Hb, Hw.
  destruct (search ms_pattern data); [discriminate|]. now rewrite Hw.
Qed.

(** The chunk that shows the signal arms the timer, and its lines are
    taken. *)
Lemma handle_latency_output_detects data a :
  latency_process a <> None ->
  latency_raw_output_checkbox a = false ->
  latency_waiting_for_connection a = true ->
  has_ms data = true ->
  handle_latency_output data a
  = set_values (latency_values a ++ samples_of data)
      (set_timer {| isActive := true; isSingleShot := true; interval := 10000;
                    timeout_slots := S (timeout_slots (latency_timer a)) |}
         (setText msg_connection_detected (set_waiting false a))).
Proof.
  intros Hp Hb Hw Hm. unfold handle_latency_output, has_ms in *.
  destruct (latency_process a); [|easy]. rewrite Hb, Hw.
  destruct (search ms_pattern data); [|discriminate]. simpl.
  now rewrite fold_parse_app.
Qed.

(** Once the signal has been seen, a chunk adds its samples and changes
    nothing else. *)
Lemma handle_latency_output_measuring data a :
  latency_process a <> None ->
  latency_raw_output_checkbox a = false ->
  latency_waiting_for_connection a = false ->
  handle_latency_output data a
  = set_values (latency_values a ++ samples_of data) a.
Proof.
  intros Hp Hb Hw. unfold handle_latency_output.
  destruct (latency_process a); [|easy]. rewrite Hb, Hw. simpl.
  rewrite Hw. simpl. now rewrite fold_parse_app.
Qed.

End RawFacts.

Section Sessions.
Context {py : PyRuntime} {G : Type} {jack : JackClient G}.

Lemma run_latency_test_started (h : Host) (g : G) a program :
  process_running a = false ->
  resolved_program h = Some program ->
  let a' := run_latency_test h g a in
  latency_process a' = Some (started_QProcess h program [])
  /\ latency_raw_output_checkbox a' = latency_raw_output_checkbox a
  /\ latency_values a' = []
  /\ latency_waiting_for_connection a' = negb (latency_raw_output_checkbox a)
  /\ latency_timer a' = latency_timer a
  /\ latency_results_text a'
     = if latency_raw_output_checkbox a then msg_start_raw
       else msg_start_average.
Proof.
  intros Hrun Hres. cbv zeta. unfold run_latency_test, resolved_program in *.
  rewrite Hrun.
  pose proof (_populate_latency_combos_box g a) as Hb.
  pose proof (_populate_latency_combos_timer g a) as Ht.
  destruct (which h (str "jack_delay")) as [p|] eqn:E1;
    [|destruct (which h (str "jack_iodelay")) as [p|] eqn:E2; [|discriminate]];
    injection Hres as ->; simpl; rewrite Hb;
    destruct (latency_raw_output_checkbox a); simpl; rewrite ?Hb, ?Ht;
    repeat split.
Qed.

(** C7.  In a session started with the box checked, and while it stays
    checked, each chunk of the output is given to the widget as it is and
    nothing else changes: no sample is recorded, whatever the chunks hold,
    and the connection signal is not looked for (the flag is clear from the
    start and the timer is not armed).  The text shown is the text of the
    start followed by the chunks as the widget gives plain text back, which
    is the chunks as they are when they hold no carriage return, no U+2028,
    U+2029, U+FDD0 or U+FDD1, and no U+00A0. *)
Theorem raw_session_passthrough (h : Host) (g : G) (a0 : App)
    (program : text) (chunks : list text) :
  latency_raw_output_checkbox a0 = true ->
  process_running a0 = false ->
  resolved_program h = Some program ->
  let a := run_latency_test h g a0 in
  let a' := feed chunks a in
  (forall data b,
     latency_process b <> None -> latency_raw_output_checkbox b = true ->
     handle_latency_output data b = insertPlainText_at_end data b)
  /\ a' = setText (msg_start_raw ++ List.concat (map plain_text chunks)) a
  /\ latency_results_text a'
     = msg_start_raw ++ List.concat (map plain_text chunks)
  /\ (forallb (forallb kept_as_is) chunks = true ->
      latency_results_text a' = msg_start_raw ++ List.concat chunks)
  /\ latency_values a' = []
  /\ latency_waiting_for_connection a' = false
  /\ latency_timer a' = latency_timer a0.
Proof.
  intros Hbox Hrun Hres. cbv zeta.
  destruct (run_latency_test_started h g a0 Hrun Hres)
    as (Hp & Hb & Hv & Hw & Ht & Hx).
  rewrite Hbox in *. simpl in Hw.
  split.
  { intros data b Pb Bb. unfold handle_latency_output.
    destruct (latency_process b); [|easy]. now rewrite Bb. }
  rewrite feed_raw; [|congruence|congruence]. rewrite Hx.
  split; [reflexivity|]. split; [reflexivity|].
  split.
  { intros K. cbn [setText latency_results_text].
    now rewrite (plain_text_chunks_kept chunks K). }
  repeat split; simpl; assumption.
Qed.

(** C10.  The box is read when each chunk of the output comes and when the
    process ends, in every state: a chunk that comes while the box is
    checked is given to the widget and nothing else changes; a chunk that
    comes while it is clear has the samples of its lines recorded; when the
    process ends while the box is checked the report is "Measurement
    stopped.", not the averages, whatever samples there are, and while it is
    clear and there are samples, their averages.  One thing is kept from
    the start: [run_latency_test] sets the flag of the wait for the signal
    to the negation of the box, and a chunk that comes while the box is
    clear is searched for the signal, the text replaced and the timer armed
    for 10 s, only while that flag is set. *)
Theorem mode_read_at_each_event (data : text) (a : App) :
  latency_process a <> None ->
  let a' := handle_latency_output data a in
  a' = (if latency_raw_output_checkbox a then insertPlainText_at_end data a
        else if latency_waiting_for_connection a then
          if has_ms data then
            set_values (latency_values a ++ samples_of data)
              (set_timer {| isActive := true; isSingleShot := true;
                            interval := 10000;
                            timeout_slots :=
                              S (timeout_slots (latency_timer a)) |}
                 (setText msg_connection_detected (set_waiting false a)))
          else a
        else set_values (latency_values a ++ samples_of data) a)
  /\ latency_values a'
     = (if latency_raw_output_checkbox a then latency_values a
        else latency_values a ++ samples_of data)
  /\ (forall exit_code exit_status,
        let b := handle_latency_finished exit_code exit_status a in
        (latency_raw_output_checkbox a = true ->
         latency_results_text b = str "Measurement stopped."
         /\ latency_values b = latency_values a
         /\ forall average_frames average_ms,
              latency_results_text b <> msg_average average_frames average_ms)
        /\ (latency_raw_output_checkbox a = false ->
            latency_values a <> [] ->
            let count :=
              float_of_int (Z.of_nat (List.length (latency_values a))) in
            latency_results_text b
            = msg_average
                (fdiv (py_sum (map fst (latency_values a))) count)
                (fdiv (py_sum (map snd (latency_values a))) count)))
  /\ (forall (h : Host) (g : G) (a0 : App) (program : text),
        process_running a0 = false ->
        resolved_program h = Some program ->
        latency_waiting_for_connection (run_latency_test h g a0)
        = negb (latency_raw_output_checkbox a0)
        /\ latency_raw_output_checkbox (run_latency_test h g a0)
           = latency_raw_output_checkbox a0).
Proof.
  intros Hp. cbv zeta.
  assert (E : handle_latency_output data a
              = (if latency_raw_output_checkbox a
                 then insertPlainText_at_end data a
                 else if latency_waiting_for_connection a then
                   if has_ms data then
                     set_values (latency_values a ++ samples_of data)
                       (set_timer {| isActive := true; isSingleShot := true;
                                     interval := 10000;
                                     timeout_slots :=
                                       S (timeout_slots (latency_timer a)) |}
                          (setText msg_connection_detected
                             (set_waiting false a)))
                   else a
                 else set_values (latency_values a ++ samples_of data) a)).
  { destruct (latency_raw_output_checkbox a) eqn:Hb.
    - unfold handle_latency_output. destruct (latency_process a); [|easy].
      now rewrite Hb.
    - destruct (latency_waiting_for_connection a) eqn:Hw.
      + destruct (has_ms data) eqn:Hm.
        * exact (handle_latency_output_detects data a Hp Hb Hw Hm).
        * exact (handle_latency_output_ignored data a Hb Hw Hm).
      + exact (handle_latency_output_measuring data a Hp Hb Hw). }
  split; [exact E|]. split; [|split].
  - rewrite handle_latency_output_values.
    destruct (latency_process a); [|easy].
    now destruct (latency_raw_output_checkbox a).
  - intros exit_code exit_status. cbv zeta. split.
    + intros Hbox. unfold handle_latency_finished. simpl. rewrite Hbox. simpl.
      repeat split. intros x y F.
      destruct (msg_average_head x y) as (t & F'). rewrite F' in F.
      discriminate.
    + intros Hbox Hval. unfold handle_latency_finished. simpl. rewrite Hbox.
      destruct (latency_values a); [easy|reflexivity].
  - intros h g a0 program Hrun Hres.
    destruct (run_latency_test_started h g a0 Hrun Hres)
      as (_ & Hb & _ & Hw & _).
    now split.
Qed.
End Sessions.

Lemma raw_session_passthrough_witness :
  let a' := feed (py := cpython311) [line_1; line_2] raw_session in
  latency_results_text a' = msg_start_raw ++ line_1 ++ line_2
  /\ latency_values a' = [].
Proof.
  destruct (raw_session_passthrough (py := cpython311) demo_host demo_graph
              (set_checkbox true init) (program := str "/usr/bin/jack_delay")
              [line_1; line_2] eq_refl eq_refl eq_refl)
    as (_ & _ & _ & Ht & Hv & _).
  split; [|exact Hv].
  etransitivity; [exact (Ht eq_refl)|]. vm_compute. reflexivity.
Defined.

(** C7, as the spec has it, fails: the widget does not show a carriage
    return as it is, so a chunk that ends with carriage return and line feed
    is not in the text shown as it came. *)
Lemma raw_verbatim_counterexample :
  let chunk := str "64.000 frames 1.333 ms" ++ [CR; LF] in
  let a' := feed (py := cpython311) [chunk] raw_session in
  latency_raw_output_checkbox raw_session = true
  /\ latency_results_text a'
     = msg_start_raw ++ str "64.000 frames 1.333 ms" ++ [LF]
  /\ latency_results_text a' <> msg_start_raw ++ chunk.
Proof.
  vm_compute. split; [reflexivity|]. split; [reflexivity|]. discriminate.
Qed.

Lemma mode_read_at_each_event_witness :
  latency_values
    (handle_latency_output (py := cpython311) line_1
       (set_checkbox false raw_session))
  = [(f64_0, f1_333)]
  /\ latency_results_text
       (handle_latency_finished (py := cpython311) 15 CrashExit
          (set_checkbox true
             (feed (py := cpython311) [line_1; line_2] average_session)))
     = str "Measurement stopped.".
Proof.
  assert (P1 : latency_process (set_checkbox false raw_session) <> None)
    by discriminate.
  assert (P2 : latency_process
                 (set_checkbox true
                    (feed (py := cpython311) [line_1; line_2]
                       average_session)) <> None)
    by (vm_compute; discriminate).
  split.
  - destruct (@mode_read_at_each_event cpython311 ScriptedGraph _ line_1 _ P1)
      as (_ & Hv & _).
    etransitivity; [exact Hv|]. vm_compute. reflexivity.
  - destruct (@mode_read_at_each_event cpython311 ScriptedGraph _ line_1 _ P2)
      as (_ & _ & Hf & _).
    apply (Hf 15%Z CrashExit). vm_compute. reflexivity.
Defined.

(** C10, as the spec has it, fails: with the box clear when the chunk
    comes, the same chunk arms the timer and replaces the text in the
    session started with the box clear, and does neither in the session
    started with the box checked, although the samples recorded are the
    same. *)
Lemma mode_latched_counterexample :
  let started_clear := set_checkbox false average_session in
  let started_checked := set_checkbox false raw_session in
  let after_clear :=
    handle_latency_output (py := cpython311) line_1 started_clear in
  let after_checked :=
    handle_latency_output (py := cpython311) line_1 started_checked in
  latency_raw_output_checkbox started_clear
  = latency_raw_output_checkbox started_checked
  /\ latency_values after_clear = latency_values after_checked
  /\ latency_timer after_clear
     = {| isActive := true; isSingleShot := true; interval := 10000;
          timeout_slots := 1 |}
  /\ latency_timer after_checked = latency_timer init
  /\ latency_results_text after_clear
     = str "Connection detected. Running test..."
  /\ latency_results_text after_checked = msg_start_raw.
Proof. vm_compute. repeat split; reflexivity. Qed.

(** ** Stopping *)

Section StopFacts.
Context {py : PyRuntime}.

Lemma handle_latency_finished_process c s a :
  latency_process (handle_latency_finished c s a) = None.
Proof. reflexivity. Qed.

Lemma handle_latency_finished_timer c s a :
  latency_timer (handle_latency_finished c s a) = latency_timer a.
Proof.
  unfold handle_latency_finished. simpl.
  destruct (latency_raw_output_checkbox a); [reflexivity|].
  destruct (latency_values a); [|reflexivity].
  destruct (is_NormalExit s && Z.eqb c 0); [reflexivity|].
  destruct (is_CrashExit s); [reflexivity|].
  destruct (negb (Z.eqb c 0)); reflexivity.
Qed.

(** When no process runs, the wait inside the handler of an error is not
    entered: what it would deliver does not matter.  This is how
    [process_exited] calls it. *)
Lemma handle_latency_error_in_idle r r' e a :
  process_running a = false ->
  handle_latency_error_in r e a = handle_latency_error_in r' e a.
Proof.
  intros H. unfold handle_latency_error_in, process_running in *.
  assert (P : forall t, latency_process (append t a) = latency_process a)
    by (intros t; unfold append; now destruct (latency_results_text a)).
  set (a1 := append _ a). assert (P1 : latency_process a1 = latency_process a)
    by apply P.
  set (a2 := if isActive (latency_timer a1) then _ else a1).
  assert (P2 : latency_process a2 = latency_process a).
  { unfold a2. now destruct (isActive (latency_timer a1)). }
  rewrite P2. destruct (latency_process a) as [p|]; [|reflexivity].
  now rewrite H.
Qed.

Lemma handle_latency_error_in_timer r e a :
  (forall x b, isActive (latency_timer b) = false ->
               isActive (latency_timer (r x b)) = false) ->
  isActive (latency_timer (handle_latency_error_in r e a)) = false.
Proof.
  intros Hr. unfold handle_latency_error_in. simpl.
  set (a1 := append _ a).
  assert (T1 : latency_timer a1 = latency_timer a).
  { unfold a1, append. destruct (latency_results_text a); reflexivity. }
  assert (P1 : latency_process a1 = latency_process a).
  { unfold a1, append. destruct (latency_results_text a); reflexivity. }
  set (a2 := if isActive (latency_timer a1) then _ else a1).
  assert (T2 : isActive (latency_timer a2) = false).
  { unfold a2. destruct (isActive (latency_timer a1)) eqn:E; [reflexivity|exact E]. }
  assert (P2 : latency_process a2 = latency_process a1).
  { unfold a2. destruct (isActive (latency_timer a1)); reflexivity. }
  destruct (latency_process a2) as [p|]; [|exact T2]. simpl.
  destruct (negb (is_NotRunning (proc_state p))); [|exact T2].
  destruct (proc_on_kill p); [apply Hr|]; exact T2.
Qed.

Lemma process_exited_process x a : latency_process (process_exited x a) = None.
Proof. destruct x. reflexivity. Qed.

Lemma process_exited_timer x a :
  isActive (latency_timer a) = false ->
  isActive (latency_timer (process_exited x a)) = false.
Proof.
  intros H. destruct x as [c s]. unfold process_exited.
  rewrite handle_latency_finished_timer.
  assert (H1 : isActive (latency_timer
                 match latency_process a with
                 | Some p => set_process (Some (with_state NotRunning p)) a
                 | None => a
                 end) = false) by (destruct (latency_process a); exact H).
  destruct s; [exact H1|]. now apply handle_latency_error_in_timer.
Qed.

(** Once the timer is not active and no process runs, [stop_latency_test]
    does nothing. *)
Lemma stop_latency_test_idle a :
  isActive (latency_timer a) = false ->
  process_running a = false ->
  stop_latency_test a = Some a.
Proof.
  intros Ht Hp. unfold stop_latency_test. now rewrite Ht, Hp.
Qed.

Lemma stop_latency_test_result a :
  child_ends a = true ->
  exists a1, stop_latency_test a = Some a1
             /\ isActive (latency_timer a1) = false
             /\ process_running a1 = false.
Proof.
  intros Hends. unfold stop_latency_test.
  set (a0 := if isActive (latency_timer a) then _ else a).
  assert (T0 : isActive (latency_timer a0) = false).
  { unfold a0. destruct (isActive (latency_timer a)) eqn:E; [reflexivity|exact E]. }
  assert (P0 : latency_process a0 = latency_process a).
  { unfold a0. destruct (isActive (latency_timer a)); reflexivity. }
  destruct (process_running a0) eqn:R; [|now exists a0].
  set (a1 := append _ a0).
  assert (T1 : latency_timer a1 = latency_timer a0).
  { unfold a1, append. destruct (latency_results_text a0); reflexivity. }
  assert (P1 : latency_process a1 = latency_process a0).
  { unfold a1, append. destruct (latency_results_text a0); reflexivity. }
  unfold process_running in R. unfold child_ends in Hends.
  rewrite <- P0 in Hends.
  unfold on_process. simpl. rewrite P1.
  destruct (latency_process a0) as [p|]; [|discriminate].
  destruct (proc_on_terminate p) as [x|].
  - eexists. split; [reflexivity|]. split.
    + simpl. apply process_exited_timer. simpl. now rewrite T1.
    + unfold process_running. simpl. now rewrite process_exited_process.
  - destruct (proc_on_kill p) as [x|]; [|discriminate].
    eexists. split; [reflexivity|]. split.
    + simpl. apply process_exited_timer. simpl. now rewrite T1.
    + unfold process_running. simpl. now rewrite process_exited_process.
Qed.

Lemma stop_latency_test_total a : stop_latency_test a <> None.
Proof.
  unfold stop_latency_test.
  set (a0 := if isActive (latency_timer a) then _ else a).
  destruct (process_running a0) eqn:R; [|discriminate].
  set (a1 := append _ a0).
  assert (P1 : latency_process a1 = latency_process a0).
  { unfold a1, append. destruct (latency_results_text a0); reflexivity. }
  unfold process_running in R. unfold on_process. simpl. rewrite P1.
  destruct (latency_process a0) as [p|]; [|discriminate].
  destruct (proc_on_terminate p); discriminate.
Qed.

(** C8.  [stop_latency_test] never raises.  Called a second time, when the
    child has ended on the first call, it changes nothing: nothing is
    terminated or killed again and the text shown stays.  Called after the
    process has ended on its own and [handle_latency_finished] has run, it
    does no more than stop the timer. *)
Theorem stop_twice (a : App) :
  child_ends a = true ->
  (exists a1,
     stop_latency_test a = Some a1
     /\ stop_latency_test a1 = Some a1)
  /\ (forall exit_code exit_status,
        let a2 := handle_latency_finished exit_code exit_status a in
        exists a3,
          stop_latency_test a2 = Some a3
          /\ issued a2 a3 = []
          /\ latency_results_text a3 = latency_results_text a2
          /\ latency_process a3 = None
          /\ latency_values a3 = latency_values a2
          /\ latency_run_button a3 = latency_run_button a2
          /\ latency_stop_button a3 = latency_stop_button a2)
  /\ (forall b, stop_latency_test b <> None).
Proof.
  intros Hends. split; [|split].
  - destruct (stop_latency_test_result a Hends) as (a1 & E & Ht & Hp).
    exists a1. split; [exact E|]. now apply stop_latency_test_idle.
  - intros exit_code exit_status. cbv zeta.
    set (a2 := handle_latency_finished exit_code exit_status a).
    unfold stop_latency_test.
    assert (R : process_running
                  (if isActive (latency_timer a2)
                   then set_timer (timer_stop (latency_timer a2)) a2
                   else a2) = false)
      by (destruct (isActive (latency_timer a2)); reflexivity).
    rewrite R. eexists. split; [reflexivity|].
    destruct (isActive (latency_timer a2)); repeat split;
      unfold issued; simpl; apply skipn_all.
  - apply stop_latency_test_total.
Qed.
End StopFacts.

Lemma stop_twice_witness :
  let a := feed (py := cpython311) [line_1] average_session in
  child_ends a = true
  /\ exists a1,
       stop_latency_test (py := cpython311) a = Some a1
       /\ stop_latency_test (py := cpython311) a1 = Some a1.
Proof.
  assert (H : child_ends (feed (py := cpython311) [line_1] average_session)
              = true) by (vm_compute; reflexivity).
  split; [exact H|].
  exact (proj1 (stop_twice (py := cpython311)
                  (feed (py := cpython311) [line_1] average_session) H)).
Defined.

(** ** Port registrations *)
Lemma emit_effects e a : effects (emit e a) = effects a ++ [e].
Proof. reflexivity. Qed.

Lemma emits_effects l : forall a, effects (emits l a) = effects a ++ l.
Proof.
  induction l as [|e l IH]; intros a; simpl.
  - now rewrite app_nil_r.
  - unfold emits in IH. rewrite IH. simpl. now rewrite <- app_assoc.
Qed.


(** ** The automatic connection *)
Lemma emits_emits l1 l2 a : emits l2 (emits l1 a) = emits (l1 ++ l2) a.
Proof. unfold emits. now rewrite fold_left_app. Qed.

Lemma truthy_Some x : truthy x = true -> exists c t, x = Some (c :: t).
Proof. destruct x as [[|c t]|]; try discriminate. now exists c, t. Qed.

(** ** The attributes an attempt leaves alone *)
Lemma same_controller_refl a : same_controller a a.
Proof. unfold same_controller. intuition. Qed.

Lemma same_controller_trans a b c :
  same_controller a b -> same_controller b c -> same_controller a c.
Proof. unfold same_controller. intuition congruence. Qed.

Lemma same_controller_emit e a : same_controller a (emit e a).
Proof. unfold same_controller. intuition. Qed.

Lemma same_controller_emits l : forall a, same_controller a (emits l a).
Proof.
  induction l as [|e l IH]; intros a; [apply same_controller_refl|].
  apply same_controller_trans with (emit e a);
    [apply same_controller_emit|apply IH].
Qed.

Lemma same_controller_append t a : same_controller a (append t a).
Proof.
  unfold same_controller, append.
  destruct (latency_results_text a); intuition.
Qed.

Lemma emits_text l : forall a,
  latency_results_text (emits l a) = latency_results_text a.
Proof.
  induction l as [|e l IH]; intros a; [reflexivity|].
  unfold emits in *. simpl. now rewrite IH.
Qed.

Ltac to_emits :=
  unfold print;
  repeat match goal with
         | |- context [emit ?e ?x] => change (emit e x) with (emits [e] x)
         end;
  rewrite ?emits_emits.

Section AttemptFacts.
Context {G : Type} {jack : JackClient G}.

Lemma make_connection_calls o i (g : G) e :
  In e (snd (make_connection o i g)) ->
  is_connect_call e = true ->
  exists ok, e = CallConnect o i ok.
Proof.
  unfold make_connection.
  destruct (get_all_connections g o) as [l|err];
    [destruct (existsb (text_eqb i) l)|];
    destruct (connect g o i); simpl;
    intuition (subst; try discriminate; eauto).
Qed.

Lemma make_connection_skip o i (g : G) :
  connected g o i ->
  make_connection o i g
  = (g, [CallGetAllConnections o;
         Print (str "Connection " ++ o ++ str " -> " ++ i
                ++ str " already exists, skipping")]).
Proof.
  intros (l & E & H). unfold make_connection. now rewrite E, H.
Qed.

Lemma make_connection_post o i (g : G) :
  existsb connect_failed (snd (make_connection o i g)) = false ->
  (connected g o i /\ fst (make_connection o i g) = g)
  \/ connect g o i = Ok (fst (make_connection o i g)).
Proof.
  unfold make_connection, connected.
  destruct (get_all_connections g o) as [l|err];
    [destruct (existsb (text_eqb i) l) eqn:E|];
    destruct (connect g o i) eqn:C; simpl; intros H;
    try discriminate; eauto.
Qed.

(** The three ways an attempt goes when both ports are selected: the audio
    input ports cannot be read; they can, and after the first edge the
    audio output ports cannot; both can, and the two edges are run. *)
Lemma _attempt_latency_auto_connection_inv (g : G) a :
  ports_selected a = true ->
  let out := alias_text (latency_selected_output_alias a) in
  let inp := alias_text (latency_selected_input_alias a) in
  let pre :=
    [Print (str "Attempting auto-connection: jack_delay:out -> " ++ out);
     Print (str "Attempting auto-connection: " ++ inp ++ str " -> jack_delay:in");
     CallGetPorts audio_inputs] in
  let failed e :=
    Print (str "Error during latency auto-connection (JackError): " ++ e) in
  let shown e := nl ++ str "Error auto-connecting (JACK): " ++ e in
  let r := _attempt_latency_auto_connection (g, a) in
  (exists e,
     get_ports g audio_inputs = JackError e
     /\ r = (g, append (shown e) (emits (pre ++ [failed e]) a)))
  \/ (exists ports,
        get_ports g audio_inputs = Ok ports
        /\ let e1 := connect_tool_output out ports g in
           (exists e,
              get_ports (fst e1) audio_outputs = JackError e
              /\ r = (fst e1,
                      append (shown e)
                        (emits (pre ++ snd e1
                                ++ [CallGetPorts audio_outputs; failed e]) a)))
           \/ (exists ports',
                 get_ports (fst e1) audio_outputs = Ok ports'
                 /\ let e2 := connect_tool_input inp ports' (fst e1) in
                    r = (fst e2,
                         emits (pre ++ snd e1 ++ [CallGetPorts audio_outputs]
                                ++ snd e2) a))).
Proof.
  intros Sel. cbv zeta. unfold _attempt_latency_auto_connection.
  unfold ports_selected in Sel. rewrite Sel.
  set (out := alias_text (latency_selected_output_alias a)).
  set (inp := alias_text (latency_selected_input_alias a)).
  destruct (get_ports g audio_inputs) as [ports|e].
  - right. exists ports. split; [reflexivity|].
    destruct (connect_tool_output out ports g) as [g1 l1]. cbn [fst snd].
    destruct (get_ports g1 audio_outputs) as [ports'|e].
    + right. exists ports'. split; [reflexivity|].
      destruct (connect_tool_input inp ports' g1) as [g2 l2]. cbn [fst snd].
      to_emits. cbn [app]. rewrite <- ?app_assoc. reflexivity.
    + left. exists e. split; [reflexivity|].
      unfold auto_connection_failed. to_emits.
      cbn [app]. rewrite <- ?app_assoc. reflexivity.
  - left. exists e. split; [reflexivity|].
    unfold auto_connection_failed. to_emits. reflexivity.
Qed.

Lemma issued_emits l a : issued a (emits l a) = l.
Proof. apply issued_app, emits_effects. Qed.

Lemma issued_append_emits t l a : issued a (append t (emits l a)) = l.
Proof. apply issued_app. now rewrite append_effects, emits_effects. Qed.

Lemma connect_tool_output_calls out ports (g : G) e :
  In e (snd (connect_tool_output out ports g)) ->
  is_connect_call e = true ->
  exists ok, e = CallConnect jack_delay_out out ok.
Proof.
  unfold connect_tool_output. destruct (existsb (text_eqb out) ports).
  - apply make_connection_calls.
  - simpl. intuition (subst; discriminate).
Qed.

Lemma connect_tool_input_calls inp ports (g : G) e :
  In e (snd (connect_tool_input inp ports g)) ->
  is_connect_call e = true ->
  exists ok, e = CallConnect inp jack_delay_in ok.
Proof.
  unfold connect_tool_input. destruct (existsb (text_eqb inp) ports).
  - apply make_connection_calls.
  - simpl. intuition (subst; discriminate).
Qed.

(** What an attempt calls [connect] on. *)
Lemma _attempt_latency_auto_connection_calls (g : G) a e :
  In e (issued a (snd (_attempt_latency_auto_connection (g, a)))) ->
  is_connect_call e = true ->
  exists ok,
    e = CallConnect jack_delay_out
          (alias_text (latency_selected_output_alias a)) ok
    \/ e = CallConnect (alias_text (latency_selected_input_alias a))
           jack_delay_in ok.
Proof.
  destruct (ports_selected a) eqn:Sel.
  2:{ unfold _attempt_latency_auto_connection. unfold ports_selected in Sel.
      rewrite Sel. unfold issued. simpl. now rewrite skipn_all. }
  destruct (_attempt_latency_auto_connection_inv g a Sel)
    as [(err & _ & ->)|(ports & _ & [(err & _ & ->)|(ports' & _ & ->)])];
    cbn [snd]; rewrite ?issued_append_emits, ?issued_emits;
    intros H Hc; repeat (apply in_app_or in H; destruct H as [H|H]);
    try (simpl in H; intuition (subst; discriminate)).
  - destruct (connect_tool_output_calls _ _ _ _ H Hc) as (ok & ->). eauto.
  - destruct (connect_tool_output_calls _ _ _ _ H Hc) as (ok & ->). eauto.
  - destruct (connect_tool_input_calls _ _ _ _ H Hc) as (ok & ->). eauto.
Qed.

(** An attempt leaves the attributes of the controller as they are. *)
Lemma _attempt_latency_auto_connection_same (g : G) a :
  same_controller a (snd (_attempt_latency_auto_connection (g, a))).
Proof.
  destruct (ports_selected a) eqn:Sel.
  2:{ unfold _attempt_latency_auto_connection. unfold ports_selected in Sel.
      rewrite Sel. apply same_controller_refl. }
  destruct (_attempt_latency_auto_connection_inv g a Sel)
    as [(err & _ & ->)|(ports & _ & [(err & _ & ->)|(ports' & _ & ->)])];
    cbn [snd];
    try (eapply same_controller_trans; [|apply same_controller_append]);
    apply same_controller_emits.
Qed.
End AttemptFacts.

Section Registration.
Context {G : Type} {jack : JackClient G}.

End Registration.



(** ** Attempting twice *)
Section Idempotence.
Context {G : Type} {jack : JackClient G} {laws : JackLaws G}.

Lemma one_connect_ports (g g' : G) q :
  one_connect g g' -> get_ports g' q = get_ports g q.
Proof.
  intros [->|(s & d & H)]; [reflexivity|]. eapply connect_ports; eassumption.
Qed.

Lemma one_connect_keeps (g g' : G) s d :
  one_connect g g' -> connected g s d -> connected g' s d.
Proof.
  intros [->|(s' & d' & H)]; [easy|]. intros C. eapply connect_keeps; eassumption.
Qed.

(** An edge whose connection did not fail leaves it made, and the graph
    at most one connection away. *)
Lemma make_connection_made o i (g : G) :
  existsb connect_failed (snd (make_connection o i g)) = false ->
  connected (fst (make_connection o i g)) o i
  /\ one_connect g (fst (make_connection o i g)).
Proof.
  intros H. destruct (make_connection_post o i g H) as [(C & ->)|C].
  - split; [exact C|now left].
  - split; [eapply connect_connects; eassumption|right; eauto].
Qed.

Lemma connect_tool_output_made out ports (g : G) :
  existsb connect_failed (snd (connect_tool_output out ports g)) = false ->
  one_connect g (fst (connect_tool_output out ports g))
  /\ (existsb (text_eqb out) ports = true ->
      connected (fst (connect_tool_output out ports g)) jack_delay_out out).
Proof.
  unfold connect_tool_output. destruct (existsb (text_eqb out) ports).
  - intros H. destruct (make_connection_made _ _ _ H). auto.
  - intros _. split; [now left|discriminate].
Qed.

Lemma connect_tool_input_made inp ports (g : G) :
  existsb connect_failed (snd (connect_tool_input inp ports g)) = false ->
  one_connect g (fst (connect_tool_input inp ports g))
  /\ (existsb (text_eqb inp) ports = true ->
      connected (fst (connect_tool_input inp ports g)) inp jack_delay_in).
Proof.
  unfold connect_tool_input. destruct (existsb (text_eqb inp) ports).
  - intros H. destruct (make_connection_made _ _ _ H). auto.
  - intros _. split; [now left|discriminate].
Qed.

(** After an attempt none of whose connections failed, each edge the next
    attempt would make is there. *)
Lemma _attempt_latency_auto_connection_settles (g : G) a :
  ports_selected a = true ->
  existsb connect_failed
    (issued a (snd (_attempt_latency_auto_connection (g, a)))) = false ->
  settled (fst (_attempt_latency_auto_connection (g, a)))
    (alias_text (latency_selected_input_alias a))
    (alias_text (latency_selected_output_alias a)).
Proof.
  intros Sel.
  destruct (_attempt_latency_auto_connection_inv g a Sel)
    as [(err & P1 & ->)|(ports & P1 & [(err & P2 & ->)|(ports' & P2 & ->)])];
    cbn [fst snd]; rewrite ?issued_append_emits, ?issued_emits;
    rewrite ?existsb_app; intros H.
  - intros ports0 E. rewrite P1 in E. discriminate.
  - apply orb_false_elim in H. destruct H as [_ H].
    apply orb_false_elim in H. destruct H as [H1 _].
    destruct (connect_tool_output_made _ _ _ H1) as [Hs Hc].
    intros ports0 E. rewrite (one_connect_ports _ Hs), P1 in E.
    injection E as <-. split; [exact Hc|].
    intros ports0 E. rewrite P2 in E. discriminate.
  - apply orb_false_elim in H. destruct H as [_ H].
    apply orb_false_elim in H. destruct H as [H1 H].
    apply orb_false_elim in H. destruct H as [_ H2].
    destruct (connect_tool_output_made _ _ _ H1) as [Hs1 Hc1].
    destruct (connect_tool_input_made _ _ _ H2) as [Hs2 Hc2].
    intros ports0 E.
    rewrite (one_connect_ports _ Hs2), (one_connect_ports _ Hs1), P1 in E.
    injection E as <-. split.
    + intros Hin. apply (one_connect_keeps Hs2). now apply Hc1.
    + intros ports0 E. rewrite (one_connect_ports _ Hs2), P2 in E.
      injection E as <-. exact Hc2.
Qed.
End Idempotence.

Section Settled.
Context {G : Type} {jack : JackClient G}.

(** In a graph where each edge is there, an attempt connects nothing. *)
Lemma settled_no_connect (g : G) a :
  ports_selected a = true ->
  settled g (alias_text (latency_selected_input_alias a))
    (alias_text (latency_selected_output_alias a)) ->
  filter is_connect_call
    (issued a (snd (_attempt_latency_auto_connection (g, a)))) = [].
Proof.
  intros Sel Hs.
  destruct (_attempt_latency_auto_connection_inv g a Sel)
    as [(err & P1 & ->)|(ports & P1 & H)].
  - cbn [snd]. now rewrite issued_append_emits.
  - destruct (Hs ports P1) as [H1 H2].
    assert (E1 : fst (connect_tool_output
                        (alias_text (latency_selected_output_alias a)) ports g)
                 = g
                 /\ filter is_connect_call
                      (snd (connect_tool_output
                              (alias_text (latency_selected_output_alias a))
                              ports g)) = []).
    { unfold connect_tool_output.
      destruct (existsb (text_eqb _) ports); [|now split].
      now rewrite (make_connection_skip (H1 eq_refl)). }
    destruct E1 as [Eg1 Ef1]. cbv zeta in H. rewrite Eg1 in H.
    destruct H as [(err & P2 & ->)|(ports' & P2 & ->)]; cbn [snd].
    + rewrite issued_append_emits, !filter_app, Ef1. reflexivity.
    + rewrite issued_emits, !filter_app, Ef1. cbn [filter app is_connect_call].
      unfold connect_tool_input.
      destruct (existsb (text_eqb _) ports') eqn:E; [|reflexivity].
      now rewrite (make_connection_skip (H2 ports' P2 E)).
Qed.
End Settled.

Section Twice.
Context {G : Type} {jack : JackClient G}.

(** C3.  For a graph in which a connection made is there afterwards, leaves
    the other connections there and leaves the ports as they are: when an
    attempt is made, and none of the connections it asked for failed, the
    attempt made next, on the graph and the application as the first left
    them, asks for no connection. *)
Theorem second_attempt_connects_nothing {laws : JackLaws G} (g : G) (a : App) :
  let first := _attempt_latency_auto_connection (g, a) in
  let second := _attempt_latency_auto_connection first in
  (existsb connect_failed (issued a (snd first)) = false ->
   filter is_connect_call (issued (snd first) (snd second)) = [])
  /\ (forall output_name input_name,
        connected g output_name input_name ->
        make_connection output_name input_name g
        = (g, [CallGetAllConnections output_name;
               Print (str "Connection " ++ output_name ++ str " -> "
                      ++ input_name ++ str " already exists, skipping")])).
Proof.
  cbv zeta. split; [|intros o i; apply make_connection_skip]. intros H.
  pose proof (_attempt_latency_auto_connection_same g a) as S.
  destruct (_attempt_latency_auto_connection (g, a)) as [g1 a1] eqn:E.
  cbn [snd] in *.
  destruct S as (_ & _ & _ & _ & _ & Si & So & _).
  destruct (ports_selected a) eqn:Sel.
  - assert (Sel1 : ports_selected a1 = true)
      by (unfold ports_selected in *; now rewrite Si, So).
    apply settled_no_connect; [exact Sel1|]. rewrite Si, So.
    change g1 with (fst (g1, a1)). rewrite <- E.
    apply _attempt_latency_auto_connection_settles; [exact Sel|].
    now rewrite E.
  - assert (Sel1 : ports_selected a1 = false)
      by (unfold ports_selected in *; now rewrite Si, So).
    unfold _attempt_latency_auto_connection. unfold ports_selected in Sel1.
    rewrite Sel1. unfold issued. cbn [snd]. now rewrite skipn_all.
Qed.
End Twice.

Lemma scripted_laws : JackLaws ScriptedGraph.
Proof.
  split.
  - intros g s d g' H. simpl in H. unfold sg_connect in H.
    destruct (sg_refuse g s d); [discriminate|]. injection H as <-.
    unfold connected. simpl. rewrite text_eqb_refl.
    eexists. split; [reflexivity|]. simpl. now rewrite text_eqb_refl.
  - intros g s d g' s' d' H (l & E & Hin). simpl in H, E. unfold sg_connect in H.
    destruct (sg_refuse g s d); [discriminate|]. injection H as <-.
    unfold connected. simpl. rewrite E. simpl.
    destruct (text_eqb s' s); [|destruct (text_eqb s' d)];
      eexists; (split; [reflexivity|]); simpl; rewrite ?Hin;
      now rewrite ?orb_true_r.
  - intros g s d g' q H. simpl in H. unfold sg_connect in H.
    destruct (sg_refuse g s d); [discriminate|]. now injection H as <-.
Qed.

Lemma second_attempt_connects_nothing_witness :
  let first := _attempt_latency_auto_connection (demo_graph, ports_chosen) in
  let second := _attempt_latency_auto_connection first in
  filter is_connect_call (issued ports_chosen (snd first))
  = [CallConnect jack_delay_out system_playback_1 true;
     CallConnect system_capture_1 jack_delay_in true]
  /\ filter is_connect_call (issued (snd first) (snd second)) = [].
Proof.
  split; [vm_compute; reflexivity|].
  apply (second_attempt_connects_nothing (laws := scripted_laws)
           demo_graph ports_chosen).
  vm_compute. reflexivity.
Defined.

(** ** What an attempt needs and what a failure in it reaches *)
Section Isolation.
Context {G : Type} {jack : JackClient G}.

Lemma make_connection_refused o i (g : G) e :
  connect g o i = JackError e ->
  ~ connected g o i ->
  make_connection o i g
  = (g, [CallGetAllConnections o; CallConnect o i false;
         Print (str "Connect error: " ++ e)]).
Proof.
  intros C N. unfold make_connection, connected in *. rewrite C.
  destruct (get_all_connections g o) as [l|err]; [|reflexivity].
  destruct (existsb (text_eqb i) l) eqn:E; [|reflexivity].
  exfalso. apply N. eauto.
Qed.

Lemma make_connection_unqueried o i (g g' : G) e :
  get_all_connections g o = JackError e ->
  connect g o i = Ok g' ->
  make_connection o i g
  = (g', [CallGetAllConnections o; CallConnect o i true;
          Print (str "Connected: " ++ o ++ str " -> " ++ i)]).
Proof. intros Q C. unfold make_connection. now rewrite Q, C. Qed.

(** C4, as the code has it.  With a port not selected the attempt does
    nothing.  With both selected, each edge is made only if its port is in
    the list of ports read for it, and is passed with a warning if not; a
    connection the server refuses is printed and the attempt goes on; a
    failure to read the connections of a port is not printed, and the
    connection is asked for all the same; whatever the first edge did, the
    second is run when its list of ports is read; and no attempt changes an
    attribute of the controller.  A failure to read a list of ports ends
    the attempt there, after it is printed and shown. *)
Theorem attempt_preconditions_and_failures (g : G) (a : App) :
  let out := alias_text (latency_selected_output_alias a) in
  let inp := alias_text (latency_selected_input_alias a) in
  let r := _attempt_latency_auto_connection (g, a) in
  (ports_selected a = false -> r = (g, a))
  /\ same_controller a (snd r)
  /\ (forall ports,
        existsb (text_eqb out) ports = false ->
        connect_tool_output out ports g
        = (g, [Print (str "Warning: Target output port '" ++ out
                      ++ str "' not found.")]))
  /\ (forall ports g1,
        existsb (text_eqb inp) ports = false ->
        connect_tool_input inp ports g1
        = (g1, [Print (str "Warning: Target input port '" ++ inp
                       ++ str "' not found.")]))
  /\ (forall o i g1 e,
        connect g1 o i = JackError e ->
        ~ connected g1 o i ->
        make_connection o i g1
        = (g1, [CallGetAllConnections o; CallConnect o i false;
                Print (str "Connect error: " ++ e)]))
  /\ (forall o i g1 g2 e,
        get_all_connections g1 o = JackError e ->
        connect g1 o i = Ok g2 ->
        make_connection o i g1
        = (g2, [CallGetAllConnections o; CallConnect o i true;
                Print (str "Connected: " ++ o ++ str " -> " ++ i)]))
  /\ (ports_selected a = true ->
      forall ports ports',
        get_ports g audio_inputs = Ok ports ->
        let first_edge := connect_tool_output out ports g in
        get_ports (fst first_edge) audio_outputs = Ok ports' ->
        let second_edge := connect_tool_input inp ports' (fst first_edge) in
        r = (fst second_edge,
             emits (attempt_prologue a ++ snd first_edge
                    ++ [CallGetPorts audio_outputs] ++ snd second_edge) a))
  /\ (ports_selected a = true ->
      forall e,
        get_ports g audio_inputs = JackError e ->
        r = (g, append (attempt_failure_text e)
                  (emits (attempt_prologue a ++ [attempt_failure_line e]) a))).
Proof.
  cbv zeta. split; [|split; [|split; [|split; [|split; [|split; [|split]]]]]].
  - intros Sel. unfold _attempt_latency_auto_connection.
    unfold ports_selected in Sel. now rewrite Sel.
  - apply _attempt_latency_auto_connection_same.
  - intros ports H. unfold connect_tool_output. now rewrite H.
  - intros ports g1 H. unfold connect_tool_input. now rewrite H.
  - intros o i g1 e. apply make_connection_refused.
  - intros o i g1 g2 e. apply make_connection_unqueried.
  - intros Sel ports ports' P1 P2.
    destruct (_attempt_latency_auto_connection_inv g a Sel)
      as [(err & P1' & _)|(ports0 & P1' & H)]; [congruence|].
    rewrite P1 in P1'. injection P1' as <-. cbv zeta in H.
    destruct H as [(err & P2' & _)|(ports0 & P2' & H)]; [congruence|].
    rewrite P2 in P2'. injection P2' as <-. exact H.
  - intros Sel e P1.
    destruct (_attempt_latency_auto_connection_inv g a Sel)
      as [(err & P1' & H)|(ports0 & P1' & _)]; [|congruence].
    rewrite P1 in P1'. injection P1' as <-. exact H.
Qed.
End Isolation.

Lemma attempt_preconditions_and_failures_witness :
  let r := _attempt_latency_auto_connection (refusing_graph, ports_chosen) in
  issued ports_chosen (snd r)
  = attempt_prologue ports_chosen
    ++ [CallGetAllConnections jack_delay_out;
        CallConnect jack_delay_out system_playback_1 false;
        Print (str "Connect error: connection refused")]
    ++ [CallGetPorts audio_outputs]
    ++ [CallGetAllConnections system_capture_1;
        CallConnect system_capture_1 jack_delay_in false;
        Print (str "Connect error: connection refused")]
  /\ same_controller ports_chosen (snd r)
  /\ latency_results_text (snd r) = latency_results_text ports_chosen.
Proof.
  cbv zeta.
  destruct (attempt_preconditions_and_failures refusing_graph ports_chosen)
    as (_ & Hsame & _ & _ & _ & _ & Hrun & _).
  split; [|split; [exact Hsame|]].
  - rewrite (Hrun eq_refl _ _ eq_refl eq_refl). cbn [snd].
    rewrite issued_emits. vm_compute. reflexivity.
  - rewrite (Hrun eq_refl _ _ eq_refl eq_refl). cbn [snd].
    rewrite emits_text. reflexivity.
Defined.

(** C4, as the spec has it, fails on two counts.  When the list of the input
    ports cannot be read for the first edge, the attempt ends: the second
    edge, whose port is there and which the server would make, is not tried,
    and the text shown changes.  And when the connections of a port cannot be
    read, nothing of it is printed. *)
Lemma failure_isolation_counterexample :
  (let r := _attempt_latency_auto_connection (failing_ports_graph, ports_chosen) in
   issued ports_chosen (snd r)
   = attempt_prologue ports_chosen
     ++ [attempt_failure_line (str "port list unavailable")]
   /\ latency_results_text (snd r)
      = str "Ready to test." ++ nl ++ nl
        ++ str "Error auto-connecting (JACK): port list unavailable"
   /\ get_ports failing_ports_graph audio_outputs
      = Ok [system_capture_1; jack_delay_out]
   /\ snd (connect_tool_input system_capture_1
             [system_capture_1; jack_delay_out] failing_ports_graph)
      = [CallGetAllConnections system_capture_1;
         CallConnect system_capture_1 jack_delay_in true;
         Print (str "Connected: system:capture_1 -> jack_delay:in")])
  /\ (let r := _attempt_latency_auto_connection (failing_query_graph, ports_chosen) in
      get_all_connections failing_query_graph jack_delay_out
      = JackError (str "connections unavailable")
      /\ existsb (printed (str "connections unavailable"))
           (issued ports_chosen (snd r)) = false
      /\ issued ports_chosen (snd r)
         = attempt_prologue ports_chosen
           ++ [CallGetAllConnections jack_delay_out;
               CallConnect jack_delay_out system_playback_1 true;
               Print (str "Connected: jack_delay:out -> system:playback_1");
               CallGetPorts audio_outputs;
               CallGetAllConnections system_capture_1;
               CallConnect system_capture_1 jack_delay_in true;
               Print (str "Connected: system:capture_1 -> jack_delay:in")]).
Proof. vm_compute. repeat split; reflexivity. Qed.

(** * More properties of the handlers *)

(** ** The output of the tool *)
Section OutputMore.
Context {py : PyRuntime}.

Lemma feed_measuring chunks : forall a,
  latency_process a <> None ->
  latency_raw_output_checkbox a = false ->
  latency_waiting_for_connection a = false ->
  feed chunks a
  = set_values (latency_values a ++ flat_map samples_of chunks) a.
Proof.
  induction chunks as [|c cs IH]; intros a Hp Hb Hw.
  - simpl. now rewrite app_nil_r, set_values_same.
  - change (feed (c :: cs) a) with (feed cs (handle_latency_output c a)).
    rewrite (handle_latency_output_measuring c a Hp Hb Hw).
    rewrite IH; [|exact Hp|exact Hb|exact Hw]. simpl.
    now rewrite <- app_assoc.
Qed.

Lemma samples_need_signal data : samples_of data <> [] -> has_ms data = true.
Proof.
  intros H. unfold has_ms.
  destruct (search ms_pattern data) eqn:E; [reflexivity|].
  now rewrite (no_ms_no_samples data E) in H.
Qed.

(** X1.  The wait for the connection signal loses no sample: with a process
    and the box clear, whatever the flag holds, a chunk leaves the samples
    there were followed by those of its lines; and a chunk that holds a
    sample ends the wait. *)
Theorem waiting_loses_no_sample (data : text) (a : App) :
  latency_process a <> None ->
  latency_raw_output_checkbox a = false ->
  latency_values (handle_latency_output data a)
  = latency_values a ++ samples_of data
  /\ (samples_of data <> [] ->
      latency_waiting_for_connection (handle_latency_output data a) = false).
Proof.
  intros Hp Hb. split.
  - rewrite handle_latency_output_values, Hb.
    now destruct (latency_process a).
  - intros Hs. destruct (latency_waiting_for_connection a) eqn:Hw.
    + now rewrite (handle_latency_output_detects data a Hp Hb Hw
                     (samples_need_signal data Hs)).
    + now rewrite (handle_latency_output_measuring data a Hp Hb Hw).
Qed.

(** X2.  After the signal has been seen, and while the box stays clear, the
    output changes the samples and nothing else, whatever it holds: the timer
    is not armed again, nor is the text shown replaced. *)
Theorem measuring_changes_samples_only (chunks : list text) (a : App) :
  latency_process a <> None ->
  latency_raw_output_checkbox a = false ->
  latency_waiting_for_connection a = false ->
  feed chunks a
  = set_values (latency_values a ++ flat_map samples_of chunks) a
  /\ latency_timer (feed chunks a) = latency_timer a
  /\ latency_results_text (feed chunks a) = latency_results_text a.
Proof.
  intros Hp Hb Hw. rewrite (feed_measuring chunks a Hp Hb Hw). now repeat split.
Qed.

(** X3.  From a state that waits for the signal, the wait ends with the
    first chunk that shows it: if no chunk does, the output has changed
    nothing at all; if one does, the timer has been armed once, single shot,
    for 10 s, with one connection of its signal more than before, the text
    shown says that the connection was detected, and the samples are those
    of the chunks from that one on. *)
Theorem signal_arms_timer_once (chunks : list text) (a : App) :
  latency_process a <> None ->
  latency_raw_output_checkbox a = false ->
  latency_waiting_for_connection a = true ->
  let a' := feed chunks a in
  latency_waiting_for_connection a' = negb (existsb has_ms chunks)
  /\ (existsb has_ms chunks = false -> a' = a)
  /\ (existsb has_ms chunks = true ->
      latency_timer a'
      = {| isActive := true; isSingleShot := true; interval := 10000;
           timeout_slots := S (timeout_slots (latency_timer a)) |}
      /\ latency_results_text a' = str "Connection detected. Running test..."
      /\ latency_values a' = latency_values a ++ flat_map samples_of chunks).
Proof.
  intros Hp Hb Hw. cbv zeta. revert a Hp Hb Hw.
  induction chunks as [|c cs IH]; intros a Hp Hb Hw.
  - simpl. rewrite Hw. repeat split; discriminate.
  - change (feed (c :: cs) a) with (feed cs (handle_latency_output c a)).
    simpl existsb. destruct (has_ms c) eqn:Hc.
    + rewrite (handle_latency_output_detects c a Hp Hb Hw Hc).
      set (a1 := set_values _ _).
      rewrite (feed_measuring cs a1); [|exact Hp|exact Hb|reflexivity].
      simpl. repeat split; try discriminate. now rewrite <- app_assoc.
    + rewrite (handle_latency_output_ignored c a Hb Hw Hc). simpl.
      destruct (IH a Hp Hb Hw) as (H1 & H2 & H3). split; [exact H1|].
      split; [exact H2|]. intros He. destruct (H3 He) as (T & X & V).
      repeat split; try assumption. rewrite V. f_equal.
      assert (S0 : samples_of c = []).
      { destruct (samples_of c) eqn:E; [reflexivity|].
        assert (N : samples_of c <> []) by (rewrite E; discriminate).
        apply samples_need_signal in N. congruence. }
      now rewrite S0.
Qed.
End OutputMore.

Lemma waiting_loses_no_sample_witness :
  latency_values
    (handle_latency_output (py := cpython311) line_1 average_session)
  = latency_values average_session ++ samples_of (py := cpython311) line_1
  /\ latency_waiting_for_connection average_session = true
  /\ latency_waiting_for_connection
       (handle_latency_output (py := cpython311) line_1 average_session)
     = false.
Proof.
  destruct (waiting_loses_no_sample (py := cpython311) line_1 average_session)
    as [Hv Hw]; [discriminate|reflexivity|].
  split; [exact Hv|]. split; [reflexivity|]. apply Hw.
  vm_compute. discriminate.
Defined.

Lemma measuring_changes_samples_only_witness :
  let a := feed (py := cpython311) [line_1] average_session in
  latency_values (feed (py := cpython311) [line_2; line_2] a)
  = [(f64_0, f1_333); (f64_0, f1_5); (f64_0, f1_5)]
  /\ latency_timer (feed (py := cpython311) [line_2; line_2] a)
     = latency_timer a.
Proof.
  cbv zeta.
  destruct (measuring_changes_samples_only (py := cpython311) [line_2; line_2]
              (feed (py := cpython311) [line_1] average_session))
    as (E & T & _);
    [vm_compute; discriminate|vm_compute; reflexivity|vm_compute; reflexivity|].
  split; [|exact T]. rewrite E. vm_compute. reflexivity.
Defined.

Lemma signal_arms_timer_once_witness :
  let chunks := [str "capture 1  playback 1" ++ nl; line_1; line_2] in
  let a' := feed (py := cpython311) chunks average_session in
  existsb (has_ms (py := cpython311)) chunks = true
  /\ timeout_slots (latency_timer a') = 1%nat
  /\ isActive (latency_timer a') = true
  /\ latency_values a' = [(f64_0, f1_333); (f64_0, f1_5)].
Proof.
  cbv zeta.
  assert (He : existsb (has_ms (py := cpython311))
                 [str "capture 1  playback 1" ++ nl; line_1; line_2] = true)
    by (vm_compute; reflexivity).
  destruct (signal_arms_timer_once (py := cpython311)
              [str "capture 1  playback 1" ++ nl; line_1; line_2]
              average_session)
    as (_ & _ & H); [discriminate|reflexivity|reflexivity|].
  destruct (H He) as (T & _ & V).
  split; [exact He|]. rewrite T, V. repeat split; vm_compute; reflexivity.
Defined.

(** ** A line that matches gives a sample *)
Section FloatOfGroups.
Context {py : PyRuntime}.

Lemma match_plus_run k s m :
  In m (match_plus k s) ->
  matched m <> []
  /\ Forall (fun c => in_class k c = true) (matched m)
  /\ groups m = [].
Proof.
  revert m. induction s as [|c s IH]; simpl; intros m H; [easy|].
  destruct (in_class k c) eqn:E; [|easy].
  apply in_app_or in H. destruct H as [H|[H|[]]].
  - apply in_map_iff in H. destruct H as (m' & <- & H').
    destruct (IH _ H') as (_ & F & Gr). simpl.
    repeat split; [discriminate|now constructor|exact Gr].
  - subst m. simpl. repeat split; [discriminate|now repeat constructor].
Qed.

Lemma match_at_group_free r : forall s m,
  group_free r = true -> In m (match_at r s) -> groups m = [].
Proof.
  induction r as [|k|k|r1 IH1 r2 IH2|r IH]; simpl; intros s m F H.
  - destruct H as [<-|[]]. reflexivity.
  - destruct s as [|c s]; [easy|]. destruct (in_class k c); [|easy].
    destruct H as [<-|[]]. reflexivity.
  - now apply match_plus_run in H.
  - apply andb_prop in F. destruct F as [F1 F2].
    apply in_flat_map in H. destruct H as (m1 & H1 & H).
    apply in_map_iff in H. destruct H as (m2 & <- & H2). simpl.
    now rewrite (IH1 _ _ F1 H1), (IH2 _ _ F2 H2).
  - discriminate.
Qed.

Lemma in_match_at_Cat r1 r2 s m :
  In m (match_at (Cat r1 r2) s) ->
  exists m1 m2,
    In m1 (match_at r1 s) /\ In m2 (match_at r2 (rest m1))
    /\ m = then_match m1 m2.
Proof.
  simpl. intros H. apply in_flat_map in H. destruct H as (m1 & H1 & H).
  apply in_map_iff in H. destruct H as (m2 & <- & H2). now exists m1, m2.
Qed.

Lemma in_match_at_Group r s m :
  In m (match_at (Group r) s) ->
  exists m0, In m0 (match_at r s) /\ m = capture m0.
Proof.
  simpl. intros H. apply in_map_iff in H. destruct H as (m0 & <- & H0).
  now exists m0.
Qed.

Lemma in_match_at_Lit c s m :
  In m (match_at (Cls (Lit c)) s) ->
  matched m = [c] /\ groups m = [].
Proof.
  simpl. destruct s as [|x s]; [easy|].
  destruct (N.eqb_spec c x) as [->|_]; [|easy]. intros [<-|[]]. now split.
Qed.

Lemma match_at_decimal_number s m :
  In m (match_at decimal_number s) -> decimal_text (matched m) /\ groups m = [].
Proof.
  unfold decimal_number. cbn [seq_of]. intros H.
  destruct (in_match_at_Cat _ _ _ _ H) as (m1 & m23 & H1 & H23 & ->).
  destruct (in_match_at_Cat _ _ _ _ H23) as (m2 & m3 & H2 & H3 & ->).
  destruct (match_plus_run _ _ _ H1) as (N1 & F1 & G1).
  destruct (match_plus_run _ _ _ H3) as (N3 & F3 & G3).
  destruct (in_match_at_Lit _ _ _ H2) as (M2 & G2).
  simpl. rewrite G1, G2, G3, M2. split; [|reflexivity].
  now exists (matched m1), (matched m3).
Qed.

(** The groups of a match of the pattern of a sample are two decimal
    numbers. *)
Lemma frames_ms_groups s m :
  In m (match_at frames_ms_pattern s) ->
  exists g1 g2, groups m = [g1; g2] /\ decimal_text g1 /\ decimal_text g2.
Proof.
  unfold frames_ms_pattern. cbn [seq_of]. intros H.
  destruct (in_match_at_Cat _ _ _ _ H) as (m1 & ma & H1 & Ha & ->).
  destruct (in_match_at_Cat _ _ _ _ Ha) as (m2 & mb & H2 & Hb & ->).
  destruct (in_match_at_Cat _ _ _ _ Hb) as (m3 & mc & H3 & Hc & ->).
  destruct (in_match_at_Cat _ _ _ _ Hc) as (m4 & md & H4 & Hd & ->).
  destruct (in_match_at_Cat _ _ _ _ Hd) as (m5 & me & H5 & He & ->).
  destruct (in_match_at_Cat _ _ _ _ He) as (m6 & m7 & H6 & H7 & ->).
  destruct (in_match_at_Group _ _ _ H1) as (n1 & H1' & ->).
  destruct (in_match_at_Group _ _ _ H5) as (n5 & H5' & ->).
  destruct (match_at_decimal_number _ _ H1') as (D1 & G1).
  destruct (match_at_decimal_number _ _ H5') as (D5 & G5).
  assert (G2 : groups m2 = [])
    by (eapply match_at_group_free; [|exact H2]; reflexivity).
  assert (G3 : groups m3 = [])
    by (eapply match_at_group_free; [|exact H3]; reflexivity).
  assert (G4 : groups m4 = [])
    by (eapply match_at_group_free; [|exact H4]; reflexivity).
  assert (G6 : groups m6 = [])
    by (eapply match_at_group_free; [|exact H6]; reflexivity).
  assert (G7 : groups m7 = [])
    by (eapply match_at_group_free; [|exact H7]; reflexivity).
  exists (matched n1), (matched n5). simpl.
  rewrite G1, G2, G3, G4, G5, G6, G7. simpl. now repeat split.
Qed.

Lemma split_at_dot_digits d1 d2 :
  py_digit 46%N = None ->
  Forall (fun c => in_class Digit c = true) d1 ->
  split_at_dot (d1 ++ 46%N :: d2) = Some (d1, d2).
Proof.
  intros Hdot. induction 1 as [|c d1 Hc _ IH].
  - cbn [app split_at_dot]. now rewrite N.eqb_refl.
  - cbn [app split_at_dot]. destruct (N.eqb_spec c 46%N) as [->|_].
    + cbn [in_class] in Hc. now rewrite Hdot in Hc.
    + now rewrite IH.
Qed.

Lemma digits_value_digits d : forall acc,
  Forall (fun c => in_class Digit c = true) d ->
  exists n, digits_value acc d = Some n.
Proof.
  induction d as [|c d IH]; intros acc H; cbn [digits_value]; [eauto|].
  inversion H as [|? ? Hc Hd]; subst. cbn [in_class] in Hc.
  destruct (py_digit c); [|discriminate]. now apply IH.
Qed.

Lemma py_float_parts (d1 d2 : text) :
  py_digit 46%N = None ->
  d1 <> [] -> d2 <> [] ->
  Forall (fun c => in_class Digit c = true) d1 ->
  Forall (fun c => in_class Digit c = true) d2 ->
  exists x, py_float (d1 ++ 46%N :: d2) = Some x.
Proof.
  intros Hdot N1 N2 F1 F2. unfold py_float.
  rewrite (split_at_dot_digits d2 Hdot F1).
  destruct d1 as [|a d1]; [easy|]. destruct d2 as [|b d2]; [easy|].
  destruct (@digits_value_digits (a :: d1 ++ b :: d2) 0%N) as (n & E).
  { change (a :: d1 ++ b :: d2) with ((a :: d1) ++ b :: d2).
    apply Forall_app. now split. }
  rewrite E. destruct n; eauto.
Qed.

Lemma py_float_decimal_text t :
  py_digit 46%N = None -> decimal_text t -> exists x, py_float t = Some x.
Proof.
  intros Hdot (d1 & d2 & -> & N1 & N2 & F1 & F2). now apply py_float_parts.
Qed.

(** X4.  The point not being a digit, [float] does not fail on what the
    pattern of a sample has captured: a line in which the pattern is found
    adds one sample, so the handler of [ValueError] is never entered. *)
Theorem matching_line_gives_sample (values : list (float * float))
    (line : text) (m : rmatch) :
  py_digit 46%N = None ->
  search frames_ms_pattern line = Some m ->
  exists latency_frames latency_ms,
    py_float (group m 1) = Some latency_frames
    /\ py_float (group m 2) = Some latency_ms
    /\ parse_line values line = values ++ [(latency_frames, latency_ms)].
Proof.
  intros Hdot E. destruct (search_Some _ _ E) as (pre & suf & _ & Hin).
  destruct (frames_ms_groups _ _ Hin) as (g1 & g2 & G & D1 & D2).
  destruct (py_float_decimal_text Hdot D1) as (x & X).
  destruct (py_float_decimal_text Hdot D2) as (y & Y).
  exists x, y. unfold parse_line, group. rewrite E, G. simpl.
  rewrite X, Y. now repeat split.
Qed.
End FloatOfGroups.

Lemma matching_line_gives_sample_witness :
  exists m,
    search (py := cpython311) frames_ms_pattern line_1 = Some m
    /\ parse_line (py := cpython311) [] line_1 = [(f64_0, f1_333)].
Proof.
  destruct (search (py := cpython311) frames_ms_pattern line_1) as [m|] eqn:E;
    [|vm_compute in E; discriminate].
  exists m. split; [reflexivity|].
  destruct (matching_line_gives_sample (py := cpython311) [] line_1
              eq_refl E) as (x & y & _ & _ & P).
  vm_compute. reflexivity.
Defined.

(** ** The end of the process *)
Section ExitFacts.
Context {py : PyRuntime}.

Lemma append_fields t a :
  same_controller a (append t a) /\ effects (append t a) = effects a.
Proof. split; [apply same_controller_append|apply append_effects]. Qed.

(** The report depends on the box, on the samples and on how the process
    ended, and on nothing else. *)
Lemma handle_latency_finished_text c s a b :
  latency_raw_output_checkbox b = latency_raw_output_checkbox a ->
  latency_values b = latency_values a ->
  latency_results_text (handle_latency_finished c s b)
  = latency_results_text (handle_latency_finished c s a).
Proof.
  intros Hb Hv. unfold handle_latency_finished. simpl. rewrite Hb, Hv.
  destruct (latency_raw_output_checkbox a); [reflexivity|].
  destruct (latency_values a); [|reflexivity].
  destruct (is_NormalExit s && Z.eqb c 0); [reflexivity|].
  destruct (is_CrashExit s); [reflexivity|].
  destruct (negb (Z.eqb c 0)); reflexivity.
Qed.

Lemma handle_latency_finished_fields c s a :
  let a' := handle_latency_finished c s a in
  latency_process a' = None
  /\ latency_run_button a' = true
  /\ latency_stop_button a' = false
  /\ latency_waiting_for_connection a' = false
  /\ latency_values a' = latency_values a
  /\ latency_raw_output_checkbox a' = latency_raw_output_checkbox a
  /\ latency_timer a' = latency_timer a
  /\ effects a' = effects a
  /\ callbacks_enabled a' = callbacks_enabled a
  /\ latency_selected_input_alias a' = latency_selected_input_alias a
  /\ latency_selected_output_alias a' = latency_selected_output_alias a.
Proof.
  cbv zeta. unfold handle_latency_finished. simpl.
  destruct (latency_raw_output_checkbox a) eqn:B; simpl; [now repeat split|].
  destruct (latency_values a) eqn:V; simpl; [|now repeat split].
  destruct (is_NormalExit s && Z.eqb c 0); simpl; [now repeat split|].
  destruct (is_CrashExit s); simpl; [now repeat split|].
  destruct (negb (Z.eqb c 0)); simpl; now repeat split.
Qed.

(** The handler of an error, entered when no process runs. *)
Lemma handle_latency_error_in_fields r e a :
  process_running a = false ->
  let a' := handle_latency_error_in r e a in
  latency_process a' = None
  /\ latency_run_button a' = true
  /\ latency_stop_button a' = false
  /\ latency_waiting_for_connection a' = false
  /\ latency_values a' = latency_values a
  /\ latency_raw_output_checkbox a' = latency_raw_output_checkbox a
  /\ isActive (latency_timer a') = false
  /\ effects a' = effects a
  /\ callbacks_enabled a' = callbacks_enabled a
  /\ latency_selected_input_alias a' = latency_selected_input_alias a
  /\ latency_selected_output_alias a' = latency_selected_output_alias a.
Proof.
  intros R. cbv zeta. unfold handle_latency_error_in, process_running in *.
  set (a1 := append _ a).
  destruct (append_fields
              (nl ++ str "Error running jack_delay: " ++ show_ProcessError e
               ++ str " - "
               ++ match latency_process a with
                  | Some p => proc_errorString p
                  | None => str "Unknown error"
                  end) a) as [S1 E1].
  fold a1 in S1, E1.
  destruct S1 as (C1 & P1 & V1 & T1 & W1 & I1 & O1 & Rn1 & St1 & B1).
  set (a2 := if isActive (latency_timer a1) then _ else a1).
  assert (F2 : latency_process a2 = latency_process a
               /\ latency_values a2 = latency_values a
               /\ latency_raw_output_checkbox a2 = latency_raw_output_checkbox a
               /\ isActive (latency_timer a2) = false
               /\ effects a2 = effects a
               /\ callbacks_enabled a2 = callbacks_enabled a
               /\ latency_selected_input_alias a2 = latency_selected_input_alias a
               /\ latency_selected_output_alias a2
                  = latency_selected_output_alias a).
  { unfold a2. destruct (isActive (latency_timer a1)) eqn:A; simpl;
      rewrite ?A; now repeat split. }
  destruct F2 as (P2 & V2 & B2 & T2 & E2 & C2 & I2 & O2). rewrite P2.
  destruct (latency_process a) as [p|]; simpl.
  - rewrite R. simpl. now repeat split.
  - now repeat split.
Qed.

Lemma process_exited_fields c s a :
  let a' := process_exited (c, s) a in
  latency_results_text a'
  = latency_results_text (handle_latency_finished c s a)
  /\ latency_process a' = None
  /\ latency_run_button a' = true
  /\ latency_stop_button a' = false
  /\ latency_waiting_for_connection a' = false
  /\ latency_values a' = latency_values a
  /\ latency_raw_output_checkbox a' = latency_raw_output_checkbox a
  /\ effects a' = effects a
  /\ callbacks_enabled a' = callbacks_enabled a
  /\ latency_selected_input_alias a' = latency_selected_input_alias a
  /\ latency_selected_output_alias a' = latency_selected_output_alias a.
Proof.
  cbv zeta. unfold process_exited.
  set (a1 := match latency_process a with
             | Some p => set_process (Some (with_state NotRunning p)) a
             | None => a
             end).
  assert (F1 : process_running a1 = false
               /\ latency_values a1 = latency_values a
               /\ latency_raw_output_checkbox a1 = latency_raw_output_checkbox a
               /\ effects a1 = effects a
               /\ callbacks_enabled a1 = callbacks_enabled a
               /\ latency_selected_input_alias a1 = latency_selected_input_alias a
               /\ latency_selected_output_alias a1
                  = latency_selected_output_alias a).
  { unfold a1, process_running. destruct (latency_process a) eqn:P; simpl;
      rewrite ?P; now repeat split. }
  destruct F1 as (R1 & V1 & B1 & E1 & C1 & I1 & O1).
  destruct s.
  - destruct (handle_latency_finished_fields c NormalExit a1)
      as (P & Rn & St & W & V & B & _ & E & C & I & O).
    rewrite (handle_latency_finished_text c NormalExit a a1 B1 V1).
    repeat split; congruence.
  - set (a2 := match latency_process a1 with
               | Some p => set_process
                             (Some (with_errorString (str "Process crashed") p)) a1
               | None => a1
               end).
    assert (F2 : process_running a2 = false
                 /\ latency_values a2 = latency_values a
                 /\ latency_raw_output_checkbox a2 = latency_raw_output_checkbox a
                 /\ effects a2 = effects a
                 /\ callbacks_enabled a2 = callbacks_enabled a
                 /\ latency_selected_input_alias a2
                    = latency_selected_input_alias a
                 /\ latency_selected_output_alias a2
                    = latency_selected_output_alias a).
    { unfold a2. unfold process_running in *.
      destruct (latency_process a1) eqn:P; simpl; rewrite ?P;
        repeat split; try assumption. }
    destruct F2 as (R2 & V2 & B2 & E2 & C2 & I2 & O2).
    destruct (handle_latency_error_in_fields (fun _ b => b) Crashed a2 R2)
      as (_ & _ & _ & _ & V3 & B3 & _ & E3 & C3 & I3 & O3).
    set (a3 := handle_latency_error_in _ Crashed a2) in *.
    destruct (handle_latency_finished_fields c CrashExit a3)
      as (P & Rn & St & W & V & B & _ & E & C & I & O).
    rewrite (handle_latency_finished_text c CrashExit a a3);
      [|congruence|congruence].
    repeat split; congruence.
Qed.
End ExitFacts.

Section FinishMore.
Context {py : PyRuntime}.

(** X5.  Whatever the mode, the samples and the way the process ended, the
    report of [handle_latency_finished] is one of four: that the measurement
    was stopped, the averages, that no valid reading was obtained, or that
    the test failed with the exit code; the last branch of the method, with
    its "Test finished without valid readings.", is never taken.  The
    controller is left ready to start again, with its samples and its timer
    as they were. *)
Theorem finished_report_is_one_of_four (exit_code : Z)
    (exit_status : ExitStatus) (a : App) :
  let a' := handle_latency_finished exit_code exit_status a in
  (latency_results_text a' = str "Measurement stopped."
   \/ (exists average_frames average_ms,
         latency_results_text a' = msg_average average_frames average_ms)
   \/ latency_results_text a'
      = str "No valid latency readings obtained. Check connections."
   \/ latency_results_text a' = msg_failed exit_code)
  /\ latency_results_text a' <> str "Test finished without valid readings."
  /\ latency_process a' = None
  /\ latency_run_button a' = true
  /\ latency_stop_button a' = false
  /\ latency_waiting_for_connection a' = false
  /\ latency_values a' = latency_values a
  /\ latency_timer a' = latency_timer a.
Proof.
  cbv zeta.
  destruct (handle_latency_finished_fields exit_code exit_status a)
    as (P & Rn & St & W & V & _ & T & _).
  assert (Hfailed : msg_failed exit_code
                    <> str "Test finished without valid readings.").
  { unfold msg_failed. simpl. intros E. discriminate E. }
  assert (Havg : forall x y,
             msg_average x y <> str "Test finished without valid readings.").
  { intros x y E. destruct (msg_average_head x y) as (t & E').
    rewrite E' in E. discriminate E. }
  split; [|split; [|now repeat split]];
    unfold handle_latency_finished; simpl;
    destruct (latency_raw_output_checkbox a); simpl.
  - now left.
  - destruct (latency_values a); simpl.
    + destruct exit_status; simpl.
      * destruct (Z.eqb exit_code 0); simpl; auto.
      * now left.
    + right. left. eauto.
  - discriminate.
  - destruct (latency_values a); simpl.
    + destruct exit_status; simpl.
      * destruct (Z.eqb exit_code 0); simpl; [discriminate|exact Hfailed].
      * discriminate.
    + apply Havg.
Qed.

Lemma stop_latency_test_running a p :
  latency_process a = Some p ->
  proc_state p <> NotRunning ->
  let a0 := if isActive (latency_timer a)
            then set_timer (timer_stop (latency_timer a)) a else a in
  let a2 := emit ProcessTerminate (append (nl ++ str "Stopping test...") a0) in
  stop_latency_test a
  = Some (set_waiting false
            match proc_on_terminate p with
            | Some x => process_exited x a2
            | None =>
                match proc_on_kill p with
                | Some x => process_exited x (emit ProcessKill a2)
                | None => emit ProcessKill a2
                end
            end).
Proof.
  intros P S. cbv zeta. unfold stop_latency_test.
  set (a0 := if isActive (latency_timer a) then _ else a).
  assert (P0 : latency_process a0 = Some p).
  { unfold a0. now destruct (isActive (latency_timer a)). }
  assert (R0 : process_running a0 = true).
  { unfold process_running. rewrite P0. now destruct (proc_state p). }
  rewrite R0. set (a1 := append (nl ++ str "Stopping test...") a0).
  assert (P1 : latency_process a1 = Some p).
  { unfold a1, append. now destruct (latency_results_text a0). }
  unfold on_process. rewrite P1.
  change (latency_process (emit ProcessTerminate a1))
    with (latency_process a1). rewrite P1.
  destruct (proc_on_terminate p); [reflexivity|].
  change (latency_process (emit ProcessKill (emit ProcessTerminate a1)))
    with (latency_process a1). rewrite P1.
  now destruct (proc_on_kill p).
Qed.

Lemma set_waiting_fields w b :
  latency_results_text (set_waiting w b) = latency_results_text b
  /\ latency_process (set_waiting w b) = latency_process b
  /\ latency_run_button (set_waiting w b) = latency_run_button b
  /\ latency_stop_button (set_waiting w b) = latency_stop_button b
  /\ latency_values (set_waiting w b) = latency_values b
  /\ effects (set_waiting w b) = effects b.
Proof. now repeat split. Qed.

(** X6.  Stopping a process that runs and whose child ends, on the signal
    of [terminate()] or else when killed: the report is the one
    [handle_latency_finished] gives for the way the child ended, so the
    averages when there are samples and the box is clear; the controller is
    left ready to start again, the samples kept; and the child has been told
    to terminate once, and killed only if that did not end it. *)
Theorem stop_shows_report (a : App) (p : QProcess) (x : exit_info) :
  latency_process a = Some p ->
  proc_state p <> NotRunning ->
  exit_on_stop p = Some x ->
  exists a1,
    stop_latency_test a = Some a1
    /\ latency_results_text a1
       = latency_results_text (handle_latency_finished (fst x) (snd x) a)
    /\ latency_process a1 = None
    /\ latency_run_button a1 = true
    /\ latency_stop_button a1 = false
    /\ latency_values a1 = latency_values a
    /\ issued a a1
       = ProcessTerminate
         :: match proc_on_terminate p with
            | Some _ => []
            | None => [ProcessKill]
            end.
Proof.
  intros P S X. rewrite (stop_latency_test_running a P S).
  set (a0 := if isActive (latency_timer a) then _ else a).
  assert (F0 : latency_values a0 = latency_values a
               /\ latency_raw_output_checkbox a0 = latency_raw_output_checkbox a
               /\ effects a0 = effects a).
  { unfold a0. now destruct (isActive (latency_timer a)). }
  destruct F0 as (V0 & B0 & E0).
  set (a1 := append (nl ++ str "Stopping test...") a0).
  assert (F1 : latency_values a1 = latency_values a
               /\ latency_raw_output_checkbox a1 = latency_raw_output_checkbox a
               /\ effects a1 = effects a).
  { unfold a1, append. now destruct (latency_results_text a0). }
  destruct F1 as (V1 & B1 & E1). clearbody a1. clear a0 V0 B0 E0.
  destruct x as [c s]. unfold exit_on_stop in X.
  set (kills := match proc_on_terminate p with
                | Some _ => []
                | None => [ProcessKill]
                end).
  set (b := match proc_on_terminate p with
            | Some x => process_exited x (emit ProcessTerminate a1)
            | None => _
            end).
  assert (Fb : exists a2,
             b = process_exited (c, s) a2
             /\ latency_values a2 = latency_values a
             /\ latency_raw_output_checkbox a2 = latency_raw_output_checkbox a
             /\ effects a2 = effects a ++ ProcessTerminate :: kills).
  { unfold b, kills. destruct (proc_on_terminate p) as [x'|].
    - injection X as ->. exists (emit ProcessTerminate a1).
      repeat split; try assumption. cbn [emit effects]. now rewrite E1.
    - rewrite X. exists (emit ProcessKill (emit ProcessTerminate a1)).
      repeat split; try assumption. cbn [emit effects]. rewrite E1.
      now rewrite <- app_assoc. }
  clearbody b. destruct Fb as (a2 & -> & V2 & B2 & E2).
  destruct (process_exited_fields c s a2)
    as (T & P' & Rn & St & _ & V & _ & E & _).
  exists (set_waiting false (process_exited (c, s) a2)).
  split; [reflexivity|].
  destruct (set_waiting_fields false (process_exited (c, s) a2))
    as (W1 & W2 & W3 & W4 & W5 & W6).
  rewrite W1, W2, W3, W4, W5, T, P', Rn, St, V.
  rewrite (handle_latency_finished_text c s a a2 B2 V2).
  cbn [fst snd]. repeat split; try assumption.
  apply issued_app. now rewrite W6, E.
Qed.

Lemma stop_times_idle n : forall a,
  isActive (latency_timer a) = false ->
  process_running a = false ->
  stop_times n a = Some a.
Proof.
  induction n as [|n IH]; intros a T R; simpl; [reflexivity|].
  rewrite (stop_latency_test_idle a T R). now apply IH.
Qed.

(** X7.  The signal of the timer is connected to [stop_latency_test] once
    more each time a connection is detected, so that after several
    measurements a time-out calls it several times; when the child ends on
    the first call, the time-out does what one call of [stop_latency_test]
    does. *)
Theorem timeout_is_one_stop (a : App) :
  isActive (latency_timer a) = true ->
  isSingleShot (latency_timer a) = true ->
  (1 <= timeout_slots (latency_timer a))%nat ->
  child_ends a = true ->
  latency_timer_timeout a = stop_latency_test a.
Proof.
  intros A S N C. unfold latency_timer_timeout. rewrite A, S.
  set (a0 := set_timer (timer_stop (latency_timer a)) a).
  assert (E : stop_latency_test a0 = stop_latency_test a).
  { unfold stop_latency_test. rewrite A. reflexivity. }
  destruct (timeout_slots (latency_timer a)) as [|n]; [lia|]. simpl.
  rewrite E.
  destruct (stop_latency_test_result a C) as (a1 & E1 & T1 & R1).
  rewrite E1. now apply stop_times_idle.
Qed.
End FinishMore.

Lemma stop_shows_report_witness :
  let a := feed (py := cpython311) [line_1; line_2] average_session in
  exists a1,
    stop_latency_test (py := cpython311) a = Some a1
    /\ latency_results_text a1
       = str "Round-trip latency (average): 64.000 frames / 1.417 ms"
    /\ issued a a1 = [ProcessTerminate].
Proof.
  cbv zeta.
  destruct (stop_shows_report (py := cpython311)
              (feed (py := cpython311) [line_1; line_2] average_session)
              (p := started_QProcess demo_host (str "/usr/bin/jack_delay") [])
              (x := (15%Z, CrashExit)))
    as (a1 & E & T & _ & _ & _ & _ & I);
    [vm_compute; reflexivity|discriminate|reflexivity|].
  exists a1. split; [exact E|]. split; [|exact I].
  rewrite T. vm_compute. reflexivity.
Defined.

Lemma timeout_is_one_stop_witness :
  let a := feed (py := cpython311) [line_1; line_2] average_session in
  latency_timer_timeout (py := cpython311) a
  = stop_latency_test (py := cpython311) a.
Proof.
  cbv zeta.
  apply (timeout_is_one_stop (py := cpython311)
           (feed (py := cpython311) [line_1; line_2] average_session)).
  - vm_compute. reflexivity.
  - vm_compute. reflexivity.
  - assert (E : timeout_slots (latency_timer
                  (feed (py := cpython311) [line_1; line_2] average_session))
                = 1%nat) by (vm_compute; reflexivity).
    rewrite E. lia.
  - vm_compute. reflexivity.
Defined.

(** ** Starting again, and starting with a graph that fails *)
Section StartMore.
Context {G : Type} {jack : JackClient G}.


(** X8.  Starting while the process started before still runs starts
    nothing: the second call only adds "Test already in progress." to the
    text shown, and leaves the process object, the samples and the rest as
    the first call left them. *)
Theorem start_twice_starts_once (h : Host) (g g' : G) (a : App)
    (program : text) :
  process_running a = false ->
  resolved_program h = Some program ->
  let a1 := run_latency_test h g a in
  run_latency_test h g' a1 = append (str "Test already in progress.") a1
  /\ issued a1 (run_latency_test h g' a1) = []
  /\ latency_process (run_latency_test h g' a1)
     = Some (started_QProcess h program []).
Proof.
  intros R H. cbv zeta.
  destruct (run_latency_test_started h g a R H) as (P & _).
  set (a1 := run_latency_test h g a) in *. clearbody a1.
  assert (R1 : process_running a1 = true)
    by (unfold process_running; now rewrite P).
  unfold run_latency_test at 1 2 3. rewrite R1. split; [reflexivity|].
  split.
  - apply issued_app. now rewrite append_effects, app_nil_r.
  - destruct (same_controller_append msg_already_running a1) as (_ & P' & _).
    now rewrite P'.
Qed.

End StartMore.

Lemma start_twice_starts_once_witness :
  run_latency_test demo_host failing_ports_graph average_session
  = append (str "Test already in progress.") average_session
  /\ latency_process
       (run_latency_test demo_host failing_ports_graph average_session)
     = Some (started_QProcess demo_host (str "/usr/bin/jack_delay") []).
Proof.
  destruct (start_twice_starts_once demo_host demo_graph failing_ports_graph
              init (program := str "/usr/bin/jack_delay") eq_refl eq_refl)
    as (E & _ & P).
  split; [exact E|exact P].
Defined.

(** ** An error of the process *)
Section ErrorMore.
Context {py : PyRuntime}.

(** The text of the error as the handler adds it. *)
Lemma handle_latency_error_shape e a :
  let msg :=
    nl ++ str "Error running jack_delay: " ++ show_ProcessError e
    ++ str " - "
    ++ match latency_process a with
       | Some p => proc_errorString p
       | None => str "Unknown error"
       end in
  exists a2,
    latency_results_text a2 = latency_results_text (append msg a)
    /\ latency_process a2 = latency_process a
    /\ latency_values a2 = latency_values a
    /\ latency_raw_output_checkbox a2 = latency_raw_output_checkbox a
    /\ effects a2 = effects a
    /\ isActive (latency_timer a2) = false
    /\ handle_latency_error e a
       = set_stop_enabled false
           (set_run_enabled true
              (set_waiting false
                 match latency_process a with
                 | Some p =>
                     set_process None
                       (if negb (is_NotRunning (proc_state p))
                        then match proc_on_kill p with
                             | Some x => process_exited x (emit ProcessKill a2)
                             | None => emit ProcessKill a2
                             end
                        else a2)
                 | None => a2
                 end)).
Proof.
  cbv zeta. unfold handle_latency_error, handle_latency_error_in.
  set (a1 := append _ a).
  assert (F1 : latency_process a1 = latency_process a
               /\ latency_values a1 = latency_values a
               /\ latency_raw_output_checkbox a1 = latency_raw_output_checkbox a
               /\ effects a1 = effects a).
  { unfold a1, append. now destruct (latency_results_text a). }
  destruct F1 as (P1 & V1 & B1 & E1).
  set (a2 := if isActive (latency_timer a1) then _ else a1).
  assert (F2 : latency_process a2 = latency_process a
               /\ latency_results_text a2 = latency_results_text a1
               /\ latency_values a2 = latency_values a
               /\ latency_raw_output_checkbox a2 = latency_raw_output_checkbox a
               /\ effects a2 = effects a
               /\ isActive (latency_timer a2) = false).
  { unfold a2. destruct (isActive (latency_timer a1)) eqn:A; simpl;
      rewrite ?A; now repeat split. }
  destruct F2 as (P2 & X2 & V2 & B2 & E2 & T2).
  exists a2. split; [exact X2|]. split; [exact P2|].
  repeat split; try assumption. rewrite P2.
  destruct (latency_process a) as [p|]; [|reflexivity].
  destruct (negb (is_NotRunning (proc_state p))); [|reflexivity].
  now destruct (proc_on_kill p).
Qed.

Lemma set_buttons_fields r s w b :
  let b' := set_stop_enabled s (set_run_enabled r (set_waiting w b)) in
  latency_results_text b' = latency_results_text b
  /\ latency_process b' = latency_process b
  /\ latency_run_button b' = r
  /\ latency_stop_button b' = s
  /\ latency_waiting_for_connection b' = w
  /\ latency_values b' = latency_values b
  /\ latency_raw_output_checkbox b' = latency_raw_output_checkbox b
  /\ latency_timer b' = latency_timer b
  /\ effects b' = effects b.
Proof. now repeat split. Qed.

Lemma set_process_fields q b :
  latency_results_text (set_process q b) = latency_results_text b
  /\ latency_process (set_process q b) = q
  /\ latency_values (set_process q b) = latency_values b
  /\ latency_raw_output_checkbox (set_process q b)
     = latency_raw_output_checkbox b
  /\ latency_timer (set_process q b) = latency_timer b
  /\ effects (set_process q b) = effects b.
Proof. now repeat split. Qed.

Lemma emit_fields e b :
  latency_results_text (emit e b) = latency_results_text b
  /\ latency_values (emit e b) = latency_values b
  /\ latency_raw_output_checkbox (emit e b) = latency_raw_output_checkbox b
  /\ latency_timer (emit e b) = latency_timer b
  /\ effects (emit e b) = effects b ++ [e].
Proof. now repeat split. Qed.

(** X10.  After an error of the process the controller is ready to start
    again, whatever state it was in: no process object is left, the run
    button is enabled and the stop button disabled, the timer is not active,
    and the samples are kept.  A process that runs is killed, once, without
    being told to terminate first; one that does not is not. *)
Theorem error_leaves_ready (error : ProcessError) (a : App) :
  let a' := handle_latency_error error a in
  latency_process a' = None
  /\ latency_run_button a' = true
  /\ latency_stop_button a' = false
  /\ latency_waiting_for_connection a' = false
  /\ isActive (latency_timer a') = false
  /\ latency_values a' = latency_values a
  /\ issued a a' = if process_running a then [ProcessKill] else [].
Proof.
  cbv zeta. destruct (handle_latency_error_shape error a)
    as (a2 & X2 & P2 & V2 & B2 & E2 & T2 & ->).
  set (b := match latency_process a with Some p => _ | None => a2 end).
  destruct (set_buttons_fields true false false b)
    as (_ & P & Rn & St & W & V & _ & T & E).
  rewrite P, Rn, St, W, V, T.
  assert (Fb : latency_process b = None
               /\ isActive (latency_timer b) = false
               /\ latency_values b = latency_values a
               /\ effects b
                  = effects a ++ if process_running a then [ProcessKill] else []).
  { unfold b, process_running. rewrite <- P2.
    destruct (latency_process a2) as [p|] eqn:Pa.
    - set (c := if negb (is_NotRunning (proc_state p)) then _ else a2).
      destruct (set_process_fields None c) as (_ & Pc & Vc & _ & Tc & Ec).
      rewrite Pc, Vc, Tc, Ec.
      assert (Fc : isActive (latency_timer c) = false
                   /\ latency_values c = latency_values a
                   /\ effects c
                      = effects a
                        ++ if negb (is_NotRunning (proc_state p))
                           then [ProcessKill] else []).
      { unfold c. destruct (negb (is_NotRunning (proc_state p))).
        - destruct (emit_fields ProcessKill a2) as (_ & Ve & _ & Te & Ee).
          destruct (proc_on_kill p) as [[ec es]|].
          + destruct (process_exited_fields ec es (emit ProcessKill a2))
              as (_ & _ & _ & _ & _ & Vx & _ & Ex & _).
            rewrite Vx, Ex, Ve, Ee, V2, E2.
            repeat split. apply process_exited_timer. now rewrite Te.
          + rewrite Ve, Ee, Te, V2, E2. now repeat split.
        - rewrite V2, E2, app_nil_r. now repeat split. }
      destruct Fc as (Tc' & Vc' & Ec').
      split; [reflexivity|]. split; [exact Tc'|]. split; [exact Vc'|exact Ec'].
    - rewrite V2, E2, app_nil_r. now repeat split. }
  destruct Fb as (Pb & Tb & Vb & Eb).
  repeat split; try assumption. apply issued_app. now rewrite E.
Qed.

End ErrorMore.


(** ** More on the automatic connection *)
Section AttemptMore.
Context {G : Type} {jack : JackClient G}.

(** X12.  [make_connection] asks the graph for the connections of the
    source first, and asks for the connection exactly when they do not show
    it, because it is not there or because they could not be read; it asks
    once, and the graph changes only if the server makes the connection. *)
Theorem make_connection_connects_what_is_missing (o i : text) (g : G) :
  let g' := fst (make_connection o i g) in
  let l := snd (make_connection o i g) in
  hd_error l = Some (CallGetAllConnections o)
  /\ (connected g o i -> g' = g /\ filter is_connect_call l = [])
  /\ (~ connected g o i ->
      exists ok,
        filter is_connect_call l = [CallConnect o i ok]
        /\ (ok = true -> connect g o i = Ok g')
        /\ (ok = false -> g' = g /\ exists e, connect g o i = JackError e)).
Proof.
  cbv zeta. split; [|split].
  - unfold make_connection.
    destruct (get_all_connections g o) as [l|e];
      [destruct (existsb (text_eqb i) l)|]; reflexivity.
  - intros C. now rewrite (make_connection_skip C).
  - intros N. unfold make_connection, connected in *.
    destruct (get_all_connections g o) as [l|e] eqn:Q.
    + destruct (existsb (text_eqb i) l) eqn:E; [exfalso; eauto|].
      destruct (connect g o i) as [g1|e1] eqn:C; simpl.
      * exists true. repeat split; congruence.
      * exists false. repeat split; try congruence. eauto.
    + destruct (connect g o i) as [g1|e1] eqn:C; simpl.
      * exists true. repeat split; congruence.
      * exists false. repeat split; try congruence. eauto.
Qed.

Lemma make_connection_one_connect o i (g : G) :
  one_connect g (fst (make_connection o i g)).
Proof.
  unfold make_connection, one_connect.
  destruct (get_all_connections g o) as [l|e];
    [destruct (existsb (text_eqb i) l)|];
    destruct (connect g o i) eqn:C; simpl; eauto.
Qed.

Lemma connect_tool_output_one_connect out ports (g : G) :
  one_connect g (fst (connect_tool_output out ports g)).
Proof.
  unfold connect_tool_output. destruct (existsb (text_eqb out) ports).
  - apply make_connection_one_connect.
  - now left.
Qed.

Lemma connect_tool_input_one_connect inp ports (g : G) :
  one_connect g (fst (connect_tool_input inp ports g)).
Proof.
  unfold connect_tool_input. destruct (existsb (text_eqb inp) ports).
  - apply make_connection_one_connect.
  - now left.
Qed.

(** An attempt leaves the ports of the graph as they are. *)
Lemma _attempt_latency_auto_connection_ports {laws : JackLaws G} (g : G) a q :
  get_ports (fst (_attempt_latency_auto_connection (g, a))) q = get_ports g q.
Proof.
  destruct (ports_selected a) eqn:Sel.
  2:{ unfold _attempt_latency_auto_connection. unfold ports_selected in Sel.
      now rewrite Sel. }
  destruct (_attempt_latency_auto_connection_inv g a Sel)
    as [(err & _ & ->)|(ports & _ & [(err & _ & ->)|(ports' & _ & ->)])];
    cbn [fst]; [reflexivity| |].
  - apply one_connect_ports, connect_tool_output_one_connect.
  - rewrite (one_connect_ports q (connect_tool_input_one_connect _ _ _)).
    apply one_connect_ports, connect_tool_output_one_connect.
Qed.

(** X13.  For a graph in which a connection made is there afterwards, leaves
    the others there and leaves the ports as they are: when both ports are
    selected and found in the lists of ports read for them, and no
    connection asked for failed, the attempt leaves both edges in the graph,
    from "jack_delay:out" to the playback port and from the capture port to
    "jack_delay:in". *)
Theorem attempt_leaves_both_edges {laws : JackLaws G} (g : G) (a : App)
    (ports ports' : list text) :
  let out := alias_text (latency_selected_output_alias a) in
  let inp := alias_text (latency_selected_input_alias a) in
  let r := _attempt_latency_auto_connection (g, a) in
  ports_selected a = true ->
  get_ports g audio_inputs = Ok ports ->
  existsb (text_eqb out) ports = true ->
  get_ports g audio_outputs = Ok ports' ->
  existsb (text_eqb inp) ports' = true ->
  existsb connect_failed (issued a (snd r)) = false ->
  connected (fst r) jack_delay_out out /\ connected (fst r) inp jack_delay_in.
Proof.
  cbv zeta. intros Sel P1 H1 P2 H2 F.
  pose proof (_attempt_latency_auto_connection_settles g a Sel F) as S.
  unfold settled in S.
  destruct (S ports) as [S1 S2].
  { now rewrite _attempt_latency_auto_connection_ports. }
  split; [now apply S1|]. apply (S2 ports'); [|exact H2].
  now rewrite _attempt_latency_auto_connection_ports.
Qed.

(** X14.  Selecting an item of a combo box stores its data in the attribute
    of that side, leaves the other side as it is, and attempts the
    connection at once with what is then selected: selecting the placeholder,
    whose data is [None], or selecting while the other side is not selected,
    calls nothing; and a connection asked for is one of the two edges of the
    ports now selected. *)
Theorem selection_attempts_at_once (itemData : option text) (g : G) (a : App) :
  let r_in := _on_latency_input_selected itemData (g, a) in
  let r_out := _on_latency_output_selected itemData (g, a) in
  (latency_selected_input_alias (snd r_in) = itemData
   /\ latency_selected_output_alias (snd r_in)
      = latency_selected_output_alias a)
  /\ (latency_selected_output_alias (snd r_out) = itemData
      /\ latency_selected_input_alias (snd r_out)
         = latency_selected_input_alias a)
  /\ (truthy itemData = false ->
      r_in = (g, set_input_alias itemData a)
      /\ r_out = (g, set_output_alias itemData a))
  /\ (truthy (latency_selected_output_alias a) = false ->
      r_in = (g, set_input_alias itemData a))
  /\ (truthy (latency_selected_input_alias a) = false ->
      r_out = (g, set_output_alias itemData a))
  /\ (forall source destination ok,
        In (CallConnect source destination ok) (issued a (snd r_in)) ->
        (source = jack_delay_out
         /\ latency_selected_output_alias a = Some destination)
        \/ (itemData = Some source /\ destination = jack_delay_in))
  /\ (forall source destination ok,
        In (CallConnect source destination ok) (issued a (snd r_out)) ->
        (source = jack_delay_out /\ itemData = Some destination)
        \/ (latency_selected_input_alias a = Some source
            /\ destination = jack_delay_in)).
Proof.
  cbv zeta. unfold _on_latency_input_selected, _on_latency_output_selected.
  cbn [fst snd].
  assert (Calls : forall b source destination ok,
    In (CallConnect source destination ok)
       (issued b (snd (_attempt_latency_auto_connection (g, b)))) ->
    (source = jack_delay_out
     /\ latency_selected_output_alias b = Some destination)
    \/ (latency_selected_input_alias b = Some source
        /\ destination = jack_delay_in)).
  { intros b s d ok H.
    assert (Sel : ports_selected b = true).
    { unfold ports_selected. unfold _attempt_latency_auto_connection in H.
      destruct (truthy (latency_selected_input_alias b)
                && truthy (latency_selected_output_alias b)); [easy|].
      unfold issued in H. simpl in H. now rewrite skipn_all in H. }
    apply andb_prop in Sel. destruct Sel as [Si So].
    destruct (truthy_Some _ Si) as (ci & ti & Ei).
    destruct (truthy_Some _ So) as (co & to & Eo).
    destruct (_attempt_latency_auto_connection_calls _ _ _ H eq_refl)
      as (ok' & [E|E]); injection E as -> -> _; rewrite ?Ei, ?Eo; simpl; auto. }
  assert (Noop : forall b, ports_selected b = false ->
                           _attempt_latency_auto_connection (g, b) = (g, b)).
  { intros b Sel. unfold _attempt_latency_auto_connection.
    unfold ports_selected in Sel. now rewrite Sel. }
  pose proof (_attempt_latency_auto_connection_same g (set_input_alias itemData a))
    as (_ & _ & _ & _ & _ & Ii & Io & _).
  pose proof (_attempt_latency_auto_connection_same g (set_output_alias itemData a))
    as (_ & _ & _ & _ & _ & Oi & Oo & _).
  split; [now split|]. split; [now split|]. split; [|split; [|split; [|split]]].
  - intros T. split; apply Noop; unfold ports_selected; cbn; rewrite T;
      [reflexivity|apply andb_false_r].
  - intros T. apply Noop. unfold ports_selected. cbn. rewrite T.
    apply andb_false_r.
  - intros T. apply Noop. unfold ports_selected. cbn. now rewrite T.
  - intros s d ok H. exact (Calls (set_input_alias itemData a) s d ok H).
  - intros s d ok H. exact (Calls (set_output_alias itemData a) s d ok H).
Qed.
End AttemptMore.

Lemma attempt_leaves_both_edges_witness :
  let r := _attempt_latency_auto_connection (demo_graph, ports_chosen) in
  connected (fst r) jack_delay_out system_playback_1
  /\ connected (fst r) system_capture_1 jack_delay_in.
Proof.
  apply (attempt_leaves_both_edges (laws := scripted_laws) demo_graph
           ports_chosen (ports := [system_playback_1; jack_delay_in])
           (ports' := [system_capture_1; jack_delay_out]));
    vm_compute; reflexivity.
Defined.

Lemma make_connection_connects_what_is_missing_witness :
  ~ connected demo_graph jack_delay_out system_playback_1
  /\ exists ok,
       filter is_connect_call
         (snd (make_connection jack_delay_out system_playback_1 demo_graph))
       = [CallConnect jack_delay_out system_playback_1 ok].
Proof.
  assert (N : ~ connected demo_graph jack_delay_out system_playback_1).
  { intros (l & E & H). vm_compute in E. injection E as <-. discriminate H. }
  split; [exact N|].
  destruct (make_connection_connects_what_is_missing jack_delay_out
              system_playback_1 demo_graph) as (_ & _ & H).
  destruct (H N) as (ok & F & _). now exists ok.
Defined.

Lemma selection_attempts_at_once_witness :
  let a := set_input_alias (Some system_capture_1) init in
  filter is_connect_call
    (issued a (snd (_on_latency_output_selected (Some system_playback_1)
                      (demo_graph, a))))
  = [CallConnect jack_delay_out system_playback_1 true;
     CallConnect system_capture_1 jack_delay_in true]
  /\ _on_latency_output_selected None (demo_graph, a)
     = (demo_graph, set_output_alias None a).
Proof.
  cbv zeta. split; [vm_compute; reflexivity|].
  destruct (selection_attempts_at_once None demo_graph
              (set_input_alias (Some system_capture_1) init))
    as (_ & _ & H & _).
  now apply H.
Defined.

(** ** Registrations of ports *)
Lemma starts_with_spec p : forall s,
  starts_with p s = true <-> exists post, s = p ++ post.
Proof.
  induction p as [|a p IH]; intros s; simpl.
  - split; [intros _; now exists s|reflexivity].
  - destruct s as [|b s]; [split; [discriminate|intros (post & E); discriminate]|].
    split.
    + intros H. apply andb_prop in H. destruct H as [E H].
      apply N.eqb_eq in E. subst b. apply IH in H. destruct H as (post & ->).
      now exists post.
    + intros (post & E). injection E as -> ->. rewrite N.eqb_refl. simpl.
      apply IH. now exists post.
Qed.

(** [contains] is the test [needle in hay] of Python. *)
Lemma contains_spec needle : forall hay,
  contains needle hay = true <-> exists pre post, hay = pre ++ needle ++ post.
Proof.
  induction hay as [|c hay IH]; simpl.
  - rewrite orb_false_r. rewrite starts_with_spec. split.
    + intros (post & E). now exists [], post.
    + intros (pre & post & E). destruct pre; [now exists post|discriminate].
  - split.
    + intros H. apply orb_prop in H. destruct H as [H|H].
      * apply starts_with_spec in H. destruct H as (post & E).
        now exists [], post.
      * apply IH in H. destruct H as (pre & post & ->).
        now exists (c :: pre), post.
    + intros (pre & post & E). apply orb_true_intro. destruct pre as [|x pre].
      * left. apply starts_with_spec. now exists post.
      * right. injection E as -> ->. apply IH. now exists pre, post.
Qed.

Lemma _on_port_registered_emits name is_input a :
  _on_port_registered name is_input a
  = emits
      (if callbacks_enabled a then
         (if text_eqb name jack_delay_in || text_eqb name jack_delay_out
          then [Print (str "Detected registration of " ++ name
                       ++ str ", attempting latency auto-connection...");
                SingleShot 50 Slot_attempt_latency_auto_connection]
          else [])
         ++ (if contains (str "system:") name
                || contains (str "alsa_input") name
                || contains (str "alsa_output") name
             then [SingleShot 50 Slot_populate_latency_combos] else [])
       else []) a.
Proof.
  unfold _on_port_registered.
  destruct (callbacks_enabled a); [|reflexivity].
  destruct (text_eqb name jack_delay_in || text_eqb name jack_delay_out);
    destruct (contains (str "system:") name
              || contains (str "alsa_input") name
              || contains (str "alsa_output") name); reflexivity.
Qed.

(** X15.  The callback of a registration changes nothing but the trace of
    the effects, and does nothing at all for a port that is unregistered, a
    port that is [None], a port without a name, or once the callbacks are
    disabled.  Otherwise it schedules the refresh of the combo boxes exactly
    when the name holds "system:", "alsa_input" or "alsa_output".  It never
    schedules more than one call, the names of the ports of the tool holding
    none of these, and always 50 ms ahead. *)
Theorem registration_schedules_one_call (port : option Port) (register : bool)
    (a : App) :
  let a' := _handle_port_registration port register a in
  a' = emits (issued a a') a
  /\ (port = None \/ register = false \/ callbacks_enabled a = false
      \/ (exists p, port = Some p /\ port_name p = []) ->
      a' = a)
  /\ (forall p,
        port = Some p -> register = true -> callbacks_enabled a = true ->
        (In (SingleShot 50 Slot_populate_latency_combos) (issued a a')
         <-> exists pre marker post,
               port_name p = pre ++ marker ++ post
               /\ (marker = str "system:" \/ marker = str "alsa_input"
                   \/ marker = str "alsa_output")))
  /\ (List.length (filter is_single_shot (issued a a')) <= 1)%nat
  /\ (forall msec slot, In (SingleShot msec slot) (issued a a') -> msec = 50%Z).
Proof.
  cbv zeta.
  assert (Reg : forall name is_input,
    let b := _on_port_registered name is_input a in
    b = emits (issued a b) a
    /\ (callbacks_enabled a = false -> b = a)
    /\ (callbacks_enabled a = true ->
        (In (SingleShot 50 Slot_populate_latency_combos) (issued a b)
         <-> contains (str "system:") name
             || contains (str "alsa_input") name
             || contains (str "alsa_output") name = true))
    /\ (List.length (filter is_single_shot (issued a b)) <= 1)%nat
    /\ (forall msec slot, In (SingleShot msec slot) (issued a b) -> msec = 50%Z)).
  { intros name is_input. cbv zeta.
    rewrite (_on_port_registered_emits name is_input a), issued_emits.
    destruct (callbacks_enabled a).
    2:{ repeat split; try easy. simpl. lia. }
    destruct (text_eqb name jack_delay_in) eqn:E1;
      [|destruct (text_eqb name jack_delay_out) eqn:E2];
      try (apply text_eqb_eq in E1; subst name);
      try (apply text_eqb_eq in E2; subst name).
    - split; [reflexivity|]. split; [discriminate|]. split; [|split].
      + intros _. vm_compute. intuition discriminate.
      + vm_compute. lia.
      + vm_compute. intros msec slot [H|[H|[]]]; congruence.
    - split; [reflexivity|]. split; [discriminate|]. split; [|split].
      + intros _. vm_compute. intuition discriminate.
      + vm_compute. lia.
      + vm_compute. intros msec slot [H|[H|[]]]; congruence.
    - cbn [orb app].
      destruct (contains (str "system:") name
                || contains (str "alsa_input") name
                || contains (str "alsa_output") name).
      + split; [reflexivity|]. split; [discriminate|]. split; [|split].
        * intros _. split; [reflexivity|]. intros _. now left.
        * simpl. lia.
        * intros msec slot [H|[]]. congruence.
      + split; [reflexivity|]. split; [discriminate|]. split; [|split].
        * intros _. split; [intros []|discriminate].
        * simpl. lia.
        * intros msec slot []. }
  assert (Same : a = emits (issued a a) a
                 /\ (List.length (filter is_single_shot (issued a a)) <= 1)%nat
                 /\ (forall msec slot,
                       In (SingleShot msec slot) (issued a a) -> msec = 50%Z)).
  { unfold issued. rewrite skipn_all. repeat split; try easy. simpl. lia. }
  destruct Same as (S1 & S2 & S3).
  unfold _handle_port_registration.
  destruct port as [p|].
  2:{ repeat split; try easy. }
  destruct (port_name p) as [|c name] eqn:Nm.
  { split; [exact S1|]. split; [reflexivity|]. split; [|split; assumption].
    intros p' [= <-] _ _. unfold issued. rewrite skipn_all. split; [intros []|].
    intros (pre & marker & post & E & M). rewrite Nm in E.
    destruct pre; [|discriminate].
    destruct M as [->|[->| ->]]; discriminate. }
  destruct register.
  2:{ split; [exact S1|]. split; [reflexivity|]. split; [|split; assumption].
      intros p' _ [=]. }
  destruct (Reg (c :: name) (port_is_input p)) as (R1 & R2 & R3 & R4 & R5).
  split; [exact R1|]. split; [|split; [|split; assumption]].
  - intros [H|[H|[H|(p' & [= <-] & H)]]]; try discriminate.
    + now apply R2.
    + rewrite Nm in H. discriminate.
  - intros p' [= <-] _ En. rewrite (R3 En). rewrite Nm. rewrite !orb_true_iff.
    rewrite !contains_spec. split.
    + intros [[(pre & post & E)|(pre & post & E)]|(pre & post & E)];
        eexists pre, _, post; (split; [exact E|]); auto.
    + intros (pre & marker & post & E & [->|[->| ->]]); eauto.
Qed.

Lemma registration_schedules_one_call_witness :
  issued init
    (_handle_port_registration
       (Some {| port_name := str "system:capture_3"; port_is_input := false |})
       true init)
  = [SingleShot 50 Slot_populate_latency_combos]
  /\ _handle_port_registration
       (Some {| port_name := str "system:capture_3"; port_is_input := false |})
       false init
     = init.
Proof.
  split; [vm_compute; reflexivity|].
  destruct (registration_schedules_one_call
              (Some {| port_name := str "system:capture_3";
                       port_is_input := false |}) false init) as (_ & H & _).
  apply H. right. now left.
Defined.

(** ** Closing the window *)
Section CloseFacts.
Context {py : PyRuntime}.

Lemma set_waiting_kept w b :
  effects (set_waiting w b) = effects b
  /\ latency_timer (set_waiting w b) = latency_timer b
  /\ callbacks_enabled (set_waiting w b) = callbacks_enabled b
  /\ latency_values (set_waiting w b) = latency_values b
  /\ latency_process (set_waiting w b) = latency_process b.
Proof. now repeat split. Qed.

(** What the end of the child, delivered inside [stop_latency_test], leaves
    as it was. *)
Lemma stop_exit_fields x b :
  isActive (latency_timer b) = false ->
  let b' := set_waiting false (process_exited x b) in
  effects b' = effects b
  /\ isActive (latency_timer b') = false
  /\ callbacks_enabled b' = callbacks_enabled b
  /\ latency_values b' = latency_values b
  /\ process_running b' = false.
Proof.
  intros T. cbv zeta. destruct x as [c s].
  pose proof (process_exited_fields c s b) as F. cbv zeta in F.
  destruct F as (_ & Pn & _ & _ & _ & V & _ & E & C & _).
  pose proof (process_exited_timer (c, s) b T) as T'.
  destruct (set_waiting_kept false (process_exited (c, s) b))
    as (Ew & Tw & Cw & Vw & Pw).
  unfold process_running. rewrite Ew, Tw, Cw, Vw, Pw, Pn.
  now repeat split.
Qed.

Lemma emit_kept e b :
  effects (emit e b) = effects b ++ [e]
  /\ latency_timer (emit e b) = latency_timer b
  /\ callbacks_enabled (emit e b) = callbacks_enabled b
  /\ latency_values (emit e b) = latency_values b
  /\ latency_process (emit e b) = latency_process b.
Proof. now repeat split. Qed.

(** What [stop_latency_test] leaves as it was, and what it does to the
    outside: it tells the child to end, and nothing else. *)
Lemma stop_latency_test_fields a :
  exists a1 l,
    stop_latency_test a = Some a1
    /\ effects a1 = effects a ++ l
    /\ Forall (fun e => is_termination e = true) l
    /\ isActive (latency_timer a1) = false
    /\ callbacks_enabled a1 = callbacks_enabled a
    /\ latency_values a1 = latency_values a
    /\ (child_ends a = true -> process_running a1 = false).
Proof.
  pose (a0 := if isActive (latency_timer a)
              then set_timer (timer_stop (latency_timer a)) a else a).
  assert (F0 : isActive (latency_timer a0) = false
               /\ latency_process a0 = latency_process a
               /\ effects a0 = effects a
               /\ callbacks_enabled a0 = callbacks_enabled a
               /\ latency_values a0 = latency_values a).
  { unfold a0. destruct (isActive (latency_timer a)) eqn:E; now repeat split. }
  destruct F0 as (T0 & P0 & E0 & C0 & V0).
  destruct (process_running a) eqn:R.
  - unfold process_running in R.
    destruct (latency_process a) as [p|] eqn:P; [|discriminate].
    assert (S : proc_state p <> NotRunning)
      by (intros H; rewrite H in R; discriminate).
    rewrite (stop_latency_test_running a P S). fold a0. clearbody a0.
    destruct (append_fields (nl ++ str "Stopping test...") a0)
      as ((C1 & _ & V1 & T1 & _) & E1).
    set (a1 := append (nl ++ str "Stopping test...") a0) in *. clearbody a1.
    destruct (emit_kept ProcessTerminate a1) as (E2 & T2 & C2 & V2 & _).
    set (a2 := emit ProcessTerminate a1) in *. clearbody a2.
    destruct (emit_kept ProcessKill a2) as (E3 & T3 & C3 & V3 & _).
    set (a3 := emit ProcessKill a2) in *. clearbody a3.
    assert (T2' : isActive (latency_timer a2) = false) by congruence.
    assert (T3' : isActive (latency_timer a3) = false) by congruence.
    destruct (proc_on_terminate p) as [x|] eqn:OT.
    + destruct (stop_exit_fields x a2 T2') as (E & T & C & V & Rn).
      set (b := set_waiting false (process_exited x a2)) in *. clearbody b.
      exists b, [ProcessTerminate].
      split; [reflexivity|]. split; [congruence|].
      split; [now repeat constructor|]. split; [exact T|].
      split; [congruence|]. split; [congruence|]. intros _. exact Rn.
    + destruct (proc_on_kill p) as [x|] eqn:OK.
      * destruct (stop_exit_fields x a3 T3') as (E & T & C & V & Rn).
        set (b := set_waiting false (process_exited x a3)) in *. clearbody b.
        exists b, [ProcessTerminate; ProcessKill].
        split; [reflexivity|].
        split; [rewrite E, E3, E2, E1, E0, <- app_assoc; reflexivity|].
        split; [now repeat constructor|]. split; [exact T|].
        split; [congruence|]. split; [congruence|]. intros _. exact Rn.
      * destruct (set_waiting_kept false a3) as (Ew & Tw & Cw & Vw & Pw).
        set (b := set_waiting false a3) in *. clearbody b.
        exists b, [ProcessTerminate; ProcessKill].
        split; [reflexivity|].
        split; [rewrite Ew, E3, E2, E1, E0, <- app_assoc; reflexivity|].
        split; [now repeat constructor|]. split; [congruence|].
        split; [congruence|]. split; [congruence|].
        unfold child_ends. rewrite P, OT, OK. discriminate.
  - assert (R0 : process_running a0 = false)
      by (unfold process_running in *; now rewrite P0).
    exists a0, []. split.
    { unfold stop_latency_test. fold a0. now rewrite R0. }
    split; [now rewrite app_nil_r|].
    split; [constructor|]. split; [exact T0|]. split; [exact C0|].
    split; [exact V0|]. intros _. exact R0.
Qed.

(** X16.  Closing the window never raises, whatever the state and whether
    or not the JACK client closes without an error.  It prints that it
    closes first and how the client closed last, and in between only tells
    the child of a measurement to end.  Afterwards the callbacks are
    disabled, so that no registration of a port does anything any more; the
    samples are kept; and, provided the child ends when told to, no process
    runs. *)
Theorem close_stops_and_silences (closing : result unit) (a : App) :
  exists a' l,
    closeEvent closing a = Some a'
    /\ effects a'
       = effects a
         ++ Print (str "Closing Latency Tester...") :: l
         ++ [Print match closing with
                   | Ok _ => str "JACK client closed."
                   | JackError e => str "Error closing JACK client: " ++ e
                   end]
    /\ Forall (fun e => is_termination e = true) l
    /\ (latency_process a = None -> l = [])
    /\ callbacks_enabled a' = false
    /\ (forall port register,
          _handle_port_registration port register a' = a')
    /\ latency_values a' = latency_values a
    /\ (child_ends a = true -> process_running a' = false).
Proof.
  unfold closeEvent.
  set (a0 := print (str "Closing Latency Tester...") a).
  assert (F0 : effects a0
               = effects a ++ [Print (str "Closing Latency Tester...")]
               /\ latency_process a0 = latency_process a
               /\ latency_values a0 = latency_values a
               /\ child_ends a0 = child_ends a
               /\ process_running a0 = process_running a).
  { unfold a0, print. rewrite emit_effects. now repeat split. }
  destruct F0 as (E0 & P0 & V0 & Ch0 & R0). clearbody a0.
  assert (St : exists a1 l,
    match latency_process a0 with
    | Some _ => stop_latency_test a0
    | None => Some a0
    end = Some a1
    /\ effects a1 = effects a0 ++ l
    /\ Forall (fun e => is_termination e = true) l
    /\ (latency_process a = None -> l = [])
    /\ latency_values a1 = latency_values a0
    /\ (child_ends a0 = true -> process_running a1 = false)).
  { destruct (latency_process a0) as [p|] eqn:P.
    - destruct (stop_latency_test_fields a0)
        as (a1 & l & S & E & T & _ & _ & V & R).
      exists a1, l. repeat split; try assumption.
      intros N. rewrite N in P0. discriminate.
    - exists a0, []. split; [reflexivity|]. split; [now rewrite app_nil_r|].
      split; [constructor|]. split; [reflexivity|]. split; [reflexivity|].
      intros _. unfold process_running. now rewrite P. }
  destruct St as (a1 & l & -> & E1 & T1 & N1 & V1 & R1).
  set (t := match closing with
            | Ok _ => str "JACK client closed."
            | JackError e => str "Error closing JACK client: " ++ e
            end).
  set (a' := match closing with
             | Ok _ => print (str "JACK client closed.")
                         (set_callbacks_enabled false a1)
             | JackError e => print (str "Error closing JACK client: " ++ e)
                                (set_callbacks_enabled false a1)
             end).
  assert (A : a' = print t (set_callbacks_enabled false a1))
    by (unfold a', t; now destruct closing).
  exists a', l. split; [reflexivity|]. rewrite A. clear A a'.
  split.
  { unfold print. rewrite emit_effects. cbn [set_callbacks_enabled effects].
    rewrite E1, E0, <- !app_assoc. reflexivity. }
  split; [exact T1|]. split; [exact N1|]. split; [reflexivity|].
  split.
  { intros port register. unfold _handle_port_registration.
    destruct port as [q|]; [|reflexivity].
    destruct (port_name q); [reflexivity|]. destruct register; reflexivity. }
  split; [cbn [print emit set_callbacks_enabled latency_values]; congruence|].
  intros H. rewrite <- Ch0 in H. apply R1 in H.
  unfold process_running in *. exact H.
Qed.
End CloseFacts.

Lemma close_stops_and_silences_witness :
  exists a',
    closeEvent (py := cpython311) (JackError (str "server gone"))
      average_session = Some a'
    /\ process_running a' = false
    /\ callbacks_enabled a' = false.
Proof.
  destruct (close_stops_and_silences (py := cpython311)
              (JackError (str "server gone")) average_session)
    as (a' & l & E & _ & _ & _ & C & _ & _ & R).
  exists a'. split; [exact E|]. split; [|exact C].
  apply R. vm_compute. reflexivity.
Defined.
